(** * ACPI PPTT parser (drivers/acpi/pptt.c): shallow embedding and properties

    The Processor Properties Topology Table is an offset-addressed inverted
    tree.  The table is modelled as the bytes the [table_hdr] pointer gives
    access to; every pointer into the table is the byte offset from
    [table_hdr], and [NULL] is [None].  Each access to a byte of the table
    is checked against [table_hdr->length]: an access outside the table is a
    crash of the model.  Loops take a fuel argument that bounds their
    iterations. *)

From Stdlib Require Import ZArith List Bool Lia.
Import ListNotations.
Open Scope Z_scope.

(** ** Machine integers *)

Definition u32 (x : Z) : Z := x mod 2 ^ 32.
(** [size_t] and [unsigned long]: the driver is built for arm64 (LP64). *)
Definition u64 (x : Z) : Z := x mod 2 ^ 64.
(** [int]; the kernel is compiled with wrapping signed arithmetic. *)
Definition s32 (x : Z) : Z := (x + 2 ^ 31) mod 2 ^ 32 - 2 ^ 31.

(** ** The table as memory *)

(** Byte at each offset from [table_hdr]. *)
Definition acpi_table := Z -> Z.

Definition byte_at (t : acpi_table) (i : Z) : Z := t i mod 2 ^ 8.

Definition le32 (t : acpi_table) (i : Z) : Z :=
  byte_at t i + 2 ^ 8 * byte_at t (i + 1)
  + 2 ^ 16 * byte_at t (i + 2) + 2 ^ 24 * byte_at t (i + 3).

(** Modelled from the spec: the declarations of include/acpi/actbl.h,
    include/acpi/actbl2.h and include/linux/cacheinfo.h are not under src/.
    The sizes, field offsets and constants below are those of the ACPI 6.2
    PPTT as ACPICA declares it: [struct acpi_table_header] is 36 bytes with
    the u32 [length] at byte 4, and [struct acpi_table_pptt] adds nothing
    to it; [struct acpi_subtable_header] is [u8 type; u8 length];
    [struct acpi_pptt_processor] is [header; u16 reserved; u32 flags;
    u32 parent; u32 acpi_processor_id; u32 number_of_priv_resources],
    followed by the u32 resource references; [struct acpi_pptt_cache] is
    [header; u16 reserved; u32 flags; u32 next_level_of_cache; u32 size;
    u32 number_of_sets; u8 associativity; u8 attributes; u16 line_size]. *)
Definition off_table_length : Z := 4.
Definition sizeof_acpi_table_pptt : Z := 36.

Definition sizeof_acpi_subtable_header : Z := 2.
Definition off_type : Z := 0.
Definition off_length : Z := 1.

Definition sizeof_acpi_pptt_processor : Z := 20.
Definition off_proc_flags : Z := 4.
Definition off_parent : Z := 8.
Definition off_acpi_processor_id : Z := 12.
Definition off_number_of_priv_resources : Z := 16.

Definition off_cache_flags : Z := 4.
Definition off_next_level_of_cache : Z := 8.
Definition off_size : Z := 12.
Definition off_number_of_sets : Z := 16.
Definition off_associativity : Z := 20.
Definition off_attributes : Z := 21.
Definition off_line_size : Z := 22.

Definition ACPI_PPTT_TYPE_PROCESSOR : Z := 0.
Definition ACPI_PPTT_TYPE_CACHE : Z := 1.

Definition ACPI_PPTT_PHYSICAL_PACKAGE : Z := 1.

Definition ACPI_PPTT_SIZE_PROPERTY_VALID : Z := 1.
Definition ACPI_PPTT_NUMBER_OF_SETS_VALID : Z := 2.
Definition ACPI_PPTT_ASSOCIATIVITY_VALID : Z := 4.
Definition ACPI_PPTT_ALLOCATION_TYPE_VALID : Z := 8.
Definition ACPI_PPTT_CACHE_TYPE_VALID : Z := 16.
Definition ACPI_PPTT_WRITE_POLICY_VALID : Z := 32.
Definition ACPI_PPTT_LINE_SIZE_VALID : Z := 64.

Definition ACPI_PPTT_MASK_ALLOCATION_TYPE : Z := 3.
Definition ACPI_PPTT_MASK_CACHE_TYPE : Z := 12.
Definition ACPI_PPTT_MASK_WRITE_POLICY : Z := 16.

Definition ACPI_PPTT_CACHE_READ_ALLOCATE : Z := 0.
Definition ACPI_PPTT_CACHE_WRITE_ALLOCATE : Z := 1.
Definition ACPI_PPTT_CACHE_RW_ALLOCATE : Z := 2.
Definition ACPI_PPTT_CACHE_RW_ALLOCATE_ALT : Z := 3.
Definition ACPI_PPTT_CACHE_TYPE_DATA : Z := 0.
Definition ACPI_PPTT_CACHE_TYPE_INSTR : Z := 4.
Definition ACPI_PPTT_CACHE_TYPE_UNIFIED : Z := 8.
Definition ACPI_PPTT_CACHE_POLICY_WB : Z := 0.
Definition ACPI_PPTT_CACHE_POLICY_WT : Z := 16.


Definition CACHE_WRITE_THROUGH : Z := 1.
Definition CACHE_WRITE_BACK : Z := 2.
Definition CACHE_READ_ALLOCATE : Z := 4.
Definition CACHE_WRITE_ALLOCATE : Z := 8.

Definition ENOENT : Z := 2.
Definition PPTT_ABORT_PACKAGE : Z := 255.

(** [table_hdr->length]. *)
Definition table_length (t : acpi_table) : Z := le32 t off_table_length.

(** ** Outcomes: diagnostics, crashes, fuel *)

(** The messages of the file ([pr_err] and [pr_err_once]). *)
Inductive diag : Type :=
| DuplicateCacheLevel
| InvalidZeroLengthSubtable
| UnableToLocateCore (cpu : Z)
| NoPPTTTable.

Inductive crash : Type :=
| OutOfBounds
| NullPointer.

Inductive result (A : Type) : Type :=
| Ok (a : A) (log : list diag)
| Crash (c : crash)
| OutOfFuel.

Arguments Ok {A} a log.
Arguments Crash {A} c.
Arguments OutOfFuel {A}.

Definition ret {A} (a : A) : result A := Ok a [].

Definition bind {A B} (m : result A) (f : A -> result B) : result B :=
  match m with
  | Ok a l =>
      match f a with
      | Ok b l' => Ok b (l ++ l')
      | Crash c => Crash c
      | OutOfFuel => OutOfFuel
      end
  | Crash c => Crash c
  | OutOfFuel => OutOfFuel
  end.

Definition pr_err (d : diag) : result unit := Ok tt [d].

(** Modelled from the spec: [pr_err_once] belongs to
    include/linux/printk.h, not under src/.  It prints its message the
    first time its call site is reached and nothing afterwards: every call
    site has a static flag of its own, set when the message is printed.
    The file has four such call sites; [once_flags] holds their flags,
    [true] when the message has been printed already. *)
Record once_flags : Type := {
  core_printed : bool;      (* topology_get_acpi_cpu_tag, core not located *)
  topology_printed : bool;  (* find_acpi_cpu_topology_tag, no table *)
  levels_printed : bool;    (* acpi_find_last_cache_level, no table *)
  setup_printed : bool      (* cache_setup_acpi, no table *)
}.

Definition set_core_printed (o : once_flags) (b : bool) : once_flags :=
  {| core_printed := b; topology_printed := topology_printed o;
     levels_printed := levels_printed o; setup_printed := setup_printed o |}.

Definition set_topology_printed (o : once_flags) (b : bool) : once_flags :=
  {| core_printed := core_printed o; topology_printed := b;
     levels_printed := levels_printed o; setup_printed := setup_printed o |}.

Definition set_levels_printed (o : once_flags) (b : bool) : once_flags :=
  {| core_printed := core_printed o; topology_printed := topology_printed o;
     levels_printed := b; setup_printed := setup_printed o |}.

Definition set_setup_printed (o : once_flags) (b : bool) : once_flags :=
  {| core_printed := core_printed o; topology_printed := topology_printed o;
     levels_printed := levels_printed o; setup_printed := b |}.

(** [pr_err_once] at a call site whose flag is [printed]; returns the new
    value of the flag. *)
Definition pr_err_once (printed : bool) (d : diag) : result bool :=
  if printed then Ok true [] else Ok true [d].

(** No message printed yet. *)
Definition fresh_once : once_flags :=
  {| core_printed := false; topology_printed := false;
     levels_printed := false; setup_printed := false |}.

Notation "x <- m ;; k" := (bind m (fun x => k))
  (at level 61, m at next level, right associativity).
Notation "' pat <- m ;; k" := (bind m (fun x => match x with pat => k end))
  (at level 61, pat pattern, m at next level, right associativity).
Notation "m ;;; k" := (bind m (fun _ => k))
  (at level 61, right associativity).

(** Checked reads of the table. *)
Definition in_table (t : acpi_table) (off n : Z) : bool :=
  (0 <=? off) && (off + n <=? table_length t).

Definition rd8 (t : acpi_table) (off : Z) : result Z :=
  if in_table t off 1 then ret (byte_at t off) else Crash OutOfBounds.

Definition rd32 (t : acpi_table) (off : Z) : result Z :=
  if in_table t off 4 then ret (le32 t off) else Crash OutOfBounds.

(** Dereference of a pointer that may be [NULL]. *)
Definition deref (p : option Z) : result Z :=
  match p with
  | Some o => ret o
  | None => Crash NullPointer
  end.

(** ** fetch_pptt_subtable and its typed variants *)

Definition fetch_pptt_subtable (t : acpi_table) (pptt_ref : Z)
  : result (option Z) :=
  if pptt_ref <? sizeof_acpi_subtable_header then ret None
  else if u64 (pptt_ref + sizeof_acpi_subtable_header) >? table_length t
  then ret None
  else
    let entry := pptt_ref in
    len <- rd8 t (entry + off_length) ;;
    if u32 (pptt_ref + len) >? table_length t then ret None
    else ret (Some entry).

Definition fetch_pptt_node := fetch_pptt_subtable.
Definition fetch_pptt_cache := fetch_pptt_subtable.

(** ** acpi_get_pptt_resource *)

Definition acpi_get_pptt_resource (t : acpi_table) (node resource : Z)
  : result (option Z) :=
  n <- rd32 t (node + off_number_of_priv_resources) ;;
  if u32 resource >=? n then ret None
  else
    let ref := node + sizeof_acpi_pptt_processor + 4 * resource in
    r <- rd32 t ref ;;
    fetch_pptt_subtable t r.

(** ** acpi_pptt_walk_cache *)

(** The test of the [if] in the loop body, with C's short-circuit order:
    the flags are read only at the requested level, the attributes only
    when the cache type is valid. *)
Definition cache_matches (t : acpi_table) (cache local_level level type : Z)
  : result bool :=
  if local_level =? level then
    flags <- rd32 t (cache + off_cache_flags) ;;
    if Z.land flags ACPI_PPTT_CACHE_TYPE_VALID =? 0 then ret false
    else
      attributes <- rd8 t (cache + off_attributes) ;;
      ret (Z.land attributes ACPI_PPTT_MASK_CACHE_TYPE =? type)
  else ret false.

(** The test that a non-NULL [found] differs from [cache]. *)
Definition is_duplicate (found : option Z) (cache : Z) : bool :=
  match found with
  | Some f => negb (cache =? f)
  | None => false
  end.

Fixpoint acpi_pptt_walk_cache_loop (n : nat) (t : acpi_table)
  (local_level : Z) (cache found : option Z) (level type : Z)
  : result (Z * option Z) :=
  match cache with
  | None => ret (local_level, found)
  | Some c =>
      match n with
      | O => OutOfFuel
      | S n' =>
          let local_level := s32 (local_level + 1) in
          m <- cache_matches t c local_level level type ;;
          found <- (if m then
                      (if is_duplicate found c
                       then pr_err DuplicateCacheLevel else ret tt) ;;;
                      ret (Some c)
                    else ret found) ;;
          next <- rd32 t (c + off_next_level_of_cache) ;;
          cache <- fetch_pptt_cache t next ;;
          acpi_pptt_walk_cache_loop n' t local_level cache found level type
      end
  end.

(** Returns the depth and the new value of [*found]. *)
Definition acpi_pptt_walk_cache (fuel : nat) (t : acpi_table)
  (local_level res : Z) (found : option Z) (level type : Z)
  : result (Z * option Z) :=
  ty <- rd8 t (res + off_type) ;;
  if negb (ty =? ACPI_PPTT_TYPE_CACHE) then ret (0, found)
  else acpi_pptt_walk_cache_loop fuel t local_level (Some res) found level type.

(** ** acpi_find_cache_level *)

Fixpoint acpi_find_cache_level_loop (n fuel : nat) (t : acpi_table)
  (cpu_node starting_level level type resource number_of_levels : Z)
  (ret_ : option Z) : result (Z * option Z) :=
  res <- acpi_get_pptt_resource t cpu_node resource ;;
  match res with
  | None => ret (number_of_levels, ret_)
  | Some r =>
      match n with
      | O => OutOfFuel
      | S n' =>
          let resource := s32 (resource + 1) in
          ' (local_level, ret_) <-
            acpi_pptt_walk_cache fuel t starting_level r ret_ level type ;;
          let number_of_levels :=
            if number_of_levels <? local_level then local_level
            else number_of_levels in
          acpi_find_cache_level_loop n' fuel t cpu_node starting_level
            level type resource number_of_levels ret_
      end
  end.

(** Returns the matched cache and the new value of [*starting_level]. *)
Definition acpi_find_cache_level (fuel : nat) (t : acpi_table)
  (cpu_node starting_level level type : Z) : result (option Z * Z) :=
  ' (number_of_levels, ret_) <-
    acpi_find_cache_level_loop fuel fuel t cpu_node starting_level level type
      0 starting_level None ;;
  let starting_level :=
    if number_of_levels >? starting_level then number_of_levels
    else starting_level in
  ret (ret_, starting_level).

(** ** acpi_process_node *)

Fixpoint acpi_process_node_loop (n fuel : nat) (t : acpi_table)
  (cpu_node total_levels : Z) : result Z :=
  match n with
  | O => OutOfFuel
  | S n' =>
      ' (_, total_levels) <-
        acpi_find_cache_level fuel t cpu_node total_levels 0 0 ;;
      parent <- rd32 t (cpu_node + off_parent) ;;
      cpu_node <- fetch_pptt_node t parent ;;
      match cpu_node with
      | Some c => acpi_process_node_loop n' fuel t c total_levels
      | None => ret total_levels
      end
  end.

Definition acpi_process_node (fuel : nat) (t : acpi_table) (cpu_node : Z)
  : result Z :=
  acpi_process_node_loop fuel fuel t cpu_node 0.

(** ** acpi_pptt_leaf_node *)

Fixpoint acpi_pptt_leaf_node_loop (n : nat) (t : acpi_table)
  (node_entry entry : Z) : result Z :=
  if entry + sizeof_acpi_subtable_header <? table_length t then
    match n with
    | O => OutOfFuel
    | S n' =>
        ty <- rd8 t (entry + off_type) ;;
        hit <- (if ty =? ACPI_PPTT_TYPE_PROCESSOR then
                  parent <- rd32 t (entry + off_parent) ;;
                  ret (parent =? node_entry)
                else ret false) ;;
        if hit then ret 0
        else
          len <- rd8 t (entry + off_length) ;;
          acpi_pptt_leaf_node_loop n' t node_entry (entry + len)
    end
  else ret 1.

Definition acpi_pptt_leaf_node (fuel : nat) (t : acpi_table) (node : Z)
  : result Z :=
  let node_entry := u32 node in
  acpi_pptt_leaf_node_loop fuel t node_entry sizeof_acpi_table_pptt.

(** ** acpi_find_processor_node *)

(** The test of the second [if] of the loop body. *)
Definition is_leaf_processor (fuel : nat) (t : acpi_table)
  (acpi_cpu_id entry : Z) : result bool :=
  ty <- rd8 t (entry + off_type) ;;
  if ty =? ACPI_PPTT_TYPE_PROCESSOR then
    id <- rd32 t (entry + off_acpi_processor_id) ;;
    if acpi_cpu_id =? id then
      leaf <- acpi_pptt_leaf_node fuel t entry ;;
      ret (negb (leaf =? 0))
    else ret false
  else ret false.

Fixpoint acpi_find_processor_node_loop (n fuel : nat) (t : acpi_table)
  (acpi_cpu_id entry : Z) : result (option Z) :=
  if entry + sizeof_acpi_subtable_header <? table_length t then
    match n with
    | O => OutOfFuel
    | S n' =>
        len <- rd8 t (entry + off_length) ;;
        if len =? 0 then
          pr_err InvalidZeroLengthSubtable ;;; ret None
        else
          m <- is_leaf_processor fuel t acpi_cpu_id entry ;;
          if m then ret (Some entry)
          else acpi_find_processor_node_loop n' fuel t acpi_cpu_id
                 (entry + len)
    end
  else ret None.

Definition acpi_find_processor_node (fuel : nat) (t : acpi_table)
  (acpi_cpu_id : Z) : result (option Z) :=
  acpi_find_processor_node_loop fuel fuel t acpi_cpu_id
    sizeof_acpi_table_pptt.

Definition acpi_find_cache_levels (fuel : nat) (t : acpi_table)
  (acpi_cpu_id : Z) : result Z :=
  cpu <- acpi_find_processor_node fuel t acpi_cpu_id ;;
  match cpu with
  | Some c => acpi_process_node fuel t c
  | None => ret 0
  end.

(** ** acpi_cache_type and acpi_find_cache_node *)

Inductive cache_type : Type :=
| CACHE_TYPE_NOCACHE
| CACHE_TYPE_INST
| CACHE_TYPE_DATA
| CACHE_TYPE_SEPARATE
| CACHE_TYPE_UNIFIED.

Definition acpi_cache_type (type : cache_type) : Z :=
  match type with
  | CACHE_TYPE_DATA => ACPI_PPTT_CACHE_TYPE_DATA
  | CACHE_TYPE_INST => ACPI_PPTT_CACHE_TYPE_INSTR
  | _ => ACPI_PPTT_CACHE_TYPE_UNIFIED
  end.

Fixpoint acpi_find_cache_node_loop (n fuel : nat) (t : acpi_table)
  (cpu_node found : option Z) (total_levels level acpi_type : Z)
  (node : option Z) : result (option Z * option Z) :=
  match cpu_node, found with
  | Some c, None =>
      match n with
      | O => OutOfFuel
      | S n' =>
          ' (found, total_levels) <-
            acpi_find_cache_level fuel t c total_levels level acpi_type ;;
          let node := Some c in
          parent <- rd32 t (c + off_parent) ;;
          cpu_node <- fetch_pptt_node t parent ;;
          acpi_find_cache_node_loop n' fuel t cpu_node found total_levels
            level acpi_type node
      end
  | _, _ => ret (found, node)
  end.

(** Returns the matched cache and the new value of [*node]. *)
Definition acpi_find_cache_node (fuel : nat) (t : acpi_table)
  (acpi_cpu_id : Z) (type : cache_type) (level : Z) (node : option Z)
  : result (option Z * option Z) :=
  let acpi_type := acpi_cache_type type in
  cpu_node <- acpi_find_processor_node fuel t acpi_cpu_id ;;
  acpi_find_cache_node_loop fuel fuel t cpu_node None 0 (s32 level)
    acpi_type node.

(** ** update_cache_properties *)

Record acpi_pptt_cache : Type := {
  flags : Z;
  next_level_of_cache : Z;
  size : Z;
  number_of_sets : Z;
  associativity : Z;
  attributes : Z;
  line_size : Z
}.

Record cacheinfo : Type := {
  ci_type : cache_type;
  ci_level : Z;
  ci_coherency_line_size : Z;
  ci_number_of_sets : Z;
  ci_ways_of_associativity : Z;
  ci_physical_line_partition : Z;
  ci_size : Z;
  ci_attributes : Z;
  ci_firmware_node : option Z
}.

Definition set_firmware_node (l : cacheinfo) (v : option Z) : cacheinfo :=
  {| ci_type := ci_type l; ci_level := ci_level l;
     ci_coherency_line_size := ci_coherency_line_size l;
     ci_number_of_sets := ci_number_of_sets l;
     ci_ways_of_associativity := ci_ways_of_associativity l;
     ci_physical_line_partition := ci_physical_line_partition l;
     ci_size := ci_size l; ci_attributes := ci_attributes l;
     ci_firmware_node := v |}.

Definition set_size (l : cacheinfo) (v : Z) : cacheinfo :=
  {| ci_type := ci_type l; ci_level := ci_level l;
     ci_coherency_line_size := ci_coherency_line_size l;
     ci_number_of_sets := ci_number_of_sets l;
     ci_ways_of_associativity := ci_ways_of_associativity l;
     ci_physical_line_partition := ci_physical_line_partition l;
     ci_size := v; ci_attributes := ci_attributes l;
     ci_firmware_node := ci_firmware_node l |}.

Definition set_coherency_line_size (l : cacheinfo) (v : Z) : cacheinfo :=
  {| ci_type := ci_type l; ci_level := ci_level l;
     ci_coherency_line_size := v;
     ci_number_of_sets := ci_number_of_sets l;
     ci_ways_of_associativity := ci_ways_of_associativity l;
     ci_physical_line_partition := ci_physical_line_partition l;
     ci_size := ci_size l; ci_attributes := ci_attributes l;
     ci_firmware_node := ci_firmware_node l |}.

Definition set_number_of_sets (l : cacheinfo) (v : Z) : cacheinfo :=
  {| ci_type := ci_type l; ci_level := ci_level l;
     ci_coherency_line_size := ci_coherency_line_size l;
     ci_number_of_sets := v;
     ci_ways_of_associativity := ci_ways_of_associativity l;
     ci_physical_line_partition := ci_physical_line_partition l;
     ci_size := ci_size l; ci_attributes := ci_attributes l;
     ci_firmware_node := ci_firmware_node l |}.

Definition set_ways_of_associativity (l : cacheinfo) (v : Z) : cacheinfo :=
  {| ci_type := ci_type l; ci_level := ci_level l;
     ci_coherency_line_size := ci_coherency_line_size l;
     ci_number_of_sets := ci_number_of_sets l;
     ci_ways_of_associativity := v;
     ci_physical_line_partition := ci_physical_line_partition l;
     ci_size := ci_size l; ci_attributes := ci_attributes l;
     ci_firmware_node := ci_firmware_node l |}.

Definition set_attributes (l : cacheinfo) (v : Z) : cacheinfo :=
  {| ci_type := ci_type l; ci_level := ci_level l;
     ci_coherency_line_size := ci_coherency_line_size l;
     ci_number_of_sets := ci_number_of_sets l;
     ci_ways_of_associativity := ci_ways_of_associativity l;
     ci_physical_line_partition := ci_physical_line_partition l;
     ci_size := ci_size l; ci_attributes := v;
     ci_firmware_node := ci_firmware_node l |}.

(** The [struct acpi_pptt_cache] that a pointer into the table designates. *)
Definition pptt_cache_at (t : acpi_table) (c : Z) : acpi_pptt_cache :=
  {| flags := le32 t (c + off_cache_flags);
     next_level_of_cache := le32 t (c + off_next_level_of_cache);
     size := le32 t (c + off_size);
     number_of_sets := le32 t (c + off_number_of_sets);
     associativity := byte_at t (c + off_associativity);
     attributes := byte_at t (c + off_attributes);
     line_size := byte_at t (c + off_line_size)
                  + 2 ^ 8 * byte_at t (c + off_line_size + 1) |}.

(** [found_cache->flags & FLAG] as a condition. *)
Definition flag_set (c : acpi_pptt_cache) (flag : Z) : bool :=
  negb (Z.land (flags c) flag =? 0).

Definition update_cache_properties (this_leaf : cacheinfo)
  (found_cache : acpi_pptt_cache) (cpu_node : option Z) : cacheinfo :=
  let this_leaf := set_firmware_node this_leaf cpu_node in
  let this_leaf :=
    if flag_set found_cache ACPI_PPTT_SIZE_PROPERTY_VALID
    then set_size this_leaf (size found_cache) else this_leaf in
  let this_leaf :=
    if flag_set found_cache ACPI_PPTT_LINE_SIZE_VALID
    then set_coherency_line_size this_leaf (line_size found_cache)
    else this_leaf in
  let this_leaf :=
    if flag_set found_cache ACPI_PPTT_NUMBER_OF_SETS_VALID
    then set_number_of_sets this_leaf (number_of_sets found_cache)
    else this_leaf in
  let this_leaf :=
    if flag_set found_cache ACPI_PPTT_ASSOCIATIVITY_VALID
    then set_ways_of_associativity this_leaf (associativity found_cache)
    else this_leaf in
  let this_leaf :=
    if flag_set found_cache ACPI_PPTT_WRITE_POLICY_VALID then
      let sel := Z.land (attributes found_cache) ACPI_PPTT_MASK_WRITE_POLICY in
      if sel =? ACPI_PPTT_CACHE_POLICY_WT
      then set_attributes this_leaf CACHE_WRITE_THROUGH
      else if sel =? ACPI_PPTT_CACHE_POLICY_WB
      then set_attributes this_leaf CACHE_WRITE_BACK
      else this_leaf
    else this_leaf in
  if flag_set found_cache ACPI_PPTT_ALLOCATION_TYPE_VALID then
    let sel := Z.land (attributes found_cache) ACPI_PPTT_MASK_ALLOCATION_TYPE in
    if sel =? ACPI_PPTT_CACHE_READ_ALLOCATE
    then set_attributes this_leaf
           (Z.lor (ci_attributes this_leaf) CACHE_READ_ALLOCATE)
    else if sel =? ACPI_PPTT_CACHE_WRITE_ALLOCATE
    then set_attributes this_leaf
           (Z.lor (ci_attributes this_leaf) CACHE_WRITE_ALLOCATE)
    else if (sel =? ACPI_PPTT_CACHE_RW_ALLOCATE)
            || (sel =? ACPI_PPTT_CACHE_RW_ALLOCATE_ALT)
    then set_attributes this_leaf
           (Z.lor (ci_attributes this_leaf)
              (Z.lor CACHE_READ_ALLOCATE CACHE_WRITE_ALLOCATE))
    else this_leaf
  else this_leaf.

(** ** acpi_find_processor_package_id and the topology tag *)

Fixpoint acpi_find_processor_package_id_loop (n : nat) (t : acpi_table)
  (cpu : option Z) (level flag : Z) : result (option Z) :=
  match cpu with
  | None => ret None
  | Some c =>
      if level =? 0 then ret cpu
      else
        match n with
        | O => OutOfFuel
        | S n' =>
            cpu_flags <- rd32 t (c + off_proc_flags) ;;
            if negb (Z.land cpu_flags (u32 flag) =? 0) then ret cpu
            else
              parent <- rd32 t (c + off_parent) ;;
              prev_node <- fetch_pptt_node t parent ;;
              match prev_node with
              | None => ret cpu
              | Some p =>
                  acpi_find_processor_package_id_loop n' t (Some p)
                    (s32 (level - 1)) flag
              end
        end
  end.

Definition acpi_find_processor_package_id (fuel : nat) (t : acpi_table)
  (cpu : option Z) (level flag : Z) : result (option Z) :=
  acpi_find_processor_package_id_loop fuel t cpu level flag.

Section External.

(** [get_acpi_id_for_cpu] and [acpi_get_table] belong to the rest of the
    kernel. *)
Variable get_acpi_id_for_cpu : Z -> Z.
Variable acpi_get_table : option acpi_table.

(** The functions with a [pr_err_once] take the flags of the call sites
    and return them, next to their own result. *)
Definition topology_get_acpi_cpu_tag (fuel : nat) (t : acpi_table)
  (once : once_flags) (cpu level flag : Z) : result (Z * once_flags) :=
  let acpi_cpu_id := u32 (get_acpi_id_for_cpu cpu) in
  cpu_node <- acpi_find_processor_node fuel t acpi_cpu_id ;;
  match cpu_node with
  | Some c =>
      cpu_node <- acpi_find_processor_package_id fuel t (Some c) level flag ;;
      if level =? 0 then
        n <- deref cpu_node ;;
        id <- rd32 t (n + off_acpi_processor_id) ;;
        ret (s32 id, once)
      else
        (* the pointer difference is computed from the node's address *)
        n <- deref cpu_node ;;
        ret (s32 n, once)
  | None =>
      printed <- pr_err_once (core_printed once) (UnableToLocateCore cpu) ;;
      ret (- ENOENT, set_core_printed once printed)
  end.

Definition find_acpi_cpu_topology_tag (fuel : nat) (once : once_flags)
  (cpu level flag : Z) : result (Z * once_flags) :=
  match acpi_get_table with
  | None =>
      printed <- pr_err_once (topology_printed once) NoPPTTTable ;;
      ret (- ENOENT, set_topology_printed once printed)
  | Some table => topology_get_acpi_cpu_tag fuel table once cpu level flag
  end.

Definition acpi_find_last_cache_level (fuel : nat) (once : once_flags)
  (cpu : Z) : result (Z * once_flags) :=
  let acpi_cpu_id := u32 (get_acpi_id_for_cpu cpu) in
  match acpi_get_table with
  | None =>
      printed <- pr_err_once (levels_printed once) NoPPTTTable ;;
      ret (0, set_levels_printed once printed)
  | Some table =>
      number_of_levels <- acpi_find_cache_levels fuel table acpi_cpu_id ;;
      ret (number_of_levels, once)
  end.

Definition find_acpi_cpu_topology (fuel : nat) (once : once_flags)
  (cpu level : Z) : result (Z * once_flags) :=
  find_acpi_cpu_topology_tag fuel once cpu level 0.

Definition find_acpi_cpu_topology_package (fuel : nat) (once : once_flags)
  (cpu : Z) : result (Z * once_flags) :=
  find_acpi_cpu_topology_tag fuel once cpu PPTT_ABORT_PACKAGE
    ACPI_PPTT_PHYSICAL_PACKAGE.

End External.

(** ** The record sequence of a table *)

(** The records laid out after the table header, each one starting where
    the previous one ends; a record of length zero ends the sequence. *)
Fixpoint pptt_records (n : nat) (t : acpi_table) (entry : Z) : list Z :=
  match n with
  | O => []
  | S n' =>
      if entry + sizeof_acpi_subtable_header <? table_length t then
        entry ::
          (if byte_at t (entry + off_length) =? 0 then []
           else pptt_records n' t (entry + byte_at t (entry + off_length)))
      else []
  end.

Definition records (t : acpi_table) : list Z :=
  pptt_records (Z.to_nat (table_length t)) t sizeof_acpi_table_pptt.

(** A record of non-zero length that lies within the table and, when it is
    a processor record, holds the fixed processor fields. *)
Definition wf_record (t : acpi_table) (e : Z) : bool :=
  let len := byte_at t (e + off_length) in
  negb (len =? 0) && (e + len <=? table_length t)
  && (if byte_at t (e + off_type) =? ACPI_PPTT_TYPE_PROCESSOR
      then sizeof_acpi_pptt_processor <=? len else true).

Definition wf_table (t : acpi_table) : bool := forallb (wf_record t) (records t).

(** The record at [e] has a non-zero length. *)
Definition nonzero_length (t : acpi_table) (e : Z) : bool :=
  negb (byte_at t (e + off_length) =? 0).

(** The processor record at [e] names [p] as its parent. *)
Definition child_of (t : acpi_table) (p e : Z) : bool :=
  (byte_at t (e + off_type) =? ACPI_PPTT_TYPE_PROCESSOR)
  && (le32 t (e + off_parent) =? p).

(** The leaf property as the specification words it: no processor record
    other than [p] itself names [p] as its parent. *)
Definition no_other_child (t : acpi_table) (p : Z) : Prop :=
  forall e, In e (records t) -> e <> p -> child_of t p e = false.

Definition leaf_iff_no_other_child (fuel : nat) (t : acpi_table) (p : Z)
  : Prop :=
  exists b, acpi_pptt_leaf_node fuel t p = Ok b [] /\
            (b <> 0 <-> no_other_child t p).

(** A result that is not a fuel exhaustion. *)
Definition returns {A} (r : result A) : bool :=
  match r with
  | OutOfFuel => false
  | _ => true
  end.

(** A result that is not the dereference of a NULL pointer. *)
Definition no_null {A} (r : result A) : Prop := r <> Crash NullPointer.

(** ** Depths and matches seen by acpi_find_cache_level *)

(** The depth reported by a walk, without the match and the log. *)
Definition depth_of (r : result (Z * option Z)) : result Z :=
  match r with
  | Ok (d, _) _ => Ok d []
  | Crash c => Crash c
  | OutOfFuel => OutOfFuel
  end.

(** The depth that acpi_pptt_walk_cache reports for each resource of a
    node, in resource order. *)
Fixpoint resource_depths (n fuel : nat) (t : acpi_table)
  (cpu_node starting_level level type resource : Z) : list Z :=
  match acpi_get_pptt_resource t cpu_node resource, n with
  | Ok (Some r) _, S n' =>
      match acpi_pptt_walk_cache fuel t starting_level r None level type with
      | Ok (d, _) _ =>
          d :: resource_depths n' fuel t cpu_node starting_level level type
                 (s32 (resource + 1))
      | _ => []
      end
  | _, _ => []
  end.

Definition cache_matchesb (t : acpi_table) (cache local_level level type : Z)
  : bool :=
  match cache_matches t cache local_level level type with
  | Ok b _ => b
  | _ => false
  end.

Definition next_cache (t : acpi_table) (cache : Z) : option Z :=
  match (next <- rd32 t (cache + off_next_level_of_cache) ;;
         fetch_pptt_cache t next) with
  | Ok r _ => r
  | _ => None
  end.

(** The cache records of one chain that match (level, type), in the order
    the walk meets them. *)
Fixpoint chain_matches (n : nat) (t : acpi_table) (local_level : Z)
  (cache : option Z) (level type : Z) : list Z :=
  match cache, n with
  | Some c, S n' =>
      let local_level := s32 (local_level + 1) in
      (if cache_matchesb t c local_level level type then [c] else [])
      ++ chain_matches n' t local_level (next_cache t c) level type
  | _, _ => []
  end.

Definition resource_matches (fuel : nat) (t : acpi_table)
  (starting_level res level type : Z) : list Z :=
  if byte_at t (res + off_type) =? ACPI_PPTT_TYPE_CACHE
  then chain_matches fuel t starting_level (Some res) level type
  else [].

(** The matching cache records under one processor node, in the order
    acpi_find_cache_level meets them. *)
Fixpoint node_matches (n fuel : nat) (t : acpi_table)
  (cpu_node starting_level level type resource : Z) : list Z :=
  match acpi_get_pptt_resource t cpu_node resource, n with
  | Ok (Some r) _, S n' =>
      resource_matches fuel t starting_level r level type
      ++ node_matches n' fuel t cpu_node starting_level level type
           (s32 (resource + 1))
  | _, _ => []
  end.

(** What the sequence of [*found = cache] assignments leaves in [found],
    and the diagnostics printed on the way. *)
Fixpoint assign_matches (found : option Z) (ms : list Z)
  : option Z * list diag :=
  match ms with
  | [] => (found, [])
  | m :: ms' =>
      let (f, l) := assign_matches (Some m) ms' in
      (f, (if is_duplicate found m then [DuplicateCacheLevel] else []) ++ l)
  end.

(** The match as the specification words it: the first record met is
    returned. *)
Definition keeps_first_match (fuel : nat) (t : acpi_table)
  (cpu_node starting_level level type : Z) : Prop :=
  forall r s log,
    acpi_find_cache_level fuel t cpu_node starting_level level type
    = Ok (r, s) log ->
    r = hd_error (node_matches fuel fuel t cpu_node starting_level level type 0).

(** ** Tables whose walked records are readable *)

(** The processor fields that the ascent reads at [c] lie within the table,
    and so do those of its ancestors, up to [n] hops. *)
Fixpoint ancestors_readable (n : nat) (t : acpi_table) (c : Z) : bool :=
  in_table t (c + off_proc_flags) 4 && in_table t (c + off_parent) 4
  && match n with
     | O => true
     | S n' =>
         match fetch_pptt_node t (le32 t (c + off_parent)) with
         | Ok (Some p) _ => ancestors_readable n' t p
         | _ => true
         end
     end.

(** The cache chain from [cache] ends within [n] records, and each of them
    holds the fields that the walk reads. *)
Fixpoint chain_readable (n : nat) (t : acpi_table) (cache : option Z) : bool :=
  match cache with
  | None => true
  | Some c =>
      match n with
      | O => false
      | S n' =>
          in_table t (c + off_cache_flags) 4
          && in_table t (c + off_attributes) 1
          && in_table t (c + off_next_level_of_cache) 4
          && chain_readable n' t (next_cache t c)
      end
  end.

Definition resource_readable (fuel : nat) (t : acpi_table) (res : Z) : bool :=
  if byte_at t (res + off_type) =? ACPI_PPTT_TYPE_CACHE
  then chain_readable fuel t (Some res) else true.

(** The resource references of [cpu_node] from index [resource] on are
    readable, there are at most [n] of them before the list ends, and the
    chain of each is readable. *)
Fixpoint resources_readable (n fuel : nat) (t : acpi_table)
  (cpu_node resource : Z) : bool :=
  match acpi_get_pptt_resource t cpu_node resource with
  | Ok None _ => true
  | Ok (Some r) _ =>
      match n with
      | O => false
      | S n' =>
          resource_readable fuel t r
          && resources_readable n' fuel t cpu_node (s32 (resource + 1))
      end
  | _ => false
  end.

(** ** Records reached by the scan of acpi_find_processor_node *)

(** [scan_reaches fuel t id k e]: after [k] iterations that neither matched
    nor stopped, the scan for [id] stands at the record at [e]. *)
Inductive scan_reaches (fuel : nat) (t : acpi_table) (id : Z)
  : nat -> Z -> Prop :=
| reach_first : scan_reaches fuel t id O sizeof_acpi_table_pptt
| reach_next k e :
    scan_reaches fuel t id k e ->
    e + sizeof_acpi_subtable_header < table_length t ->
    byte_at t (e + off_length) <> 0 ->
    is_leaf_processor fuel t id e = Ok false [] ->
    scan_reaches fuel t id (S k) (e + byte_at t (e + off_length)).

(** ** Decoded cache attributes *)

Definition CACHE_ALLOCATE_POLICY_MASK : Z :=
  Z.lor CACHE_READ_ALLOCATE CACHE_WRITE_ALLOCATE.

(** Write policy of a cache record as a cacheinfo attribute. *)
Definition write_policy_bits (c : acpi_pptt_cache) : Z :=
  if Z.testbit (attributes c) 4 then CACHE_WRITE_THROUGH else CACHE_WRITE_BACK.

(** Allocation type of a cache record as cacheinfo attributes. *)
Definition allocation_bits (c : acpi_pptt_cache) : Z :=
  let a := attributes c mod 4 in
  if a =? ACPI_PPTT_CACHE_READ_ALLOCATE then CACHE_READ_ALLOCATE
  else if a =? ACPI_PPTT_CACHE_WRITE_ALLOCATE then CACHE_WRITE_ALLOCATE
  else Z.lor CACHE_READ_ALLOCATE CACHE_WRITE_ALLOCATE.

(** The six validity flags that guard a property field. *)
Definition property_flags : Z :=
  ACPI_PPTT_SIZE_PROPERTY_VALID + ACPI_PPTT_NUMBER_OF_SETS_VALID
  + ACPI_PPTT_ASSOCIATIVITY_VALID + ACPI_PPTT_ALLOCATION_TYPE_VALID
  + ACPI_PPTT_WRITE_POLICY_VALID + ACPI_PPTT_LINE_SIZE_VALID.

(** ** Building concrete tables *)

(** A table of declared length [len] whose records start right after the
    header and hold the bytes [body]. *)
Definition mk_table (len : Z) (body : list Z) : acpi_table :=
  fun i =>
    if i <? 4 then 0
    else if i <? 8 then (len / 2 ^ (8 * (i - 4))) mod 2 ^ 8
    else if i <? sizeof_acpi_table_pptt then 0
    else nth (Z.to_nat (i - sizeof_acpi_table_pptt)) body 0.

(** Little-endian bytes of a 32-bit field. *)
Definition b32 (x : Z) : list Z :=
  [x mod 256; (x / 2 ^ 8) mod 256; (x / 2 ^ 16) mod 256; (x / 2 ^ 24) mod 256].

(** A table of 2^32 - 1 declared bytes with one byte set near its end. *)
Definition huge_table : acpi_table :=
  fun i =>
    if (4 <=? i) && (i <? 8) then 255
    else if i =? 4294967287 then 20
    else 0.

Definition b16 (x : Z) : list Z := [x mod 256; (x / 2 ^ 8) mod 256].

(** Bytes of a processor record of declared length [len]. *)
Definition proc_rec (len fl parent id : Z) (res : list Z) : list Z :=
  [ACPI_PPTT_TYPE_PROCESSOR; len; 0; 0] ++ b32 fl ++ b32 parent ++ b32 id
  ++ b32 (Z.of_nat (length res)) ++ concat (map b32 res).

(** Bytes of a cache record of declared length [len]. *)
Definition cache_rec (len fl next sz sets assoc attr line : Z) : list Z :=
  [ACPI_PPTT_TYPE_CACHE; len; 0; 0] ++ b32 fl ++ b32 next ++ b32 sz
  ++ b32 sets ++ [assoc; attr] ++ b16 line.

(** Two cores under one package; each core has a private L1 data cache,
    the package a unified L2. *)
Definition topo_table : acpi_table :=
  mk_table 180
    (proc_rec 24 1 0 100 [108] ++ proc_rec 24 0 36 0 [132]
     ++ proc_rec 24 0 36 1 [156]
     ++ cache_rec 24 127 0 1048576 1024 16 10 64
     ++ cache_rec 24 127 0 32768 128 4 2 64
     ++ cache_rec 24 127 0 32768 128 4 2 64).

(** One processor whose two resources are data caches of the same level. *)
Definition dup_table : acpi_table :=
  mk_table 112
    (proc_rec 28 0 0 0 [64; 88] ++ cache_rec 24 16 0 0 0 0 0 0
     ++ cache_rec 24 16 0 0 0 0 0 0).

(** A cache record whose next-level link points back to itself. *)
Definition cyc_table : acpi_table :=
  mk_table 60 (cache_rec 24 0 36 0 0 0 0 0).

(** A processor record that names itself as its parent. *)
Definition self_parent_table : acpi_table :=
  mk_table 56 (proc_rec 20 0 36 5 []).

(** A processor with four resource slots and two caches, followed at
    offset 120 by a record of length zero. *)
Definition zero_len_table : acpi_table :=
  mk_table 200
    (proc_rec 36 0 0 7 [72; 96; 0; 0] ++ cache_rec 24 16 0 0 0 0 0 0
     ++ cache_rec 24 16 0 0 0 0 0 0 ++ [ACPI_PPTT_TYPE_CACHE; 0]).

(** A processor record cut short by the end of the table. *)
Definition truncated_table : acpi_table :=
  mk_table 44 [ACPI_PPTT_TYPE_PROCESSOR; 8; 0; 0; 0; 0; 0; 0].


(** One processor with one unified cache of one level. *)
Definition single_cache_table : acpi_table :=
  mk_table 84 (proc_rec 24 0 0 1 [60] ++ cache_rec 24 16 0 0 0 0 8 0).

Definition sample_cache : acpi_pptt_cache :=
  {| flags := 127; next_level_of_cache := 0; size := 32768;
     number_of_sets := 128; associativity := 4; attributes := 18;
     line_size := 64 |}.

(** A cache record whose only validity flag is the write-policy one. *)
Definition write_policy_only_cache : acpi_pptt_cache :=
  {| flags := ACPI_PPTT_WRITE_POLICY_VALID; next_level_of_cache := 0;
     size := 0; number_of_sets := 0; associativity := 0;
     attributes := 0; line_size := 0 |}.

(** A cache record with no property flag set. *)
Definition type_only_cache : acpi_pptt_cache :=
  {| flags := ACPI_PPTT_CACHE_TYPE_VALID; next_level_of_cache := 0;
     size := 4096; number_of_sets := 8; associativity := 2;
     attributes := 18; line_size := 32 |}.

Definition sample_leaf : cacheinfo :=
  {| ci_type := CACHE_TYPE_DATA; ci_level := 1;
     ci_coherency_line_size := 0; ci_number_of_sets := 0;
     ci_ways_of_associativity := 0; ci_physical_line_partition := 1;
     ci_size := 0; ci_attributes := CACHE_READ_ALLOCATE;
     ci_firmware_node := None |}.

(** ** update_cache_properties through a pointer into the table *)

Definition le16 (t : acpi_table) (i : Z) : Z :=
  byte_at t i + 2 ^ 8 * byte_at t (i + 1).

Definition rd16 (t : acpi_table) (off : Z) : result Z :=
  if in_table t off 2 then ret (le16 t off) else Crash OutOfBounds.

(** [found_cache->flags & FLAG], read from the table. *)
Definition cache_flag (t : acpi_table) (found_cache flag : Z) : result bool :=
  fl <- rd32 t (found_cache + off_cache_flags) ;;
  ret (negb (Z.land fl flag =? 0)).

(** update_cache_properties as cache_setup_acpi_cpu calls it, with
    [found_cache] a pointer into the table: a field of the record is read
    when, and only when, the function reads it. *)
Definition update_cache_properties_at (t : acpi_table) (this_leaf : cacheinfo)
  (found_cache : Z) (cpu_node : option Z) : result cacheinfo :=
  let this_leaf := set_firmware_node this_leaf cpu_node in
  v <- cache_flag t found_cache ACPI_PPTT_SIZE_PROPERTY_VALID ;;
  this_leaf <- (if v then
                  x <- rd32 t (found_cache + off_size) ;;
                  ret (set_size this_leaf x)
                else ret this_leaf) ;;
  v <- cache_flag t found_cache ACPI_PPTT_LINE_SIZE_VALID ;;
  this_leaf <- (if v then
                  x <- rd16 t (found_cache + off_line_size) ;;
                  ret (set_coherency_line_size this_leaf x)
                else ret this_leaf) ;;
  v <- cache_flag t found_cache ACPI_PPTT_NUMBER_OF_SETS_VALID ;;
  this_leaf <- (if v then
                  x <- rd32 t (found_cache + off_number_of_sets) ;;
                  ret (set_number_of_sets this_leaf x)
                else ret this_leaf) ;;
  v <- cache_flag t found_cache ACPI_PPTT_ASSOCIATIVITY_VALID ;;
  this_leaf <- (if v then
                  x <- rd8 t (found_cache + off_associativity) ;;
                  ret (set_ways_of_associativity this_leaf x)
                else ret this_leaf) ;;
  v <- cache_flag t found_cache ACPI_PPTT_WRITE_POLICY_VALID ;;
  this_leaf <- (if v then
                  a <- rd8 t (found_cache + off_attributes) ;;
                  let sel := Z.land a ACPI_PPTT_MASK_WRITE_POLICY in
                  ret (if sel =? ACPI_PPTT_CACHE_POLICY_WT
                       then set_attributes this_leaf CACHE_WRITE_THROUGH
                       else if sel =? ACPI_PPTT_CACHE_POLICY_WB
                       then set_attributes this_leaf CACHE_WRITE_BACK
                       else this_leaf)
                else ret this_leaf) ;;
  v <- cache_flag t found_cache ACPI_PPTT_ALLOCATION_TYPE_VALID ;;
  if v then
    a <- rd8 t (found_cache + off_attributes) ;;
    let sel := Z.land a ACPI_PPTT_MASK_ALLOCATION_TYPE in
    ret (if sel =? ACPI_PPTT_CACHE_READ_ALLOCATE
         then set_attributes this_leaf
                (Z.lor (ci_attributes this_leaf) CACHE_READ_ALLOCATE)
         else if sel =? ACPI_PPTT_CACHE_WRITE_ALLOCATE
         then set_attributes this_leaf
                (Z.lor (ci_attributes this_leaf) CACHE_WRITE_ALLOCATE)
         else if (sel =? ACPI_PPTT_CACHE_RW_ALLOCATE)
                 || (sel =? ACPI_PPTT_CACHE_RW_ALLOCATE_ALT)
         then set_attributes this_leaf
                (Z.lor (ci_attributes this_leaf)
                   (Z.lor CACHE_READ_ALLOCATE CACHE_WRITE_ALLOCATE))
         else this_leaf)
  else ret this_leaf.

(** The flags word of the cache record at [c], and every field whose
    valid flag is set in it, lie within the table. *)
Definition cache_fields_readable (t : acpi_table) (c : Z) : bool :=
  let fl := le32 t (c + off_cache_flags) in
  let set flag := negb (Z.land fl flag =? 0) in
  in_table t (c + off_cache_flags) 4
  && implb (set ACPI_PPTT_SIZE_PROPERTY_VALID) (in_table t (c + off_size) 4)
  && implb (set ACPI_PPTT_LINE_SIZE_VALID) (in_table t (c + off_line_size) 2)
  && implb (set ACPI_PPTT_NUMBER_OF_SETS_VALID)
       (in_table t (c + off_number_of_sets) 4)
  && implb (set ACPI_PPTT_ASSOCIATIVITY_VALID)
       (in_table t (c + off_associativity) 1)
  && implb (set ACPI_PPTT_WRITE_POLICY_VALID
            || set ACPI_PPTT_ALLOCATION_TYPE_VALID)
       (in_table t (c + off_attributes) 1).

(** The fields of a leaf that update_cache_properties never writes. *)
Definition same_identity (old new : cacheinfo) : Prop :=
  ci_type new = ci_type old /\ ci_level new = ci_level old /\
  ci_physical_line_partition new = ci_physical_line_partition old.

(** A cache record cut short by the end of the table, with all its valid
    flags set. *)
Definition short_cache_table : acpi_table :=
  mk_table 52 (cache_rec 24 127 0 32768 128 4 2 64).

(** ** cache_setup_acpi_cpu and cache_setup_acpi *)

(** The loop over [this_cpu_ci->info_list]; [cpu_node] is the local that
    acpi_find_cache_node writes through [&cpu_node]. *)
Fixpoint cache_setup_acpi_cpu_loop (fuel : nat) (t : acpi_table)
  (acpi_cpu_id : Z) (info_list : list cacheinfo) (cpu_node : option Z)
  : result (list cacheinfo) :=
  match info_list with
  | [] => ret []
  | this_leaf :: rest =>
      ' (found_cache, cpu_node) <-
        acpi_find_cache_node fuel t acpi_cpu_id (ci_type this_leaf)
          (ci_level this_leaf) cpu_node ;;
      this_leaf <- match found_cache with
                   | Some c => update_cache_properties_at t this_leaf c cpu_node
                   | None => ret this_leaf
                   end ;;
      rest <- cache_setup_acpi_cpu_loop fuel t acpi_cpu_id rest cpu_node ;;
      ret (this_leaf :: rest)
  end.

Section CacheSetup.

(** [get_acpi_id_for_cpu], [get_cpu_cacheinfo] (the leaves of a CPU) and
    [acpi_get_table] belong to the rest of the kernel. *)
Variable get_acpi_id_for_cpu : Z -> Z.
Variable get_cpu_cacheinfo : Z -> list cacheinfo.
Variable acpi_get_table : option acpi_table.

(** Returns the leaves of the CPU as the function leaves them. *)
Definition cache_setup_acpi_cpu (fuel : nat) (table : acpi_table) (cpu : Z)
  : result (list cacheinfo) :=
  let acpi_cpu_id := u32 (get_acpi_id_for_cpu cpu) in
  cache_setup_acpi_cpu_loop fuel table acpi_cpu_id (get_cpu_cacheinfo cpu) None.

(** Modelled from the spec: [acpi_status] and [AE_OK] belong to
    include/acpi/acexcep.h, not under src/; after a successful
    acpi_get_table [status] is [AE_OK], which is 0, as the comment of the
    function says (0 on success).  Returns the status, the leaves of the CPU
    and the flags of the [pr_err_once] call sites. *)
Definition cache_setup_acpi (fuel : nat) (once : once_flags) (cpu : Z)
  : result (Z * list cacheinfo * once_flags) :=
  match acpi_get_table with
  | None =>
      printed <- pr_err_once (setup_printed once) NoPPTTTable ;;
      ret (- ENOENT, get_cpu_cacheinfo cpu, set_setup_printed once printed)
  | Some table =>
      leaves <- cache_setup_acpi_cpu fuel table cpu ;;
      ret (0, leaves, once)
  end.

End CacheSetup.

(** ** Chains, ancestors and leaves of a table *)

(** Number of records of the cache chain that starts at [cache]. *)
Fixpoint chain_len (n : nat) (t : acpi_table) (cache : option Z) : Z :=
  match cache, n with
  | Some c, S n' => 1 + chain_len n' t (next_cache t c)
  | _, _ => 0
  end.


(** [ascends t flag c k a]: [a] is reached from [c] by [k] parent links
    that resolve, and none of the nodes left behind meets [flag]. *)
Inductive ascends (t : acpi_table) (flag : Z) : Z -> nat -> Z -> Prop :=
| asc_here c : ascends t flag c O c
| asc_up c p k a :
    in_table t (c + off_proc_flags) 4 = true ->
    Z.land (le32 t (c + off_proc_flags)) (u32 flag) = 0 ->
    in_table t (c + off_parent) 4 = true ->
    fetch_pptt_node t (le32 t (c + off_parent)) = Ok (Some p) [] ->
    ascends t flag p k a ->
    ascends t flag c (S k) a.

(** The ascent cannot leave [a]: [a] meets [flag], or its parent link does
    not resolve. *)
Definition ascent_ends (t : acpi_table) (flag a : Z) : Prop :=
  in_table t (a + off_proc_flags) 4 = true /\
  (Z.land (le32 t (a + off_proc_flags)) (u32 flag) <> 0 \/
   (in_table t (a + off_parent) 4 = true /\
    fetch_pptt_node t (le32 t (a + off_parent)) = Ok None [])).

(** The record at [e] is a processor record with id [id] that no record of
    the table names as its parent. *)
Definition is_leaf_record (t : acpi_table) (id e : Z) : bool :=
  (byte_at t (e + off_type) =? ACPI_PPTT_TYPE_PROCESSOR)
  && (id =? le32 t (e + off_acpi_processor_id))
  && negb (existsb (child_of t e) (records t)).

(** The test of acpi_pptt_leaf_node at one record. *)
Definition leaf_test (t : acpi_table) (node_entry entry : Z) : result bool :=
  ty <- rd8 t (entry + off_type) ;;
  if ty =? ACPI_PPTT_TYPE_PROCESSOR then
    parent <- rd32 t (entry + off_parent) ;;
    ret (parent =? node_entry)
  else ret false.

(** [leaf_reaches t node k e]: after [k] records that do not name [node] as
    their parent, the scan of acpi_pptt_leaf_node stands at [e]. *)
Inductive leaf_reaches (t : acpi_table) (node_entry : Z) : nat -> Z -> Prop :=
| lreach_first : leaf_reaches t node_entry O sizeof_acpi_table_pptt
| lreach_next k e :
    leaf_reaches t node_entry k e ->
    e + sizeof_acpi_subtable_header < table_length t ->
    leaf_test t node_entry e = Ok false [] ->
    leaf_reaches t node_entry (S k) (e + byte_at t (e + off_length)).




(** A core with two levels of private cache under a package without cache. *)
Definition two_level_table : acpi_table :=
  mk_table 132
    (proc_rec 20 1 0 100 [] ++ proc_rec 24 0 36 0 [80]
     ++ cache_rec 24 127 104 32768 128 4 2 64
     ++ cache_rec 24 127 0 1048576 1024 16 10 64).

(** ** Proof automation *)

Ltac case_ltb :=
  let Hc := fresh "Hcmp" in
  match goal with
  | |- context [?a <? ?b] => destruct (Z.ltb_spec a b) as [Hc|Hc]
  | |- context [?a >? ?b] => destruct (Z.gtb_spec a b) as [Hc|Hc]
  | |- context [?a =? ?b] => destruct (Z.eqb_spec a b) as [Hc|Hc]
  | |- context [?a <=? ?b] => destruct (Z.leb_spec a b) as [Hc|Hc]
  | |- context [?a >=? ?b] => destruct (Z.geb_spec a b) as [Hc|Hc]
  end.

(** * Properties *)

Lemma byte_at_range t i : 0 <= byte_at t i < 256.
Proof. unfold byte_at. apply Z.mod_pos_bound. lia. Qed.

Lemma le32_range t i : 0 <= le32 t i < 2 ^ 32.
Proof.
  unfold le32.
  pose proof (byte_at_range t i). pose proof (byte_at_range t (i + 1)).
  pose proof (byte_at_range t (i + 2)). pose proof (byte_at_range t (i + 3)).
  lia.
Qed.

Lemma table_length_range t : 0 <= table_length t < 2 ^ 32.
Proof. apply le32_range. Qed.

(** fetch_pptt_subtable never reads outside the table, and below the
    wrap-around of its 32-bit sum it rejects exactly the offsets that break
    one of the three bounds. *)
Lemma fetch_pptt_subtable_bounds t pptt_ref :
  0 <= pptt_ref < 2 ^ 32 ->
  exists r, fetch_pptt_subtable t pptt_ref = Ok r [] /\
    (pptt_ref + 255 < 2 ^ 32 ->
     (r = None <->
        pptt_ref < sizeof_acpi_subtable_header \/
        pptt_ref + sizeof_acpi_subtable_header > table_length t \/
        pptt_ref + byte_at t (pptt_ref + off_length) > table_length t)) /\
    (r <> None -> r = Some pptt_ref).
Proof.
  intros Hr. pose proof (table_length_range t) as Hl.
  pose proof (byte_at_range t (pptt_ref + off_length)) as Hb.
  unfold fetch_pptt_subtable, sizeof_acpi_subtable_header, off_length in *.
  destruct (Z.ltb_spec pptt_ref 2).
  { eexists; split; [reflexivity|]. split; [intros; split; auto | congruence]. }
  unfold u64. rewrite Z.mod_small by lia.
  destruct (Z.gtb_spec (pptt_ref + 2) (table_length t)).
  { eexists; split; [reflexivity|]. split; [intros; split; auto with zarith | congruence]. }
  unfold rd8, in_table.
  replace ((0 <=? pptt_ref + 1) && (pptt_ref + 1 + 1 <=? table_length t)) with true
    by (symmetry; apply andb_true_iff; split; apply Z.leb_le; lia).
  cbn [bind ret].
  destruct (Z.gtb_spec (u32 (pptt_ref + byte_at t (pptt_ref + 1))) (table_length t)) as [Hg|Hg].
  - eexists; split; [reflexivity|]. split; [|congruence].
    intros Hs. unfold u32 in Hg. rewrite Z.mod_small in Hg by lia.
    split; auto with zarith.
  - eexists; split; [reflexivity|]. split; [|reflexivity].
    intros Hs. unfold u32 in Hg. rewrite Z.mod_small in Hg by lia.
    split; [congruence|]. intros [?|[?|?]]; lia.
Qed.

(** ** The result monad *)

Lemma bind_ok {A B} (m : result A) (f : A -> result B) b l :
  bind m f = Ok b l ->
  exists a l1 l2, m = Ok a l1 /\ f a = Ok b l2 /\ l = l1 ++ l2.
Proof.
  unfold bind. destruct m as [a l1| |]; try discriminate.
  destruct (f a) as [b' l2| |] eqn:E; try discriminate.
  intros H. inversion H; subst. eauto 6.
Qed.

Lemma bind_crash {A B} (m : result A) (f : A -> result B) c :
  bind m f = Crash c ->
  m = Crash c \/ exists a l, m = Ok a l /\ f a = Crash c.
Proof.
  unfold bind. destruct m as [a l1| |]; try discriminate.
  - destruct (f a) as [b' l2| |] eqn:E; try discriminate.
    intros H. inversion H; subst. eauto.
  - intros H. inversion H. auto.
Qed.

Lemma bind_ret {A B} (a : A) (f : A -> result B) : bind (ret a) f = f a.
Proof. unfold bind, ret. destruct (f a); reflexivity. Qed.

Lemma bind_Ok_nil {A B} (a : A) (f : A -> result B) : bind (Ok a []) f = f a.
Proof. apply bind_ret. Qed.

Lemma in_table_true t off n :
  0 <= off -> off + n <= table_length t -> in_table t off n = true.
Proof. intros. unfold in_table. apply andb_true_iff. split; apply Z.leb_le; lia. Qed.

Lemma in_table_inv t off n :
  in_table t off n = true -> 0 <= off /\ off + n <= table_length t.
Proof.
  unfold in_table. intros H. apply andb_true_iff in H. destruct H as [H1 H2].
  apply Z.leb_le in H1. apply Z.leb_le in H2. auto.
Qed.

Lemma rd8_in t off :
  0 <= off -> off + 1 <= table_length t -> rd8 t off = Ok (byte_at t off) [].
Proof. intros. unfold rd8. rewrite in_table_true by assumption. reflexivity. Qed.

Lemma rd32_in t off :
  0 <= off -> off + 4 <= table_length t -> rd32 t off = Ok (le32 t off) [].
Proof. intros. unfold rd32. rewrite in_table_true by assumption. reflexivity. Qed.

Lemma rd8_ok t off v l :
  rd8 t off = Ok v l ->
  v = byte_at t off /\ l = [] /\ 0 <= off /\ off + 1 <= table_length t.
Proof.
  unfold rd8. destruct (in_table t off 1) eqn:E; [|discriminate].
  apply in_table_inv in E. intros H. inversion H. tauto.
Qed.

Lemma rd32_ok t off v l :
  rd32 t off = Ok v l ->
  v = le32 t off /\ l = [] /\ 0 <= off /\ off + 4 <= table_length t.
Proof.
  unfold rd32. destruct (in_table t off 4) eqn:E; [|discriminate].
  apply in_table_inv in E. intros H. inversion H. tauto.
Qed.

Lemma rd8_cases t off :
  rd8 t off = Ok (byte_at t off) [] \/ rd8 t off = Crash OutOfBounds.
Proof. unfold rd8. destruct (in_table t off 1); auto. Qed.

Lemma rd32_cases t off :
  rd32 t off = Ok (le32 t off) [] \/ rd32 t off = Crash OutOfBounds.
Proof. unfold rd32. destruct (in_table t off 4); auto. Qed.

(** ** fetch_pptt_subtable *)

Lemma fetch_pptt_subtable_ok t pptt_ref :
  0 <= pptt_ref < 2 ^ 32 ->
  fetch_pptt_subtable t pptt_ref = Ok None [] \/
  fetch_pptt_subtable t pptt_ref = Ok (Some pptt_ref) [].
Proof.
  intros Hr. destruct (fetch_pptt_subtable_bounds t pptt_ref Hr) as (r & E & _ & F).
  destruct r as [e|]; [right|left; assumption].
  rewrite E. f_equal. apply F. discriminate.
Qed.

Lemma fetch_some_range t pptt_ref e l :
  fetch_pptt_subtable t pptt_ref = Ok (Some e) l ->
  e = pptt_ref /\ l = [] /\ 2 <= e /\ e + 2 <= table_length t.
Proof.
  unfold fetch_pptt_subtable, sizeof_acpi_subtable_header, off_length.
  destruct (Z.ltb_spec pptt_ref 2); [discriminate|].
  destruct (Z.gtb_spec (u64 (pptt_ref + 2)) (table_length t)); [discriminate|].
  intros Hb. apply bind_ok in Hb. destruct Hb as (len & l1 & l2 & Hrd & Hk & ->).
  apply rd8_ok in Hrd. destruct Hrd as (-> & -> & ? & ?).
  destruct (_ >? _); inversion Hk; subst. repeat split; lia.
Qed.

(** C1 (evaluation at the failing input): in a table that declares
    2^32 - 1 bytes, the record at offset 2^32 - 10 has length 20 and so ends
    past the end of the table, yet fetch_pptt_subtable returns it: the sum
    [pptt_ref + entry->length] is computed in 32 bits and wraps to 10. *)
Theorem fetch_pptt_subtable_wraps :
  table_length huge_table = 4294967295 /\
  byte_at huge_table (4294967286 + off_length) = 20 /\
  4294967286 + byte_at huge_table (4294967286 + off_length)
    > table_length huge_table /\
  fetch_pptt_subtable huge_table 4294967286 = Ok (Some 4294967286) [].
Proof. vm_compute. repeat split. Qed.

(** ** update_cache_properties *)

Lemma land_write_policy a :
  Z.land a ACPI_PPTT_MASK_WRITE_POLICY
  = if Z.testbit a 4 then ACPI_PPTT_CACHE_POLICY_WT
    else ACPI_PPTT_CACHE_POLICY_WB.
Proof.
  unfold ACPI_PPTT_MASK_WRITE_POLICY, ACPI_PPTT_CACHE_POLICY_WT,
    ACPI_PPTT_CACHE_POLICY_WB.
  apply Z.bits_inj'. intros n Hn. rewrite Z.land_spec.
  change 16 with (2 ^ 4). rewrite Z.pow2_bits_eqb by lia.
  destruct (Z.eqb_spec 4 n) as [<-|Hne].
  - rewrite andb_true_r. destruct (Z.testbit a 4).
    + rewrite Z.pow2_bits_eqb by lia. reflexivity.
    + rewrite Z.bits_0. reflexivity.
  - rewrite andb_false_r. destruct (Z.testbit a 4).
    + rewrite Z.pow2_bits_eqb by lia. symmetry. apply Z.eqb_neq. assumption.
    + rewrite Z.bits_0. reflexivity.
Qed.

Lemma land_allocation_type a :
  Z.land a ACPI_PPTT_MASK_ALLOCATION_TYPE = a mod 4.
Proof.
  unfold ACPI_PPTT_MASK_ALLOCATION_TYPE.
  change 3 with (Z.ones 2). rewrite Z.land_ones by lia. reflexivity.
Qed.

Lemma land_sub_mask x m f :
  Z.land x m = 0 -> Z.land m f = f -> Z.land x f = 0.
Proof.
  intros Hx Hm. rewrite <- Hm, Z.land_assoc, Hx. apply Z.land_0_l.
Qed.

Lemma update_cache_properties_plain_fields l c n :
  let l' := update_cache_properties l c n in
  ci_size l' =
    (if flag_set c ACPI_PPTT_SIZE_PROPERTY_VALID then size c else ci_size l) /\
  ci_coherency_line_size l' =
    (if flag_set c ACPI_PPTT_LINE_SIZE_VALID then line_size c
     else ci_coherency_line_size l) /\
  ci_number_of_sets l' =
    (if flag_set c ACPI_PPTT_NUMBER_OF_SETS_VALID then number_of_sets c
     else ci_number_of_sets l) /\
  ci_ways_of_associativity l' =
    (if flag_set c ACPI_PPTT_ASSOCIATIVITY_VALID then associativity c
     else ci_ways_of_associativity l) /\
  ci_type l' = ci_type l /\ ci_level l' = ci_level l /\
  ci_physical_line_partition l' = ci_physical_line_partition l /\
  ci_firmware_node l' = n.
Proof.
  unfold update_cache_properties.
  destruct (flag_set c ACPI_PPTT_SIZE_PROPERTY_VALID),
    (flag_set c ACPI_PPTT_LINE_SIZE_VALID),
    (flag_set c ACPI_PPTT_NUMBER_OF_SETS_VALID),
    (flag_set c ACPI_PPTT_ASSOCIATIVITY_VALID),
    (flag_set c ACPI_PPTT_WRITE_POLICY_VALID),
    (flag_set c ACPI_PPTT_ALLOCATION_TYPE_VALID);
    repeat match goal with
           | |- context [if ?b then _ else _] => destruct b
           end; cbn; repeat split; reflexivity.
Qed.

Lemma flag_unset_of_mask c f :
  Z.land (flags c) property_flags = 0 -> Z.land property_flags f = f ->
  flag_set c f = false.
Proof.
  intros Hz Hf. unfold flag_set.
  rewrite (land_sub_mask _ _ _ Hz Hf). reflexivity.
Qed.

(** C7 (claim as stated fails): a cache record whose only validity flag is
    the write-policy one changes the allocation-policy bits of the
    destination, although the allocation-type flag is unset. *)
Lemma update_cache_properties_clears_allocation :
  flag_set write_policy_only_cache ACPI_PPTT_ALLOCATION_TYPE_VALID = false /\
  Z.land (ci_attributes sample_leaf) CACHE_ALLOCATE_POLICY_MASK
    = CACHE_READ_ALLOCATE /\
  Z.land (ci_attributes
            (update_cache_properties sample_leaf write_policy_only_cache
               (Some 36)))
         CACHE_ALLOCATE_POLICY_MASK = 0.
Proof. vm_compute. repeat split. Qed.

(** C7 (amended): size, line size, number of sets and associativity are
    written exactly when their validity flag is set and keep their prior
    value otherwise.  The attributes word is left alone when neither the
    write-policy nor the allocation-type flag is set; a valid write policy
    replaces the whole word (prior allocation bits included) and a valid
    allocation type is or-ed into it.  The other fields of the destination
    are never changed, and with all six flags set every property field
    holds exactly the value of the record. *)
Theorem update_cache_properties_fields l c n :
  let l' := update_cache_properties l c n in
  ci_size l' =
    (if flag_set c ACPI_PPTT_SIZE_PROPERTY_VALID then size c else ci_size l) /\
  ci_coherency_line_size l' =
    (if flag_set c ACPI_PPTT_LINE_SIZE_VALID then line_size c
     else ci_coherency_line_size l) /\
  ci_number_of_sets l' =
    (if flag_set c ACPI_PPTT_NUMBER_OF_SETS_VALID then number_of_sets c
     else ci_number_of_sets l) /\
  ci_ways_of_associativity l' =
    (if flag_set c ACPI_PPTT_ASSOCIATIVITY_VALID then associativity c
     else ci_ways_of_associativity l) /\
  ci_attributes l' =
    (let base := if flag_set c ACPI_PPTT_WRITE_POLICY_VALID
                 then write_policy_bits c else ci_attributes l in
     if flag_set c ACPI_PPTT_ALLOCATION_TYPE_VALID
     then Z.lor base (allocation_bits c) else base) /\
  ci_type l' = ci_type l /\ ci_level l' = ci_level l /\
  ci_physical_line_partition l' = ci_physical_line_partition l /\
  (Z.land (flags c) property_flags = property_flags ->
   l' = {| ci_type := ci_type l; ci_level := ci_level l;
           ci_coherency_line_size := line_size c;
           ci_number_of_sets := number_of_sets c;
           ci_ways_of_associativity := associativity c;
           ci_physical_line_partition := ci_physical_line_partition l;
           ci_size := size c;
           ci_attributes := Z.lor (write_policy_bits c) (allocation_bits c);
           ci_firmware_node := n |}).
Proof.
  cbv zeta.
  assert (Hattr :
    ci_attributes (update_cache_properties l c n) =
    (let base := if flag_set c ACPI_PPTT_WRITE_POLICY_VALID
                 then write_policy_bits c else ci_attributes l in
     if flag_set c ACPI_PPTT_ALLOCATION_TYPE_VALID
     then Z.lor base (allocation_bits c) else base)).
  { unfold update_cache_properties, write_policy_bits, allocation_bits.
    rewrite land_write_policy, land_allocation_type.
    pose proof (Z.mod_pos_bound (attributes c) 4 ltac:(lia)) as Hm.
    unfold ACPI_PPTT_CACHE_POLICY_WT, ACPI_PPTT_CACHE_POLICY_WB,
      ACPI_PPTT_CACHE_READ_ALLOCATE, ACPI_PPTT_CACHE_WRITE_ALLOCATE,
      ACPI_PPTT_CACHE_RW_ALLOCATE, ACPI_PPTT_CACHE_RW_ALLOCATE_ALT.
    destruct (flag_set c ACPI_PPTT_SIZE_PROPERTY_VALID),
      (flag_set c ACPI_PPTT_LINE_SIZE_VALID),
      (flag_set c ACPI_PPTT_NUMBER_OF_SETS_VALID),
      (flag_set c ACPI_PPTT_ASSOCIATIVITY_VALID),
      (flag_set c ACPI_PPTT_WRITE_POLICY_VALID),
      (flag_set c ACPI_PPTT_ALLOCATION_TYPE_VALID),
      (Z.testbit (attributes c) 4); cbn [Z.eqb Pos.eqb];
      repeat case_ltb; cbn; try reflexivity; lia. }
  destruct (update_cache_properties_plain_fields l c n)
    as (H1 & H2 & H3 & H4 & H5 & H6 & H7 & H8).
  repeat split; try assumption.
  intros Hall.
  assert (Hf : forall f, Z.land property_flags f = f -> f <> 0 ->
                         flag_set c f = true).
  { intros f Hf Hnz. unfold flag_set. apply negb_true_iff, Z.eqb_neq.
    intros Hz. apply Hnz. rewrite <- Hf, <- Hall, <- Z.land_assoc, Hf. exact Hz. }
  rewrite (Hf ACPI_PPTT_SIZE_PROPERTY_VALID) in * by (vm_compute; congruence).
  rewrite (Hf ACPI_PPTT_LINE_SIZE_VALID) in * by (vm_compute; congruence).
  rewrite (Hf ACPI_PPTT_NUMBER_OF_SETS_VALID) in * by (vm_compute; congruence).
  rewrite (Hf ACPI_PPTT_ASSOCIATIVITY_VALID) in * by (vm_compute; congruence).
  rewrite (Hf ACPI_PPTT_WRITE_POLICY_VALID) in * by (vm_compute; congruence).
  rewrite (Hf ACPI_PPTT_ALLOCATION_TYPE_VALID) in * by (vm_compute; congruence).
  cbv zeta in Hattr.
  destruct (update_cache_properties l c n); cbn in *. congruence.
Qed.

Lemma update_cache_properties_fields_witness :
  Z.land (flags sample_cache) property_flags = property_flags /\
  update_cache_properties sample_leaf sample_cache (Some 60)
  = {| ci_type := CACHE_TYPE_DATA; ci_level := 1;
       ci_coherency_line_size := 64; ci_number_of_sets := 128;
       ci_ways_of_associativity := 4; ci_physical_line_partition := 1;
       ci_size := 32768; ci_attributes := 13;
       ci_firmware_node := Some 60 |}.
Proof.
  split; [reflexivity|].
  destruct (update_cache_properties_fields sample_leaf sample_cache (Some 60))
    as (_ & _ & _ & _ & _ & _ & _ & _ & H).
  exact (H eq_refl).
Defined.

(** C9: update_cache_properties stores the processor node in
    [firmware_node] whatever the cache record holds; when none of the six
    property flags is set, that store is its only effect. *)
Theorem update_cache_properties_firmware_node l c n :
  ci_firmware_node (update_cache_properties l c n) = n /\
  (Z.land (flags c) property_flags = 0 ->
   update_cache_properties l c n = set_firmware_node l n).
Proof.
  split.
  - apply (update_cache_properties_plain_fields l c n).
  - intros Hz. unfold update_cache_properties.
    rewrite !(flag_unset_of_mask c _ Hz) by reflexivity. reflexivity.
Qed.

Lemma update_cache_properties_firmware_node_witness :
  Z.land (flags type_only_cache) property_flags = 0 /\
  update_cache_properties sample_leaf type_only_cache (Some 60)
  = set_firmware_node sample_leaf (Some 60).
Proof.
  split; [reflexivity|].
  apply update_cache_properties_firmware_node. reflexivity.
Defined.

(** ** Crashes are out-of-bounds reads, never null dereferences *)

Lemma bind_no_null {A B} (m : result A) (f : A -> result B) :
  no_null m -> (forall a l, m = Ok a l -> no_null (f a)) -> no_null (bind m f).
Proof.
  unfold no_null. intros Hm Hf H. apply bind_crash in H.
  destruct H as [H | (a & l & E & H)]; [auto | eapply Hf; eauto].
Qed.

Lemma ret_no_null {A} (a : A) : no_null (ret a).
Proof. discriminate. Qed.

Lemma rd8_no_null t off : no_null (rd8 t off).
Proof. destruct (rd8_cases t off) as [E|E]; rewrite E; discriminate. Qed.

Lemma rd32_no_null t off : no_null (rd32 t off).
Proof. destruct (rd32_cases t off) as [E|E]; rewrite E; discriminate. Qed.

Lemma fetch_no_null t r : no_null (fetch_pptt_subtable t r).
Proof.
  unfold fetch_pptt_subtable.
  repeat case_ltb; try apply ret_no_null.
  apply bind_no_null; [apply rd8_no_null|]. intros.
  case_ltb; apply ret_no_null.
Qed.

Lemma leaf_node_loop_no_null n : forall t node_entry entry,
  no_null (acpi_pptt_leaf_node_loop n t node_entry entry).
Proof.
  induction n as [|n IH]; intros; cbn [acpi_pptt_leaf_node_loop];
    case_ltb; try discriminate; try apply ret_no_null.
  apply bind_no_null; [apply rd8_no_null|]. intros ty _ _.
  apply bind_no_null.
  { case_ltb; [|apply ret_no_null].
    apply bind_no_null; [apply rd32_no_null|]. intros. apply ret_no_null. }
  intros [] _ _; [apply ret_no_null|].
  apply bind_no_null; [apply rd8_no_null|]. intros. apply IH.
Qed.

Lemma is_leaf_processor_no_null fuel t id entry :
  no_null (is_leaf_processor fuel t id entry).
Proof.
  unfold is_leaf_processor.
  apply bind_no_null; [apply rd8_no_null|]. intros ty _ _.
  case_ltb; [|apply ret_no_null].
  apply bind_no_null; [apply rd32_no_null|]. intros i _ _.
  case_ltb; [|apply ret_no_null].
  apply bind_no_null; [apply leaf_node_loop_no_null|]. intros. apply ret_no_null.
Qed.

Lemma find_processor_node_loop_no_null n : forall fuel t id entry,
  no_null (acpi_find_processor_node_loop n fuel t id entry).
Proof.
  induction n as [|n IH]; intros; cbn [acpi_find_processor_node_loop];
    case_ltb; try discriminate; try apply ret_no_null.
  apply bind_no_null; [apply rd8_no_null|]. intros len _ _.
  case_ltb.
  - apply bind_no_null; [discriminate|]. intros. apply ret_no_null.
  - apply bind_no_null; [apply is_leaf_processor_no_null|].
    intros [] _ _; [apply ret_no_null | apply IH].
Qed.

(** ** acpi_find_processor_package_id *)

Lemma package_id_loop_some n : forall t c level flag r log,
  acpi_find_processor_package_id_loop n t (Some c) level flag = Ok r log ->
  (exists a, r = Some a) /\ log = [].
Proof.
  induction n as [|n IH]; intros t c level flag r log;
    cbn [acpi_find_processor_package_id_loop]; case_ltb;
    try (intros H; inversion H; eauto; fail); try discriminate.
  intros H. apply bind_ok in H. destruct H as (fl & l1 & l2 & Hfl & H & ->).
  apply rd32_ok in Hfl. destruct Hfl as (-> & -> & _).
  destruct (negb _).
  { inversion H; eauto. }
  apply bind_ok in H. destruct H as (pa & l1 & l3 & Hpa & H & ->).
  apply rd32_ok in Hpa. destruct Hpa as (-> & -> & _).
  apply bind_ok in H. destruct H as (prev & l1 & l4 & Hprev & H & ->).
  destruct prev as [p|].
  - apply fetch_some_range in Hprev. destruct Hprev as (_ & -> & _).
    apply IH in H. destruct H as (H & ->). auto.
  - destruct (fetch_pptt_subtable_ok t (le32 t (c + off_parent)) (le32_range _ _))
      as [E|E]; unfold fetch_pptt_node in Hprev; rewrite E in Hprev;
      inversion Hprev; subst. inversion H; eauto.
Qed.

Lemma package_id_loop_no_null n : forall t cpu level flag,
  no_null (acpi_find_processor_package_id_loop n t cpu level flag).
Proof.
  induction n as [|n IH]; intros t [c|] level flag;
    cbn [acpi_find_processor_package_id_loop]; try apply ret_no_null;
    case_ltb; try apply ret_no_null; try discriminate.
  apply bind_no_null; [apply rd32_no_null|]. intros fl _ _.
  destruct (negb _); [apply ret_no_null|].
  apply bind_no_null; [apply rd32_no_null|]. intros pa _ _.
  apply bind_no_null; [apply fetch_no_null|]. intros [p|] _ _;
    [apply IH | apply ret_no_null].
Qed.

Lemma s32_small x : - 2 ^ 31 <= x < 2 ^ 31 -> s32 x = x.
Proof. intros. unfold s32. rewrite Z.mod_small by lia. lia. Qed.

Lemma u32_s32_pred level :
  - 2 ^ 31 <= level < 2 ^ 31 -> level <> 0 ->
  - 2 ^ 31 <= s32 (level - 1) < 2 ^ 31 /\
  u32 (s32 (level - 1)) = u32 level - 1.
Proof.
  intros Hr Hnz. unfold s32, u32.
  destruct (Z.eq_dec level (- 2 ^ 31)) as [->|Hmin]; [vm_compute; intuition congruence|].
  rewrite (Z.mod_small (level - 1 + 2 ^ 31)) by lia.
  split; [lia|].
  destruct (Z_lt_le_dec level 0).
  - replace (level - 1 + 2 ^ 31 - 2 ^ 31) with (level - 1) by lia.
    rewrite <- (Z_mod_plus_full (level - 1) 1), <- (Z_mod_plus_full level 1).
    rewrite !Z.mod_small by lia. lia.
  - replace (level - 1 + 2 ^ 31 - 2 ^ 31) with (level - 1) by lia.
    rewrite !Z.mod_small by lia. lia.
Qed.

Lemma u32_zero level : - 2 ^ 31 <= level < 2 ^ 31 -> u32 level <= 0 -> level = 0.
Proof.
  unfold u32. intros Hr Hz.
  destruct (Z_lt_le_dec level 0).
  - rewrite <- (Z_mod_plus_full level 1) in Hz.
    rewrite Z.mod_small in Hz by lia. lia.
  - rewrite Z.mod_small in Hz by lia. lia.
Qed.

Lemma package_id_loop_returns n : forall t cpu level flag,
  - 2 ^ 31 <= level < 2 ^ 31 -> u32 level <= Z.of_nat n ->
  returns (acpi_find_processor_package_id_loop n t cpu level flag) = true.
Proof.
  induction n as [|n IH]; intros t [c|] level flag Hl Hn;
    cbn [acpi_find_processor_package_id_loop]; try reflexivity;
    case_ltb; try reflexivity.
  { apply u32_zero in Hn; [contradiction | assumption]. }
  destruct (rd32_cases t (c + off_proc_flags)) as [E|E]; rewrite E;
    [rewrite bind_Ok_nil | reflexivity].
  destruct (negb _); [reflexivity|].
  destruct (rd32_cases t (c + off_parent)) as [E1|E1]; rewrite E1;
    [rewrite bind_Ok_nil | reflexivity].
  destruct (fetch_pptt_subtable_ok t (le32 t (c + off_parent)) (le32_range _ _))
    as [E2|E2]; unfold fetch_pptt_node; rewrite E2, bind_Ok_nil;
    [reflexivity|].
  destruct (u32_s32_pred level Hl Hcmp) as [Hr Hu].
  apply IH; [assumption | lia].
Qed.

Lemma package_id_loop_total n : forall t c level flag,
  - 2 ^ 31 <= level < 2 ^ 31 -> u32 level <= Z.of_nat n ->
  ancestors_readable n t c = true ->
  exists a,
    acpi_find_processor_package_id_loop n t (Some c) level flag
    = Ok (Some a) [].
Proof.
  induction n as [|n IH]; intros t c level flag Hl Hn Hrd;
    cbn [acpi_find_processor_package_id_loop ancestors_readable] in *;
    case_ltb; try (eexists; reflexivity).
  { apply u32_zero in Hn; [contradiction | assumption]. }
  apply andb_true_iff in Hrd. destruct Hrd as [Hrd Hanc].
  apply andb_true_iff in Hrd. destruct Hrd as [Hf Hp].
  unfold rd32. rewrite Hf, bind_ret.
  destruct (negb _); [eexists; reflexivity|].
  rewrite Hp, bind_ret.
  unfold fetch_pptt_node in *.
  destruct (fetch_pptt_subtable_ok t (le32 t (c + off_parent)) (le32_range _ _))
    as [E|E]; rewrite E in *; rewrite bind_Ok_nil; [eexists; reflexivity|].
  destruct (u32_s32_pred level Hl Hcmp) as [Hr Hu].
  apply IH; [assumption | lia | assumption].
Qed.

Lemma topology_get_acpi_cpu_tag_no_null get_id fuel t once cpu level flag :
  no_null (topology_get_acpi_cpu_tag get_id fuel t once cpu level flag).
Proof.
  unfold topology_get_acpi_cpu_tag.
  apply bind_no_null; [apply find_processor_node_loop_no_null|].
  intros [c|] l _.
  - apply bind_no_null; [apply package_id_loop_no_null|].
    intros r l' Hr. apply package_id_loop_some in Hr.
    destruct Hr as ((a & ->) & _). cbn [deref].
    case_ltb; rewrite bind_ret.
    + apply bind_no_null; [apply rd32_no_null|]. intros. apply ret_no_null.
    + apply ret_no_null.
  - apply bind_no_null; [|intros; apply ret_no_null].
    unfold pr_err_once. destruct (core_printed once); discriminate.
Qed.

(** C10: given a non-NULL node, acpi_find_processor_package_id never
    returns NULL; it ends within [level] iterations ([level] read as an
    unsigned 32-bit count), and with a node when the fields it reads on the
    way lie within the table; it returns the node itself when [level] is 0,
    when the node's flags meet the stop flag, and when the parent link does
    not resolve.  So topology_get_acpi_cpu_tag never dereferences a NULL
    node. *)
Theorem acpi_find_processor_package_id_non_null get_id fuel t c level flag :
  (forall r log,
     acpi_find_processor_package_id fuel t (Some c) level flag = Ok r log ->
     exists a, r = Some a) /\
  (- 2 ^ 31 <= level < 2 ^ 31 -> u32 level <= Z.of_nat fuel ->
   returns (acpi_find_processor_package_id fuel t (Some c) level flag) = true) /\
  (- 2 ^ 31 <= level < 2 ^ 31 -> u32 level <= Z.of_nat fuel ->
   ancestors_readable fuel t c = true ->
   exists a,
     acpi_find_processor_package_id fuel t (Some c) level flag
     = Ok (Some a) []) /\
  (level = 0 ->
   acpi_find_processor_package_id fuel t (Some c) level flag = Ok (Some c) []) /\
  (in_table t (c + off_proc_flags) 4 = true ->
   Z.land (le32 t (c + off_proc_flags)) (u32 flag) <> 0 ->
   acpi_find_processor_package_id (S fuel) t (Some c) level flag
   = Ok (Some c) []) /\
  (in_table t (c + off_proc_flags) 4 = true ->
   in_table t (c + off_parent) 4 = true ->
   fetch_pptt_node t (le32 t (c + off_parent)) = Ok None [] ->
   acpi_find_processor_package_id (S fuel) t (Some c) level flag
   = Ok (Some c) []) /\
  (forall once cpu,
     topology_get_acpi_cpu_tag get_id fuel t once cpu level flag
     <> Crash NullPointer).
Proof.
  unfold acpi_find_processor_package_id. repeat split.
  - intros r log H. apply package_id_loop_some in H. tauto.
  - apply package_id_loop_returns.
  - apply package_id_loop_total.
  - intros ->. destruct fuel; reflexivity.
  - intros Hin Hfl. cbn [acpi_find_processor_package_id_loop].
    case_ltb; [reflexivity|]. unfold rd32. rewrite Hin, bind_ret.
    destruct (Z.eqb_spec (Z.land (le32 t (c + off_proc_flags)) (u32 flag)) 0);
      [contradiction | reflexivity].
  - intros Hin Hpa Hnone. cbn [acpi_find_processor_package_id_loop].
    case_ltb; [reflexivity|]. unfold rd32. rewrite Hin, Hpa, bind_ret.
    destruct (negb _); [reflexivity|]. rewrite bind_ret, Hnone. reflexivity.
  - intros once cpu. apply topology_get_acpi_cpu_tag_no_null.
Qed.

Lemma acpi_find_processor_package_id_non_null_witness :
  (exists a, acpi_find_processor_package_id 3 topo_table (Some 60) 2 0
             = Ok (Some a) []) /\
  returns (acpi_find_processor_package_id 3 topo_table (Some 60) 2 0) = true /\
  acpi_find_processor_package_id 3 topo_table (Some 60) 0 0 = Ok (Some 60) [] /\
  acpi_find_processor_package_id 3 topo_table (Some 36) PPTT_ABORT_PACKAGE
    ACPI_PPTT_PHYSICAL_PACKAGE = Ok (Some 36) [] /\
  acpi_find_processor_package_id 3 topo_table (Some 36) 2 0 = Ok (Some 36) [].
Proof.
  destruct (acpi_find_processor_package_id_non_null (fun x => x) 3 topo_table
              60 2 0) as (_ & Hret & Htot & _).
  destruct (acpi_find_processor_package_id_non_null (fun x => x) 3 topo_table
              60 0 0) as (_ & _ & _ & Hzero & _).
  destruct (acpi_find_processor_package_id_non_null (fun x => x) 2 topo_table
              36 PPTT_ABORT_PACKAGE ACPI_PPTT_PHYSICAL_PACKAGE)
    as (_ & _ & _ & _ & Hflag & _).
  destruct (acpi_find_processor_package_id_non_null (fun x => x) 2 topo_table
              36 2 0) as (_ & _ & _ & _ & _ & Hroot & _).
  split; [|split; [|split; [|split]]].
  - apply Htot; [lia | vm_compute; discriminate | vm_compute; reflexivity].
  - apply Hret; [lia | vm_compute; discriminate].
  - apply Hzero. reflexivity.
  - apply Hflag; [reflexivity | vm_compute; discriminate].
  - apply Hroot; reflexivity.
Defined.

(** ** acpi_pptt_leaf_node and acpi_find_processor_node: shape of results *)

Lemma leaf_node_loop_ok n : forall t node_entry entry b l,
  acpi_pptt_leaf_node_loop n t node_entry entry = Ok b l ->
  l = [] /\ (b = 0 \/ b = 1).
Proof.
  induction n as [|n IH]; intros t node_entry entry b l;
    cbn [acpi_pptt_leaf_node_loop]; case_ltb;
    try discriminate; try (intros H; inversion H; auto; fail).
  intros H. apply bind_ok in H. destruct H as (ty & l1 & l2 & Hty & H & ->).
  apply rd8_ok in Hty. destruct Hty as (_ & -> & _).
  apply bind_ok in H. destruct H as (hit & l1 & l3 & Hhit & H & ->).
  assert (l1 = []) as ->.
  { destruct (ty =? _); [|inversion Hhit; reflexivity].
    apply bind_ok in Hhit. destruct Hhit as (pa & l4 & l5 & Hpa & Hk & ->).
    apply rd32_ok in Hpa. destruct Hpa as (_ & -> & _).
    inversion Hk. reflexivity. }
  destruct hit; [inversion H; auto|].
  apply bind_ok in H. destruct H as (len & l1 & l4 & Hlen & H & ->).
  apply rd8_ok in Hlen. destruct Hlen as (_ & -> & _).
  apply IH in H. destruct H as (-> & H). auto.
Qed.

Lemma is_leaf_processor_ok fuel t id entry b l :
  is_leaf_processor fuel t id entry = Ok b l ->
  l = [] /\
  (b = true ->
   0 <= entry /\ byte_at t (entry + off_type) = ACPI_PPTT_TYPE_PROCESSOR /\
   in_table t (entry + off_acpi_processor_id) 4 = true /\
   le32 t (entry + off_acpi_processor_id) = id /\
   acpi_pptt_leaf_node fuel t entry = Ok 1 []).
Proof.
  unfold is_leaf_processor. intros H.
  apply bind_ok in H. destruct H as (ty & l1 & l2 & Hty & H & ->).
  apply rd8_ok in Hty. destruct Hty as (-> & -> & Hpos & _).
  unfold off_type in Hpos.
  destruct (Z.eqb_spec (byte_at t (entry + off_type)) ACPI_PPTT_TYPE_PROCESSOR)
    as [Ety|]; [|inversion H; split; [reflexivity | discriminate]].
  apply bind_ok in H. destruct H as (i & l1 & l3 & Hid & H & ->).
  pose proof Hid as Hid'. apply rd32_ok in Hid'.
  destruct Hid' as (-> & -> & Hin1 & Hin2).
  destruct (Z.eqb_spec id (le32 t (entry + off_acpi_processor_id)));
    [|inversion H; split; [reflexivity | discriminate]].
  apply bind_ok in H. destruct H as (lf & l1 & l4 & Hlf & H & ->).
  pose proof Hlf as Hlf'. apply leaf_node_loop_ok in Hlf'.
  destruct Hlf' as (-> & Hb). inversion H; subst. split; [reflexivity|].
  intros Hneg. repeat split; try lia; try assumption.
  - apply in_table_true; assumption.
  - destruct Hb as [-> | ->]; [discriminate | assumption].
Qed.

Lemma find_processor_node_loop_some n : forall fuel t id entry leaf log,
  acpi_find_processor_node_loop n fuel t id entry = Ok (Some leaf) log ->
  log = [] /\ is_leaf_processor fuel t id leaf = Ok true [].
Proof.
  induction n as [|n IH]; intros fuel t id entry leaf log;
    cbn [acpi_find_processor_node_loop]; case_ltb; try discriminate.
  intros H. apply bind_ok in H. destruct H as (len & l1 & l2 & Hlen & H & ->).
  apply rd8_ok in Hlen. destruct Hlen as (-> & -> & _).
  destruct (_ =? 0); [cbn in H; discriminate|].
  apply bind_ok in H. destruct H as (m & l1 & l3 & Hm & H & ->).
  pose proof Hm as Hm'. apply is_leaf_processor_ok in Hm'.
  destruct Hm' as (-> & _).
  destruct m.
  - inversion H; subst. auto.
  - apply IH in H. assumption.
Qed.

Lemma package_id_loop_range n : forall t c level flag a l,
  0 <= c ->
  acpi_find_processor_package_id_loop n t (Some c) level flag = Ok (Some a) l ->
  0 <= a.
Proof.
  induction n as [|n IH]; intros t c level flag a l Hc;
    cbn [acpi_find_processor_package_id_loop]; case_ltb;
    try (intros H; inversion H; subst; assumption); try discriminate.
  intros H. apply bind_ok in H. destruct H as (fl & l1 & l2 & _ & H & _).
  destruct (negb _); [inversion H; subst; assumption|].
  apply bind_ok in H. destruct H as (pa & l3 & l4 & _ & H & _).
  apply bind_ok in H. destruct H as (prev & l5 & l6 & Hprev & H & _).
  destruct prev as [p|]; [|inversion H; subst; assumption].
  apply fetch_some_range in Hprev. apply IH in H; [assumption | lia].
Qed.

(** ** acpi_find_processor_node: the zero-length record *)

Lemma find_processor_node_loop_zero_length n fuel t id e :
  0 <= e -> e + sizeof_acpi_subtable_header < table_length t ->
  byte_at t (e + off_length) = 0 ->
  acpi_find_processor_node_loop (S n) fuel t id e
  = Ok None [InvalidZeroLengthSubtable].
Proof.
  unfold sizeof_acpi_subtable_header, off_length. intros Hpos Hlt Hz.
  cbn [acpi_find_processor_node_loop].
  unfold sizeof_acpi_subtable_header, off_length.
  destruct (Z.ltb_spec (e + 2) (table_length t)); [|lia].
  rewrite rd8_in by lia. rewrite bind_Ok_nil, Hz. reflexivity.
Qed.

Lemma scan_reaches_unroll fuel t id k e :
  scan_reaches fuel t id k e ->
  sizeof_acpi_table_pptt <= e /\
  forall m,
    acpi_find_processor_node_loop (k + m) fuel t id sizeof_acpi_table_pptt
    = acpi_find_processor_node_loop m fuel t id e.
Proof.
  induction 1 as [|k e Hreach [Hge IH] Hlt Hnz Hleaf].
  - split; [lia | reflexivity].
  - pose proof (byte_at_range t (e + off_length)).
    unfold sizeof_acpi_table_pptt, sizeof_acpi_subtable_header, off_length in *.
    split; [lia|]. intros m.
    replace (S k + m)%nat with (k + S m)%nat by lia. rewrite IH.
    cbn [acpi_find_processor_node_loop].
    unfold sizeof_acpi_subtable_header, off_length.
    destruct (Z.ltb_spec (e + 2) (table_length t)); [|lia].
    rewrite rd8_in by lia. rewrite bind_Ok_nil.
    destruct (Z.eqb_spec (byte_at t (e + 1)) 0); [contradiction|].
    rewrite Hleaf, bind_Ok_nil. reflexivity.
Qed.

(** C8: when the scan of acpi_find_processor_node stands at a record whose
    length is 0, that iteration ends the scan: the function prints its
    diagnostic and returns NULL, whatever follows in the table, and no byte
    beyond the record header is read. *)
Theorem acpi_find_processor_node_zero_length fuel t id k e :
  scan_reaches fuel t id k e ->
  (k < fuel)%nat ->
  e + sizeof_acpi_subtable_header < table_length t ->
  byte_at t (e + off_length) = 0 ->
  acpi_find_processor_node fuel t id = Ok None [InvalidZeroLengthSubtable] /\
  forall n,
    acpi_find_processor_node_loop (S n) fuel t id e
    = Ok None [InvalidZeroLengthSubtable].
Proof.
  intros Hreach Hk Hlt Hz.
  destruct (scan_reaches_unroll _ _ _ _ _ Hreach) as [Hge Hun].
  unfold sizeof_acpi_table_pptt in Hge.
  split.
  - unfold acpi_find_processor_node.
    replace fuel with (k + S (fuel - k - 1))%nat at 1 by lia.
    rewrite Hun. apply find_processor_node_loop_zero_length; [lia | assumption..].
  - intros n. apply find_processor_node_loop_zero_length; [lia | assumption..].
Qed.

Lemma zero_len_table_reaches : scan_reaches 200 zero_len_table 3 3 120.
Proof.
  change 120 with (96 + byte_at zero_len_table (96 + off_length)).
  apply reach_next; [| vm_compute; reflexivity | vm_compute; discriminate
                     | vm_compute; reflexivity].
  change 96 with (72 + byte_at zero_len_table (72 + off_length)).
  apply reach_next; [| vm_compute; reflexivity | vm_compute; discriminate
                     | vm_compute; reflexivity].
  change 72 with (36 + byte_at zero_len_table (36 + off_length)).
  apply reach_next; [| vm_compute; reflexivity | vm_compute; discriminate
                     | vm_compute; reflexivity].
  apply reach_first.
Defined.

Lemma acpi_find_processor_node_zero_length_witness :
  acpi_find_processor_node 200 zero_len_table 3
  = Ok None [InvalidZeroLengthSubtable].
Proof.
  apply (acpi_find_processor_node_zero_length 200 zero_len_table 3 3 120
           zero_len_table_reaches); [lia | vm_compute; reflexivity..].
Defined.

(** ** Termination of the traversals *)

Lemma returns_bind {A B} (m : result A) (f : A -> result B) :
  returns (bind m f)
  = match m with
    | Ok a _ => returns (f a)
    | Crash _ => true
    | OutOfFuel => false
    end.
Proof. destruct m as [a l| |]; cbn; [destruct (f a)|..]; reflexivity. Qed.

Lemma pptt_records_fuel n : forall m t e,
  table_length t - e <= Z.of_nat n -> table_length t - e <= Z.of_nat m ->
  pptt_records n t e = pptt_records m t e.
Proof.
  induction n as [|n IH]; intros [|m] t e Hn Hm; cbn [pptt_records];
    try reflexivity; unfold sizeof_acpi_subtable_header;
    try (case_ltb; [lia | reflexivity]).
  pose proof (byte_at_range t (e + off_length)).
  repeat case_ltb; try reflexivity. f_equal. apply IH; lia.
Qed.

Lemma records_fuel fuel t :
  table_length t <= Z.of_nat fuel ->
  records t = pptt_records fuel t sizeof_acpi_table_pptt.
Proof.
  intros H. pose proof (table_length_range t). unfold records.
  apply pptt_records_fuel; unfold sizeof_acpi_table_pptt; lia.
Qed.

Lemma find_processor_node_loop_returns n : forall fuel t id e,
  0 <= e -> table_length t - e <= Z.of_nat n ->
  forallb (fun e => returns (is_leaf_processor fuel t id e))
          (pptt_records n t e) = true ->
  returns (acpi_find_processor_node_loop n fuel t id e) = true.
Proof.
  induction n as [|n IH]; intros fuel t id e Hpos Hn Hall;
    cbn [acpi_find_processor_node_loop pptt_records] in *;
    unfold sizeof_acpi_subtable_header, off_length in *.
  { destruct (Z.ltb_spec (e + 2) (table_length t)); [lia | reflexivity]. }
  destruct (Z.ltb_spec (e + 2) (table_length t)); [|reflexivity].
  cbn [forallb] in Hall. apply andb_true_iff in Hall. destruct Hall as [Hleaf Hall].
  rewrite rd8_in by lia. rewrite bind_Ok_nil.
  pose proof (byte_at_range t (e + 1)).
  destruct (Z.eqb_spec (byte_at t (e + 1)) 0); [reflexivity|].
  rewrite returns_bind.
  destruct (is_leaf_processor fuel t id e) as [[] l| |];
    try reflexivity; try discriminate.
  apply IH; [lia | lia | assumption].
Qed.

Lemma leaf_node_loop_returns n : forall t node e,
  0 <= e -> table_length t - e <= Z.of_nat n ->
  forallb (nonzero_length t) (pptt_records n t e) = true ->
  returns (acpi_pptt_leaf_node_loop n t node e) = true.
Proof.
  induction n as [|n IH]; intros t node e Hpos Hn Hall;
    cbn [acpi_pptt_leaf_node_loop pptt_records] in *;
    unfold sizeof_acpi_subtable_header, off_length, off_type in *.
  { destruct (Z.ltb_spec (e + 2) (table_length t)); [lia | reflexivity]. }
  destruct (Z.ltb_spec (e + 2) (table_length t)); [|reflexivity].
  cbn [forallb] in Hall. apply andb_true_iff in Hall. destruct Hall as [Hnz Hall].
  unfold nonzero_length, off_length in Hnz.
  apply negb_true_iff, Z.eqb_neq in Hnz.
  destruct (Z.eqb_spec (byte_at t (e + 1)) 0); [contradiction|].
  pose proof (byte_at_range t (e + 1)).
  rewrite rd8_in by lia. rewrite bind_Ok_nil, returns_bind.
  destruct (byte_at t (e + 0) =? ACPI_PPTT_TYPE_PROCESSOR).
  - destruct (rd32_cases t (e + off_parent)) as [E|E]; rewrite E;
      [rewrite bind_Ok_nil | reflexivity].
    unfold ret. destruct (_ =? node); [reflexivity|].
    rewrite rd8_in by lia. rewrite bind_Ok_nil. apply IH; [lia | lia | assumption].
  - unfold ret. rewrite rd8_in by lia. rewrite bind_Ok_nil.
    apply IH; [lia | lia | assumption].
Qed.

Lemma walk_cache_cyclic n : forall local_level found,
  acpi_pptt_walk_cache_loop n cyc_table local_level (Some 36) found 0 0
  = OutOfFuel.
Proof.
  induction n as [|n IH]; intros local_level found; [reflexivity|].
  cbn [acpi_pptt_walk_cache_loop].
  assert (Hm : cache_matches cyc_table 36 (s32 (local_level + 1)) 0 0
               = Ok false []).
  { unfold cache_matches. destruct (_ =? 0); reflexivity. }
  rewrite Hm, bind_Ok_nil, bind_ret.
  replace (rd32 cyc_table (36 + off_next_level_of_cache)) with (@Ok Z 36 [])
    by (vm_compute; reflexivity).
  rewrite bind_Ok_nil.
  replace (fetch_pptt_cache cyc_table 36) with (@Ok (option Z) (Some 36) [])
    by (vm_compute; reflexivity).
  rewrite bind_Ok_nil. apply IH.
Qed.

Lemma leaf_node_stuck n node :
  acpi_pptt_leaf_node_loop n zero_len_table node 120 = OutOfFuel.
Proof.
  induction n as [|n IH]; [reflexivity|].
  cbn [acpi_pptt_leaf_node_loop].
  replace (120 + sizeof_acpi_subtable_header <? table_length zero_len_table)
    with true by (vm_compute; reflexivity).
  replace (rd8 zero_len_table (120 + off_type)) with (@Ok Z 1 [])
    by (vm_compute; reflexivity).
  rewrite bind_Ok_nil. cbn [Z.eqb ACPI_PPTT_TYPE_PROCESSOR].
  rewrite bind_ret.
  replace (rd8 zero_len_table (120 + off_length)) with (@Ok Z 0 [])
    by (vm_compute; reflexivity).
  rewrite bind_Ok_nil. exact IH.
Qed.

Lemma leaf_node_zero_length_diverges fuel :
  acpi_pptt_leaf_node fuel zero_len_table 36 = OutOfFuel.
Proof.
  unfold acpi_pptt_leaf_node.
  destruct fuel as [|[|[|n]]]; try reflexivity.
  change (u32 36) with 36.
  assert (Hstep : forall e len ty k,
    (e + sizeof_acpi_subtable_header <? table_length zero_len_table) = true ->
    rd8 zero_len_table (e + off_type) = Ok ty [] ->
    (if ty =? ACPI_PPTT_TYPE_PROCESSOR
     then parent <- rd32 zero_len_table (e + off_parent) ;; ret (parent =? 36)
     else ret false) = Ok false [] ->
    rd8 zero_len_table (e + off_length) = Ok len [] ->
    acpi_pptt_leaf_node_loop (S k) zero_len_table 36 e
    = acpi_pptt_leaf_node_loop k zero_len_table 36 (e + len)).
  { intros e len ty k H1 H2 H3 H4. cbn [acpi_pptt_leaf_node_loop].
    rewrite H1, H2, bind_Ok_nil, H3, bind_Ok_nil, H4, bind_Ok_nil.
    reflexivity. }
  rewrite (Hstep 36 36 0) by (vm_compute; reflexivity).
  rewrite (Hstep (36 + 36) 24 1) by (vm_compute; reflexivity).
  rewrite (Hstep (36 + 36 + 24) 24 1) by (vm_compute; reflexivity).
  apply leaf_node_stuck.
Qed.

Lemma process_node_cyclic n : forall fuel total_levels,
  acpi_process_node_loop n fuel self_parent_table 36 total_levels = OutOfFuel.
Proof.
  induction n as [|n IH]; intros fuel total_levels; [reflexivity|].
  cbn [acpi_process_node_loop].
  assert (Hlvl : acpi_find_cache_level fuel self_parent_table 36 total_levels 0 0
                 = Ok (None, total_levels) []).
  { unfold acpi_find_cache_level.
    assert (Hl : forall k, acpi_find_cache_level_loop k fuel self_parent_table
                   36 total_levels 0 0 0 total_levels None
                 = Ok (total_levels, None) []).
    { intros k.
      assert (Hres : acpi_get_pptt_resource self_parent_table 36 0 = Ok None [])
        by (vm_compute; reflexivity).
      destruct k; cbn [acpi_find_cache_level_loop]; rewrite Hres; reflexivity. }
    rewrite Hl, bind_Ok_nil.
    destruct (Z.gtb_spec total_levels total_levels); [lia | reflexivity]. }
  rewrite Hlvl, bind_Ok_nil.
  replace (rd32 self_parent_table (36 + off_parent)) with (@Ok Z 36 [])
    by (vm_compute; reflexivity).
  rewrite bind_Ok_nil.
  replace (fetch_pptt_node self_parent_table 36) with (@Ok (option Z) (Some 36) [])
    by (vm_compute; reflexivity).
  rewrite bind_Ok_nil. apply IH.
Qed.

(** C2 (claim as stated fails): on a cache record that links to itself the
    cache-chain walk runs out of any fuel; the leaf scan never gets past a
    record of length zero; the ancestor walk of acpi_process_node never
    leaves a processor record that is its own parent. *)
Lemma traversals_diverge :
  ~ (exists fuel,
       returns (acpi_pptt_walk_cache fuel cyc_table 0 36 None 0 0) = true) /\
  ~ (exists fuel,
       returns (acpi_pptt_leaf_node fuel zero_len_table 36) = true) /\
  ~ (exists fuel,
       returns (acpi_process_node fuel self_parent_table 36) = true).
Proof.
  repeat split; intros [fuel H].
  - unfold acpi_pptt_walk_cache in H.
    replace (rd8 cyc_table (36 + off_type)) with (@Ok Z 1 []) in H
      by (vm_compute; reflexivity).
    rewrite bind_Ok_nil in H. cbn [Z.eqb ACPI_PPTT_TYPE_CACHE negb] in H.
    rewrite walk_cache_cyclic in H. discriminate.
  - rewrite leaf_node_zero_length_diverges in H. discriminate.
  - unfold acpi_process_node in H. rewrite process_node_cyclic in H.
    discriminate.
Qed.

(** C2 (amended): the traversals that carry a bound return on every table.
    The ascent of acpi_find_processor_package_id makes at most [level] hops,
    so cyclic parent links cannot keep it running.  The scan of
    acpi_find_processor_node stops at a record of length zero and otherwise
    moves forward, so it makes fewer iterations than the table has bytes,
    provided the leaf test of each record returns.  The scan of
    acpi_pptt_leaf_node is bounded in the same way on a table without a
    record of length zero. *)
Theorem traversals_bounded fuel t id cpu node level flag :
  0 <= level < 2 ^ 31 ->
  level <= Z.of_nat fuel ->
  table_length t <= Z.of_nat fuel ->
  returns (acpi_find_processor_package_id fuel t cpu level flag) = true /\
  (forallb (fun e => returns (is_leaf_processor fuel t id e)) (records t)
   = true ->
   returns (acpi_find_processor_node fuel t id) = true) /\
  (forallb (nonzero_length t) (records t) = true ->
   returns (acpi_pptt_leaf_node fuel t node) = true).
Proof.
  intros Hl Hf Ht. split; [|split].
  - apply package_id_loop_returns; [lia|].
    unfold u32. rewrite Z.mod_small by lia. assumption.
  - intros Hleaf. unfold acpi_find_processor_node.
    rewrite (records_fuel fuel t Ht) in Hleaf.
    apply find_processor_node_loop_returns;
      [unfold sizeof_acpi_table_pptt; lia
      | unfold sizeof_acpi_table_pptt; lia | assumption].
  - intros Hnz. unfold acpi_pptt_leaf_node.
    rewrite (records_fuel fuel t Ht) in Hnz.
    apply leaf_node_loop_returns;
      [unfold sizeof_acpi_table_pptt; lia
      | unfold sizeof_acpi_table_pptt; lia | assumption].
Qed.

Lemma traversals_bounded_witness :
  (returns (acpi_find_processor_package_id 200 zero_len_table (Some 36) 5 0)
   = true /\
   returns (acpi_find_processor_node 200 zero_len_table 3) = true) /\
  returns (acpi_pptt_leaf_node 180 topo_table 36) = true.
Proof.
  destruct (traversals_bounded 200 zero_len_table 3 (Some 36) 36 5 0)
    as (Hpkg & Hscan & _);
    [lia | cbn; lia | vm_compute; discriminate |].
  destruct (traversals_bounded 180 topo_table 0 (Some 36) 36 5 0)
    as (_ & _ & Hleaf);
    [lia | cbn; lia | vm_compute; discriminate |].
  split; [split|].
  - exact Hpkg.
  - apply Hscan. vm_compute. reflexivity.
  - apply Hleaf. vm_compute. reflexivity.
Defined.

(** ** acpi_pptt_leaf_node on well-formed tables *)

Lemma leaf_node_loop_wf n : forall t node e,
  0 <= e -> table_length t - e <= Z.of_nat n ->
  forallb (wf_record t) (pptt_records n t e) = true ->
  acpi_pptt_leaf_node_loop n t node e
  = Ok (if existsb (child_of t node) (pptt_records n t e) then 0 else 1) [].
Proof.
  induction n as [|n IH]; intros t node e Hpos Hn Hwf;
    cbn [acpi_pptt_leaf_node_loop pptt_records] in *;
    unfold sizeof_acpi_subtable_header in *.
  { destruct (Z.ltb_spec (e + 2) (table_length t)); [lia | reflexivity]. }
  destruct (Z.ltb_spec (e + 2) (table_length t)); [|reflexivity].
  cbn [forallb existsb] in *. apply andb_true_iff in Hwf.
  destruct Hwf as [He Hwf]. unfold wf_record in He.
  apply andb_true_iff in He. destruct He as [He Hproc].
  apply andb_true_iff in He. destruct He as [Hnz Hend].
  apply negb_true_iff, Z.eqb_neq in Hnz. apply Z.leb_le in Hend.
  pose proof (byte_at_range t (e + off_length)) as Hlen.
  destruct (Z.eqb_spec (byte_at t (e + off_length)) 0); [contradiction|].
  unfold off_type, off_length, off_parent, sizeof_acpi_pptt_processor in *.
  unfold child_of at 1. unfold off_type, off_parent.
  rewrite rd8_in by lia. rewrite bind_Ok_nil.
  destruct (Z.eqb_spec (byte_at t (e + 0)) ACPI_PPTT_TYPE_PROCESSOR).
  - apply Z.leb_le in Hproc. rewrite rd32_in by lia. rewrite bind_Ok_nil, bind_ret.
    cbn [andb]. destruct (le32 t (e + 8) =? node); [reflexivity|].
    rewrite rd8_in by lia. rewrite bind_Ok_nil. cbn [orb].
    apply IH; [lia | lia | assumption].
  - rewrite bind_ret. cbn [andb orb].
    rewrite rd8_in by lia. rewrite bind_Ok_nil.
    apply IH; [lia | lia | assumption].
Qed.

(** C5 (claim as stated fails): a processor record that names itself as its
    parent is reported as not a leaf, although no other record names it. *)
Lemma leaf_node_counts_self :
  ~ leaf_iff_no_other_child 56 self_parent_table 36.
Proof.
  intros (b & Hb & Hiff).
  replace (acpi_pptt_leaf_node 56 self_parent_table 36) with (@Ok Z 0 []) in Hb
    by (vm_compute; reflexivity).
  inversion Hb; subst. apply Hiff; [|reflexivity].
  intros e Hin Hne.
  replace (records self_parent_table) with [36] in Hin
    by (vm_compute; reflexivity).
  destruct Hin as [<-|[]]. contradiction.
Qed.

(** C5 (amended): on a table whose records all have a non-zero length, lie
    within the table and, for processor records, hold the fixed processor
    fields, acpi_pptt_leaf_node returns, and it returns true exactly when no
    processor record of the table, the node itself included, names the
    node's offset as its parent. *)
Theorem acpi_pptt_leaf_node_iff fuel t node :
  table_length t <= Z.of_nat fuel ->
  wf_table t = true ->
  0 <= node < 2 ^ 32 ->
  exists b,
    acpi_pptt_leaf_node fuel t node = Ok b [] /\
    (b <> 0 <-> forall e, In e (records t) -> child_of t node e = false).
Proof.
  intros Hfuel Hwf Hnode. unfold wf_table in Hwf.
  rewrite (records_fuel fuel t Hfuel) in *.
  unfold acpi_pptt_leaf_node, u32. rewrite Z.mod_small by assumption.
  rewrite leaf_node_loop_wf;
    [| unfold sizeof_acpi_table_pptt; lia
     | unfold sizeof_acpi_table_pptt; lia | assumption].
  eexists. split; [reflexivity|].
  destruct (existsb _ _) eqn:E.
  - split; [congruence|]. intros Hall.
    apply existsb_exists in E. destruct E as (e & Hin & He).
    rewrite (Hall e Hin) in He. discriminate.
  - split; [|discriminate]. intros _ e Hin.
    destruct (child_of t node e) eqn:Hc; [|reflexivity].
    assert (existsb (child_of t node)
              (pptt_records fuel t sizeof_acpi_table_pptt) = true)
      by (apply existsb_exists; eauto).
    congruence.
Qed.

Lemma acpi_pptt_leaf_node_iff_witness :
  exists b,
    acpi_pptt_leaf_node 180 topo_table 60 = Ok b [] /\
    (b <> 0 <->
     forall e, In e (records topo_table) -> child_of topo_table 60 e = false).
Proof.
  apply (acpi_pptt_leaf_node_iff 180 topo_table 60);
    [vm_compute; discriminate | vm_compute; reflexivity | lia].
Defined.

(** ** The running level of acpi_find_cache_level *)

Lemma depth_of_bind {A} (m : result A) (f : A -> result (Z * option Z)) :
  depth_of (bind m f)
  = match m with
    | Ok a _ => depth_of (f a)
    | Crash c => Crash c
    | OutOfFuel => OutOfFuel
    end.
Proof.
  destruct m as [a l| |]; cbn; [|reflexivity..].
  destruct (f a) as [[d fo] l'| |]; reflexivity.
Qed.

Lemma found_update_ok (m : bool) (found : option Z) (c : Z) :
  exists l,
    (if m then
       (if is_duplicate found c then pr_err DuplicateCacheLevel else ret tt) ;;;
       ret (Some c)
     else ret found)
    = Ok (if m then Some c else found) l.
Proof.
  destruct m; [|eexists; reflexivity].
  destruct (is_duplicate found c); eexists; reflexivity.
Qed.

Lemma walk_cache_loop_depth n : forall t local_level cache found found' level type,
  depth_of (acpi_pptt_walk_cache_loop n t local_level cache found level type)
  = depth_of (acpi_pptt_walk_cache_loop n t local_level cache found' level type).
Proof.
  induction n as [|n IH]; intros t local_level [c|] found found' level type;
    cbn [acpi_pptt_walk_cache_loop]; try reflexivity.
  rewrite !depth_of_bind.
  destruct (cache_matches t c (s32 (local_level + 1)) level type)
    as [m l| |]; try reflexivity.
  destruct (found_update_ok m found c) as (l1 & ->).
  destruct (found_update_ok m found' c) as (l2 & ->).
  rewrite !depth_of_bind.
  destruct (rd32 t (c + off_next_level_of_cache)) as [next l3| |];
    try reflexivity.
  rewrite !depth_of_bind.
  destruct (fetch_pptt_cache t next) as [cache l4| |]; try reflexivity.
  destruct m; apply IH.
Qed.

Lemma walk_cache_depth fuel t local_level res found found' level type :
  depth_of (acpi_pptt_walk_cache fuel t local_level res found level type)
  = depth_of (acpi_pptt_walk_cache fuel t local_level res found' level type).
Proof.
  unfold acpi_pptt_walk_cache. rewrite !depth_of_bind.
  destruct (rd8 t (res + off_type)) as [ty l| |]; try reflexivity.
  destruct (negb _); [reflexivity | apply walk_cache_loop_depth].
Qed.

Lemma fold_left_max_ge l : forall a, a <= fold_left Z.max l a.
Proof.
  induction l as [|x l IH]; intros a; cbn [fold_left]; [lia|].
  specialize (IH (Z.max a x)). lia.
Qed.

Lemma find_cache_level_loop_depths n : forall fuel t cpu_node s level type
    resource nl ret_ nl' ret' log,
  acpi_find_cache_level_loop n fuel t cpu_node s level type resource nl ret_
  = Ok (nl', ret') log ->
  nl' = fold_left Z.max
          (resource_depths n fuel t cpu_node s level type resource) nl.
Proof.
  induction n as [|n IH]; intros fuel t cpu_node s level type resource nl ret_
    nl' ret' log H; cbn [acpi_find_cache_level_loop resource_depths] in *;
    apply bind_ok in H; destruct H as (res & l1 & l2 & Hres & H & ->);
    rewrite Hres; destruct res as [r|];
    try discriminate; try (inversion H; subst; reflexivity).
  apply bind_ok in H. destruct H as ([d ret1] & l3 & l4 & Hwalk & H & ->).
  pose proof (walk_cache_depth fuel t s r ret_ None level type) as Hd.
  rewrite Hwalk in Hd. cbn [depth_of] in Hd.
  destruct (acpi_pptt_walk_cache fuel t s r None level type)
    as [[d0 f0] l0| |]; try discriminate.
  cbn [depth_of] in Hd. inversion Hd; subst d0.
  apply IH in H. cbn [fold_left]. rewrite H. f_equal.
  destruct (Z.ltb_spec nl d); lia.
Qed.

Lemma find_cache_level_level fuel t cpu_node s level type r s' log :
  acpi_find_cache_level fuel t cpu_node s level type = Ok (r, s') log ->
  s' = fold_left Z.max
         (resource_depths fuel fuel t cpu_node s level type 0) s
  /\ s <= s'.
Proof.
  unfold acpi_find_cache_level. intros H.
  apply bind_ok in H. destruct H as ([nl ret_] & l1 & l2 & Hloop & H & ->).
  apply find_cache_level_loop_depths in Hloop.
  pose proof (fold_left_max_ge
                (resource_depths fuel fuel t cpu_node s level type 0) s) as Hge.
  rewrite <- Hloop in Hge. unfold ret in H. injection H as Hr Hs Hl.
  assert (s' = nl) as -> by (destruct (Z.gtb_spec nl s); lia).
  split; [assumption | lia].
Qed.

Lemma process_node_loop_level n : forall fuel t cpu_node total r log,
  acpi_process_node_loop n fuel t cpu_node total = Ok r log -> total <= r.
Proof.
  induction n as [|n IH]; intros fuel t cpu_node total r log H;
    cbn [acpi_process_node_loop] in H; [discriminate|].
  apply bind_ok in H. destruct H as ([ret_ s'] & l1 & l2 & Hlvl & H & ->).
  apply find_cache_level_level in Hlvl. destruct Hlvl as [_ Hle].
  apply bind_ok in H. destruct H as (pa & l3 & l4 & _ & H & ->).
  apply bind_ok in H. destruct H as (nd & l5 & l6 & _ & H & ->).
  destruct nd as [c|].
  - apply IH in H. lia.
  - inversion H; subst. assumption.
Qed.


(** ** Which match acpi_find_cache_level returns *)

Lemma cache_matches_ok t c ll level type m l :
  cache_matches t c ll level type = Ok m l ->
  l = [] /\ cache_matchesb t c ll level type = m.
Proof.
  intros H. unfold cache_matchesb. rewrite H. split; [|reflexivity].
  unfold cache_matches in H.
  destruct (ll =? level); [|inversion H; reflexivity].
  apply bind_ok in H. destruct H as (fl & l1 & l2 & Hfl & H & ->).
  apply rd32_ok in Hfl. destruct Hfl as (_ & -> & _).
  destruct (_ =? 0); [inversion H; reflexivity|].
  apply bind_ok in H. destruct H as (at_ & l3 & l4 & Hat & H & ->).
  apply rd8_ok in Hat. destruct Hat as (_ & -> & _).
  inversion H. reflexivity.
Qed.

Lemma fetch_log t r v l : fetch_pptt_subtable t r = Ok v l -> l = [].
Proof.
  unfold fetch_pptt_subtable. repeat case_ltb;
    try (intros H; inversion H; reflexivity).
  intros H. apply bind_ok in H. destruct H as (len & l1 & l2 & Hlen & H & ->).
  apply rd8_ok in Hlen. destruct Hlen as (_ & -> & _).
  destruct (_ >? _); inversion H; reflexivity.
Qed.

Lemma walk_cache_loop_matches n : forall t local_level cache found level type
    d found' log,
  acpi_pptt_walk_cache_loop n t local_level cache found level type
  = Ok (d, found') log ->
  (found', log)
  = assign_matches found (chain_matches n t local_level cache level type).
Proof.
  induction n as [|n IH]; intros t local_level [c|] found level type d found'
    log H; cbn [acpi_pptt_walk_cache_loop chain_matches] in *;
    try discriminate; try (inversion H; subst; reflexivity).
  apply bind_ok in H. destruct H as (m & l1 & l2 & Hm & H & ->).
  apply cache_matches_ok in Hm. destruct Hm as (-> & Hm). rewrite Hm.
  apply bind_ok in H. destruct H as (f1 & l3 & l4 & Hf1 & H & ->).
  apply bind_ok in H. destruct H as (next & l5 & l6 & Hnext & H & ->).
  apply bind_ok in H. destruct H as (cache' & l7 & l8 & Hfetch & H & ->).
  assert (Hnc : next_cache t c = cache').
  { unfold next_cache. rewrite Hnext. apply rd32_ok in Hnext.
    destruct Hnext as (_ & -> & _). rewrite bind_Ok_nil, Hfetch. reflexivity. }
  apply rd32_ok in Hnext. destruct Hnext as (_ & -> & _).
  apply fetch_log in Hfetch. subst l7.
  apply IH in H. rewrite Hnc. cbn [app].
  destruct m.
  - cbn [app assign_matches].
    destruct (is_duplicate found c); cbn in Hf1; inversion Hf1; subst;
      rewrite <- H; reflexivity.
  - inversion Hf1; subst. cbn [app]. exact H.
Qed.

Lemma walk_cache_matches fuel t s res found level type d found' log :
  acpi_pptt_walk_cache fuel t s res found level type = Ok (d, found') log ->
  (found', log)
  = assign_matches found (resource_matches fuel t s res level type).
Proof.
  unfold acpi_pptt_walk_cache, resource_matches. intros H.
  apply bind_ok in H. destruct H as (ty & l1 & l2 & Hty & H & ->).
  apply rd8_ok in Hty. destruct Hty as (-> & -> & _).
  destruct (_ =? ACPI_PPTT_TYPE_CACHE); cbn [negb] in H.
  - apply walk_cache_loop_matches in H. exact H.
  - inversion H; subst. reflexivity.
Qed.

Lemma assign_matches_app a : forall b found,
  assign_matches found (a ++ b)
  = let (f1, l1) := assign_matches found a in
    let (f2, l2) := assign_matches f1 b in
    (f2, l1 ++ l2).
Proof.
  induction a as [|x a IH]; intros b found; cbn [app assign_matches].
  - destruct (assign_matches found b). reflexivity.
  - rewrite IH. destruct (assign_matches (Some x) a) as [f1 l1].
    destruct (assign_matches f1 b) as [f2 l2]. rewrite app_assoc. reflexivity.
Qed.

Lemma get_resource_log t node resource v l :
  acpi_get_pptt_resource t node resource = Ok v l -> l = [].
Proof.
  unfold acpi_get_pptt_resource. intros H.
  apply bind_ok in H. destruct H as (n & l1 & l2 & Hn & H & ->).
  apply rd32_ok in Hn. destruct Hn as (_ & -> & _).
  destruct (_ >=? _); [inversion H; reflexivity|].
  apply bind_ok in H. destruct H as (r & l3 & l4 & Hr & H & ->).
  apply rd32_ok in Hr. destruct Hr as (_ & -> & _).
  apply fetch_log in H. assumption.
Qed.

Lemma find_cache_level_loop_matches n : forall fuel t cpu_node s level type
    resource nl ret_ nl' ret' log,
  acpi_find_cache_level_loop n fuel t cpu_node s level type resource nl ret_
  = Ok (nl', ret') log ->
  (ret', log)
  = assign_matches ret_
      (node_matches n fuel t cpu_node s level type resource).
Proof.
  induction n as [|n IH]; intros fuel t cpu_node s level type resource nl ret_
    nl' ret' log H; cbn [acpi_find_cache_level_loop node_matches] in *;
    apply bind_ok in H; destruct H as (res & l1 & l2 & Hres & H & ->);
    rewrite Hres; apply get_resource_log in Hres; subst l1;
    destruct res as [r|];
    try discriminate; try (inversion H; subst; reflexivity).
  apply bind_ok in H. destruct H as ([d ret1] & l3 & l4 & Hwalk & H & ->).
  apply walk_cache_matches in Hwalk. apply IH in H.
  rewrite assign_matches_app, <- Hwalk, <- H. reflexivity.
Qed.

Lemma assign_matches_last ms : forall found,
  fst (assign_matches found ms)
  = match ms with [] => found | _ => Some (last ms 0) end.
Proof.
  induction ms as [|m ms IH]; intros found; [reflexivity|].
  cbn [assign_matches]. specialize (IH (Some m)).
  destruct (assign_matches (Some m) ms) as [f l]. cbn [fst] in *.
  rewrite IH. destruct ms; reflexivity.
Qed.

Lemma assign_matches_dup ms : forall f m,
  In m ms -> m <> f ->
  In DuplicateCacheLevel (snd (assign_matches (Some f) ms)).
Proof.
  induction ms as [|x ms IH]; intros f m Hin Hne; [destruct Hin|].
  cbn [assign_matches].
  destruct (assign_matches (Some x) ms) as [f' l] eqn:E. cbn [snd].
  cbn [is_duplicate]. destruct (Z.eqb_spec x f) as [->|Hxf]; cbn [negb].
  - destruct Hin as [->|Hin]; [contradiction|].
    specialize (IH f m Hin Hne). rewrite E in IH. exact IH.
  - left. reflexivity.
Qed.

Lemma assign_matches_two ms a b :
  In a ms -> In b ms -> a <> b ->
  In DuplicateCacheLevel (snd (assign_matches None ms)).
Proof.
  destruct ms as [|x ms]; intros Ha Hb Hne; [destruct Ha|].
  cbn [assign_matches].
  destruct (assign_matches (Some x) ms) as [f' l] eqn:E. cbn [snd is_duplicate app].
  destruct (Z.eq_dec a x) as [->|Hax].
  - destruct Hb as [->|Hb]; [contradiction|].
    pose proof (assign_matches_dup ms x b Hb ltac:(congruence)) as H.
    rewrite E in H. exact H.
  - destruct Ha as [->|Ha]; [contradiction|].
    pose proof (assign_matches_dup ms x a Ha Hax) as H.
    rewrite E in H. exact H.
Qed.

Lemma bind_total {A B} (m : result A) (f : A -> result B) a l :
  m = Ok a l -> (exists b l', f a = Ok b l') -> exists b l', bind m f = Ok b l'.
Proof.
  intros -> (b & l' & E). unfold bind. rewrite E. eauto.
Qed.

Lemma cache_matches_total t c ll level type :
  in_table t (c + off_cache_flags) 4 = true ->
  in_table t (c + off_attributes) 1 = true ->
  exists m, cache_matches t c ll level type = Ok m [].
Proof.
  intros Hf Ha. unfold cache_matches, rd32, rd8. rewrite Hf, Ha.
  destruct (ll =? level); [|eexists; reflexivity].
  rewrite bind_ret. destruct (_ =? 0); [eexists; reflexivity|].
  rewrite bind_ret. eexists; reflexivity.
Qed.

Lemma next_cache_fetch t c :
  in_table t (c + off_next_level_of_cache) 4 = true ->
  rd32 t (c + off_next_level_of_cache)
  = Ok (le32 t (c + off_next_level_of_cache)) [] /\
  fetch_pptt_cache t (le32 t (c + off_next_level_of_cache))
  = Ok (next_cache t c) [].
Proof.
  intros Hn. unfold next_cache, rd32. rewrite Hn. split; [reflexivity|].
  rewrite bind_ret. unfold fetch_pptt_cache.
  destruct (fetch_pptt_subtable_ok t (le32 t (c + off_next_level_of_cache))
              (le32_range _ _)) as [E|E]; rewrite E; reflexivity.
Qed.

Lemma walk_cache_loop_total n : forall t local_level cache found level type,
  chain_readable n t cache = true ->
  exists r l,
    acpi_pptt_walk_cache_loop n t local_level cache found level type = Ok r l.
Proof.
  induction n as [|n IH]; intros t local_level [c|] found level type Hrd;
    cbn [acpi_pptt_walk_cache_loop chain_readable] in *;
    try discriminate; try (eexists; eexists; reflexivity).
  apply andb_true_iff in Hrd. destruct Hrd as [Hrd Hchain].
  apply andb_true_iff in Hrd. destruct Hrd as [Hrd Hnext].
  apply andb_true_iff in Hrd. destruct Hrd as [Hflags Hattr].
  destruct (cache_matches_total t c (s32 (local_level + 1)) level type
              Hflags Hattr) as (m & Hm).
  destruct (found_update_ok m found c) as (l1 & Hupd).
  destruct (next_cache_fetch t c Hnext) as (Hrd32 & Hfetch).
  eapply bind_total; [exact Hm|].
  eapply bind_total; [exact Hupd|].
  eapply bind_total; [exact Hrd32|].
  eapply bind_total; [exact Hfetch|].
  apply IH. exact Hchain.
Qed.

Lemma get_resource_some t node resource r l :
  acpi_get_pptt_resource t node resource = Ok (Some r) l ->
  in_table t (r + off_type) 1 = true.
Proof.
  unfold acpi_get_pptt_resource. intros H.
  apply bind_ok in H. destruct H as (n & l1 & l2 & _ & H & _).
  destruct (_ >=? _); [discriminate|].
  apply bind_ok in H. destruct H as (ref & l3 & l4 & _ & H & _).
  apply fetch_some_range in H. destruct H as (_ & _ & H1 & H2).
  apply in_table_true; unfold off_type; lia.
Qed.

Lemma find_cache_level_loop_total n : forall fuel t cpu_node s level type
    resource nl ret_,
  resources_readable n fuel t cpu_node resource = true ->
  exists r l,
    acpi_find_cache_level_loop n fuel t cpu_node s level type resource nl ret_
    = Ok r l.
Proof.
  induction n as [|n IH]; intros fuel t cpu_node s level type resource nl ret_
    Hrd; cbn [acpi_find_cache_level_loop resources_readable] in *;
    destruct (acpi_get_pptt_resource t cpu_node resource)
      as [[r|] l0| |] eqn:Hres;
    try discriminate; try (eexists; eexists; reflexivity).
  apply andb_true_iff in Hrd. destruct Hrd as [Hone Hrest].
  pose proof (get_resource_some _ _ _ _ _ Hres) as Hty.
  eapply bind_total; [reflexivity|].
  assert (Hwalk : exists r0 l,
            acpi_pptt_walk_cache fuel t s r ret_ level type = Ok r0 l).
  { unfold acpi_pptt_walk_cache, resource_readable, rd8 in *. rewrite Hty.
    rewrite bind_ret.
    destruct (_ =? ACPI_PPTT_TYPE_CACHE); cbn [negb];
      [apply walk_cache_loop_total; assumption | eexists; eexists; reflexivity]. }
  destruct Hwalk as ([d f] & l & Hwalk).
  eapply bind_total; [exact Hwalk|].
  apply IH. exact Hrest.
Qed.

(** ** The running level and the match, with termination *)

(** C6: acpi_find_cache_level returns whenever the records it walks are
    readable and its chains end, and after it [*starting_level] is the
    maximum of its previous value and the depths that acpi_pptt_walk_cache
    reported for the resources of the node, so it never decreases; hence
    the level that acpi_process_node accumulates while it ascends the
    ancestor chain never decreases either. *)
Theorem running_level_never_decreases fuel t cpu_node starting_level level type :
  (resources_readable fuel fuel t cpu_node 0 = true ->
   exists r s' log,
     acpi_find_cache_level fuel t cpu_node starting_level level type
     = Ok (r, s') log) /\
  (forall r s' log,
     acpi_find_cache_level fuel t cpu_node starting_level level type
     = Ok (r, s') log ->
     s' = fold_left Z.max
            (resource_depths fuel fuel t cpu_node starting_level level type 0)
            starting_level
     /\ starting_level <= s') /\
  (forall n r log,
     acpi_process_node_loop n fuel t cpu_node starting_level = Ok r log ->
     starting_level <= r).
Proof.
  split; [|split].
  - intros Hrd. unfold acpi_find_cache_level.
    destruct (find_cache_level_loop_total fuel fuel t cpu_node starting_level
                level type 0 starting_level None Hrd) as ([nl ret_] & l & E).
    rewrite E. cbn [bind ret]. eauto.
  - intros r s' log. apply find_cache_level_level.
  - intros n r log. apply process_node_loop_level.
Qed.

Lemma running_level_never_decreases_witness :
  (exists r s' log,
     acpi_find_cache_level 180 topo_table 36 1 0 0 = Ok (r, s') log) /\
  (2 = fold_left Z.max (resource_depths 180 180 topo_table 36 1 0 0 0) 1
   /\ 1 <= 2) /\
  1 <= 2.
Proof.
  destruct (running_level_never_decreases 180 topo_table 36 1 0 0)
    as (Htot & Hlvl & Hproc).
  split; [|split].
  - apply Htot. vm_compute. reflexivity.
  - apply (Hlvl None 2 []). vm_compute. reflexivity.
  - apply (Hproc 180%nat 2 []). vm_compute. reflexivity.
Defined.

(** C3 (claim as stated fails): with two data caches of level 1 under one
    processor, at offsets 64 and 88, the query returns the record at 88,
    the one met last, not the one met first. *)
Lemma find_cache_level_returns_last_match :
  ~ keeps_first_match 10 dup_table 36 0 1 0.
Proof.
  intros H.
  specialize (H (Some 88) 1 [DuplicateCacheLevel]
                ltac:(vm_compute; reflexivity)).
  vm_compute in H. discriminate.
Qed.

(** C3 (amended): a match found earlier never stops a walk: the walk
    proceeds as it does without one, and the query returns whenever the
    records it walks are readable and its chains end.
    acpi_find_cache_level assigns [found] at every matching record it
    meets, so when it returns, its result and its diagnostics are those of
    that sequence of assignments: with at least one match the query
    succeeds and returns the match met last, and when two distinct records
    match, the duplicate diagnostic is printed and the record met last is
    still returned. *)
Theorem find_cache_level_keeps_last fuel t cpu_node s level type :
  (forall res found,
     depth_of (acpi_pptt_walk_cache fuel t s res found level type)
     = depth_of (acpi_pptt_walk_cache fuel t s res None level type)) /\
  (resources_readable fuel fuel t cpu_node 0 = true ->
   exists r s' log,
     acpi_find_cache_level fuel t cpu_node s level type = Ok (r, s') log) /\
  (forall r s' log,
     acpi_find_cache_level fuel t cpu_node s level type = Ok (r, s') log ->
     let ms := node_matches fuel fuel t cpu_node s level type 0 in
     (r, log) = assign_matches None ms /\
     (ms <> [] -> r = Some (last ms 0)) /\
     (forall a b, In a ms -> In b ms -> a <> b ->
                  In DuplicateCacheLevel log /\ r = Some (last ms 0))).
Proof.
  split; [intros res found; apply walk_cache_depth|].
  split.
  { intros Hrd. unfold acpi_find_cache_level.
    destruct (find_cache_level_loop_total fuel fuel t cpu_node s level type 0 s
                None Hrd) as ([nl ret_] & l & E).
    rewrite E. cbn [bind ret]. eauto. }
  intros r s' log H ms. unfold acpi_find_cache_level in H.
  apply bind_ok in H. destruct H as ([nl ret_] & l1 & l2 & Hloop & H & ->).
  apply find_cache_level_loop_matches in Hloop. fold ms in Hloop.
  unfold ret in H. injection H as Hr _ Hl. subst ret_ l2.
  rewrite app_nil_r.
  assert (Hlast : ms <> [] -> r = Some (last ms 0)).
  { intros Hne. pose proof (assign_matches_last ms None) as E.
    rewrite <- Hloop in E. cbn [fst] in E. destruct ms; [contradiction|exact E]. }
  split; [exact Hloop|]. split; [exact Hlast|].
  intros a b Ha Hb Hne. split.
  - pose proof (assign_matches_two ms a b Ha Hb Hne) as E.
    rewrite <- Hloop in E. exact E.
  - apply Hlast. intros ->. destruct Ha.
Qed.

Lemma find_cache_level_keeps_last_witness :
  (exists r s' log,
     acpi_find_cache_level 10 dup_table 36 0 1 0 = Ok (r, s') log) /\
  In DuplicateCacheLevel [DuplicateCacheLevel] /\
  Some 88 = Some (last (node_matches 10 10 dup_table 36 0 1 0 0) 0).
Proof.
  destruct (find_cache_level_keeps_last 10 dup_table 36 0 1 0) as (_ & Ht & H).
  split; [apply Ht; vm_compute; reflexivity|].
  destruct (H (Some 88) 1 [DuplicateCacheLevel] ltac:(vm_compute; reflexivity))
    as (_ & _ & H2).
  apply (H2 64 88); [vm_compute; auto | vm_compute; auto | discriminate].
Defined.


(** ** Scenarios *)

(** A processor with one unified cache of one level: one cache level. *)
Example single_cache_levels :
  acpi_find_last_cache_level (fun cpu => cpu) (Some single_cache_table) 84
    fresh_once 1
  = Ok (1, fresh_once) [].
Proof. vm_compute. reflexivity. Qed.

(** Without a table the level count is 0; the diagnostic is printed by the
    first call and not by the next one. *)
Example no_table_levels :
  acpi_find_last_cache_level (fun cpu => cpu) None 84 fresh_once 1
  = Ok (0, set_levels_printed fresh_once true) [NoPPTTTable] /\
  acpi_find_last_cache_level (fun cpu => cpu) None 84
    (set_levels_printed fresh_once true) 1
  = Ok (0, set_levels_printed fresh_once true) [].
Proof. split; reflexivity. Qed.

(** The two cores of [topo_table] have distinct tags at level 0, share the
    tag of their package at level 1, and share their package tag. *)
Example topo_table_tags :
  find_acpi_cpu_topology (fun cpu => cpu) (Some topo_table) 180 fresh_once 0 0
  = Ok (0, fresh_once) [] /\
  find_acpi_cpu_topology (fun cpu => cpu) (Some topo_table) 180 fresh_once 1 0
  = Ok (1, fresh_once) [] /\
  find_acpi_cpu_topology (fun cpu => cpu) (Some topo_table) 180 fresh_once 0 1
  = Ok (36, fresh_once) [] /\
  find_acpi_cpu_topology (fun cpu => cpu) (Some topo_table) 180 fresh_once 1 1
  = Ok (36, fresh_once) [] /\
  find_acpi_cpu_topology_package (fun cpu => cpu) (Some topo_table) 180
    fresh_once 1
  = Ok (36, fresh_once) [].
Proof. vm_compute. repeat split. Qed.

(** A CPU that the table does not describe: the diagnostic is printed by
    the first call and not by the next one. *)
Example topo_table_unknown_cpu :
  find_acpi_cpu_topology (fun cpu => cpu) (Some topo_table) 180 fresh_once 7 0
  = Ok (- ENOENT, set_core_printed fresh_once true) [UnableToLocateCore 7] /\
  find_acpi_cpu_topology (fun cpu => cpu) (Some topo_table) 180
    (set_core_printed fresh_once true) 7 0
  = Ok (- ENOENT, set_core_printed fresh_once true) [].
Proof. vm_compute. split; reflexivity. Qed.

(** The level-1 data cache of CPU 0 is found under its own core, and its
    properties are carried over to the cacheinfo leaf. *)
Example topo_table_cache_properties :
  acpi_find_cache_node 180 topo_table 0 CACHE_TYPE_DATA 1 None
  = Ok (Some 132, Some 60) [] /\
  update_cache_properties sample_leaf (pptt_cache_at topo_table 132) (Some 60)
  = {| ci_type := CACHE_TYPE_DATA; ci_level := 1;
       ci_coherency_line_size := 64; ci_number_of_sets := 128;
       ci_ways_of_associativity := 4; ci_physical_line_partition := 1;
       ci_size := 32768; ci_attributes := 14;
       ci_firmware_node := Some 60 |}.
Proof. vm_compute. split; reflexivity. Qed.

(** On a processor record cut short by the end of the table, the scan of
    acpi_find_processor_node reads the id field past the end. *)
Example truncated_record_read :
  acpi_find_processor_node 44 truncated_table 0 = Crash OutOfBounds.
Proof. vm_compute. reflexivity. Qed.

(** The scan for the id of the processor of [zero_len_table] never returns:
    its leaf test runs into the record of length zero. *)
Example zero_length_blocks_leaf_test fuel :
  acpi_find_processor_node (S fuel) zero_len_table 7 = OutOfFuel.
Proof.
  unfold acpi_find_processor_node. cbn [acpi_find_processor_node_loop].
  replace (sizeof_acpi_table_pptt + sizeof_acpi_subtable_header
           <? table_length zero_len_table) with true
    by (vm_compute; reflexivity).
  replace (rd8 zero_len_table (sizeof_acpi_table_pptt + off_length))
    with (@Ok Z 36 []) by (vm_compute; reflexivity).
  rewrite bind_Ok_nil. cbn [Z.eqb].
  unfold is_leaf_processor.
  replace (rd8 zero_len_table (sizeof_acpi_table_pptt + off_type))
    with (@Ok Z 0 []) by (vm_compute; reflexivity).
  rewrite bind_Ok_nil. cbn [Z.eqb ACPI_PPTT_TYPE_PROCESSOR].
  replace (rd32 zero_len_table (sizeof_acpi_table_pptt + off_acpi_processor_id))
    with (@Ok Z 7 []) by (vm_compute; reflexivity).
  rewrite bind_Ok_nil. cbn [Z.eqb Pos.eqb].
  change sizeof_acpi_table_pptt with 36.
  rewrite leaf_node_zero_length_diverges. reflexivity.
Qed.


(** * Further properties of the parser *)

(** ** fetch_pptt_subtable below the wrap-around *)

(** X1: for a reference below 2^32 - 255, where the 32-bit sum cannot wrap,
    fetch_pptt_subtable reads nothing outside the table, returns NULL
    exactly when the reference is below the header size, or the header or
    the record ends past the table, and otherwise returns the record at the
    reference, which then lies within the table. *)
Theorem fetch_pptt_subtable_exact t pptt_ref :
  0 <= pptt_ref -> pptt_ref + 255 < 2 ^ 32 ->
  exists r,
    fetch_pptt_subtable t pptt_ref = Ok r [] /\
    (r = None <->
       pptt_ref < sizeof_acpi_subtable_header \/
       pptt_ref + sizeof_acpi_subtable_header > table_length t \/
       pptt_ref + byte_at t (pptt_ref + off_length) > table_length t) /\
    (forall e, r = Some e ->
       e = pptt_ref /\ sizeof_acpi_subtable_header <= e /\
       e + byte_at t (e + off_length) <= table_length t).
Proof.
  intros Hpos Hlt.
  destruct (fetch_pptt_subtable_bounds t pptt_ref ltac:(lia))
    as (r & E & Hiff & Hsome).
  exists r. split; [exact E|]. split; [exact (Hiff Hlt)|].
  intros e He. subst r.
  assert (Hr : Some e = Some pptt_ref) by (apply Hsome; discriminate).
  injection Hr as ->.
  unfold sizeof_acpi_subtable_header in *.
  destruct (Z_lt_le_dec pptt_ref 2) as [Hs|Hs].
  { assert (Some pptt_ref = None) by (apply Hiff; auto). discriminate. }
  destruct (Z_lt_le_dec (table_length t)
              (pptt_ref + byte_at t (pptt_ref + off_length))) as [Hb|Hb].
  { assert (Some pptt_ref = None) by (apply Hiff; [assumption | right; right; lia]).
    discriminate. }
  repeat split; lia.
Qed.

Lemma fetch_pptt_subtable_exact_witness :
  exists r,
    fetch_pptt_subtable topo_table 60 = Ok r [] /\
    (r = None <->
       60 < sizeof_acpi_subtable_header \/
       60 + sizeof_acpi_subtable_header > table_length topo_table \/
       60 + byte_at topo_table (60 + off_length) > table_length topo_table) /\
    (forall e, r = Some e ->
       e = 60 /\ sizeof_acpi_subtable_header <= e /\
       e + byte_at topo_table (e + off_length) <= table_length topo_table).
Proof. apply (fetch_pptt_subtable_exact topo_table 60); lia. Defined.

(** X2: for every 32-bit reference, also one so close to 2^32 that its sum
    with the record length wraps, fetch_pptt_subtable reads no byte outside
    the table: it returns, with NULL or with the reference itself, and then
    the header of the record lies within the table. *)
Theorem fetch_pptt_subtable_never_faults t pptt_ref :
  0 <= pptt_ref < 2 ^ 32 ->
  fetch_pptt_subtable t pptt_ref = Ok None [] \/
  (fetch_pptt_subtable t pptt_ref = Ok (Some pptt_ref) [] /\
   sizeof_acpi_subtable_header <= pptt_ref /\
   pptt_ref + sizeof_acpi_subtable_header <= table_length t).
Proof.
  intros Hr. destruct (fetch_pptt_subtable_ok t pptt_ref Hr) as [E|E];
    [left; exact E | right].
  split; [exact E|]. apply fetch_some_range in E.
  unfold sizeof_acpi_subtable_header. lia.
Qed.

Lemma fetch_pptt_subtable_never_faults_witness :
  fetch_pptt_subtable huge_table 4294967286 = Ok None [] \/
  (fetch_pptt_subtable huge_table 4294967286 = Ok (Some 4294967286) [] /\
   sizeof_acpi_subtable_header <= 4294967286 /\
   4294967286 + sizeof_acpi_subtable_header <= table_length huge_table).
Proof. apply fetch_pptt_subtable_never_faults. lia. Defined.

(** ** Depth and matches of a cache walk *)

Lemma s32_range x : - 2 ^ 31 <= s32 x < 2 ^ 31.
Proof.
  unfold s32. pose proof (Z.mod_pos_bound (x + 2 ^ 31) (2 ^ 32) ltac:(lia)). lia.
Qed.

Lemma s32_add_l a b : s32 (s32 a + b) = s32 (a + b).
Proof.
  unfold s32.
  replace ((a + 2 ^ 31) mod 2 ^ 32 - 2 ^ 31 + b + 2 ^ 31)
    with ((a + 2 ^ 31) mod 2 ^ 32 + b) by lia.
  rewrite Z.add_mod_idemp_l by lia.
  replace (a + 2 ^ 31 + b) with (a + b + 2 ^ 31) by lia. reflexivity.
Qed.

Lemma chain_len_nonneg n : forall t cache, 0 <= chain_len n t cache.
Proof.
  induction n as [|n IH]; intros t [c|]; cbn [chain_len]; try lia.
  specialize (IH t (next_cache t c)). lia.
Qed.

Lemma walk_cache_loop_chain_len n : forall t local_level cache found level type
    d f l,
  - 2 ^ 31 <= local_level < 2 ^ 31 ->
  acpi_pptt_walk_cache_loop n t local_level cache found level type
  = Ok (d, f) l ->
  d = s32 (local_level + chain_len n t cache).
Proof.
  induction n as [|n IH]; intros t local_level [c|] found level type d f l Hr H;
    cbn [acpi_pptt_walk_cache_loop chain_len] in *; try discriminate;
    try (inversion H; subst; rewrite Z.add_0_r, s32_small by lia; reflexivity).
  apply bind_ok in H. destruct H as (m & l1 & l2 & _ & H & _).
  apply bind_ok in H. destruct H as (f1 & l3 & l4 & _ & H & _).
  apply bind_ok in H. destruct H as (next & l5 & l6 & Hnext & H & _).
  apply bind_ok in H. destruct H as (cache' & l7 & l8 & Hfetch & H & _).
  assert (Hnc : next_cache t c = cache').
  { unfold next_cache. rewrite Hnext. apply rd32_ok in Hnext.
    destruct Hnext as (_ & -> & _). rewrite bind_Ok_nil, Hfetch. reflexivity. }
  apply IH in H; [|apply s32_range].
  rewrite H, Hnc, s32_add_l. f_equal. lia.
Qed.

(** X3: acpi_pptt_walk_cache returns on a resource whose chain is readable
    and ends; for a resource that is not a cache it reports depth 0, and
    for a cache the level it started from plus the number of records of the
    chain (as an [int]; exactly, when the sum stays below 2^31). *)
Theorem acpi_pptt_walk_cache_depth fuel t local_level res found level type :
  - 2 ^ 31 <= local_level < 2 ^ 31 ->
  (in_table t (res + off_type) 1 = true ->
   resource_readable fuel t res = true ->
   exists d f l,
     acpi_pptt_walk_cache fuel t local_level res found level type
     = Ok (d, f) l) /\
  (forall d f l,
     acpi_pptt_walk_cache fuel t local_level res found level type
     = Ok (d, f) l ->
     d = (if byte_at t (res + off_type) =? ACPI_PPTT_TYPE_CACHE
          then s32 (local_level + chain_len fuel t (Some res)) else 0)) /\
  (local_level + chain_len fuel t (Some res) < 2 ^ 31 ->
   s32 (local_level + chain_len fuel t (Some res))
   = local_level + chain_len fuel t (Some res)).
Proof.
  intros Hr. split; [|split].
  - intros Hty Hrd. unfold acpi_pptt_walk_cache, resource_readable, rd8 in *.
    rewrite Hty, bind_ret.
    destruct (_ =? ACPI_PPTT_TYPE_CACHE); cbn [negb].
    + destruct (walk_cache_loop_total fuel t local_level (Some res) found
                  level type Hrd) as ([d f] & l & E). eauto.
    + eexists; eexists; eexists; reflexivity.
  - intros d f l H. unfold acpi_pptt_walk_cache in H.
    apply bind_ok in H. destruct H as (ty & l1 & l2 & Hty & H & _).
    apply rd8_ok in Hty. destruct Hty as (-> & _).
    destruct (_ =? ACPI_PPTT_TYPE_CACHE); cbn [negb] in H.
    + eapply walk_cache_loop_chain_len; eassumption.
    + inversion H. reflexivity.
  - intros Hlt. apply s32_small.
    pose proof (chain_len_nonneg fuel t (Some res)). lia.
Qed.

Lemma acpi_pptt_walk_cache_depth_witness :
  (exists d f l,
     acpi_pptt_walk_cache 10 two_level_table 0 80 None 2 8 = Ok (d, f) l) /\
  2 = (if byte_at two_level_table (80 + off_type) =? ACPI_PPTT_TYPE_CACHE
       then s32 (0 + chain_len 10 two_level_table (Some 80)) else 0) /\
  s32 (0 + chain_len 10 two_level_table (Some 80))
  = 0 + chain_len 10 two_level_table (Some 80).
Proof.
  destruct (acpi_pptt_walk_cache_depth 10 two_level_table 0 80 None 2 8
              ltac:(lia)) as (Htot & Hval & Hsmall).
  split; [|split].
  - apply Htot; vm_compute; reflexivity.
  - apply (Hval 2 (Some 104) []). vm_compute. reflexivity.
  - apply Hsmall. vm_compute. reflexivity.
Defined.

Lemma cache_matchesb_sound t c ll level type :
  cache_matchesb t c ll level type = true ->
  ll = level /\
  in_table t (c + off_cache_flags) 4 = true /\
  Z.land (le32 t (c + off_cache_flags)) ACPI_PPTT_CACHE_TYPE_VALID <> 0 /\
  in_table t (c + off_attributes) 1 = true /\
  Z.land (byte_at t (c + off_attributes)) ACPI_PPTT_MASK_CACHE_TYPE = type.
Proof.
  unfold cache_matchesb, cache_matches, rd32, rd8.
  destruct (Z.eqb_spec ll level); [|cbn; discriminate].
  destruct (in_table t (c + off_cache_flags) 4); [|cbn; discriminate].
  rewrite bind_ret.
  destruct (Z.eqb_spec (Z.land (le32 t (c + off_cache_flags))
                          ACPI_PPTT_CACHE_TYPE_VALID) 0); [cbn; discriminate|].
  destruct (in_table t (c + off_attributes) 1); [|cbn; discriminate].
  rewrite bind_ret. cbn [ret].
  destruct (Z.eqb_spec (Z.land (byte_at t (c + off_attributes))
                          ACPI_PPTT_MASK_CACHE_TYPE) type); [|discriminate].
  intros _. auto.
Qed.

Lemma chain_matches_sound n : forall t ll cache level type c,
  In c (chain_matches n t ll cache level type) ->
  exists ll', cache_matchesb t c ll' level type = true.
Proof.
  induction n as [|n IH]; intros t ll [c0|] level type c Hin;
    cbn [chain_matches] in Hin; try contradiction.
  apply in_app_or in Hin. destruct Hin as [Hin|Hin].
  - destruct (cache_matchesb t c0 (s32 (ll + 1)) level type) eqn:E;
      [|contradiction].
    destruct Hin as [<-|[]]. eauto.
  - eapply IH. exact Hin.
Qed.

Lemma node_matches_sound n : forall fuel t cpu_node s level type resource c,
  In c (node_matches n fuel t cpu_node s level type resource) ->
  exists ll', cache_matchesb t c ll' level type = true.
Proof.
  induction n as [|n IH]; intros fuel t cpu_node s level type resource c Hin;
    cbn [node_matches] in Hin;
    destruct (acpi_get_pptt_resource t cpu_node resource) as [[r|] l| |];
    try contradiction.
  apply in_app_or in Hin. destruct Hin as [Hin|Hin].
  - unfold resource_matches in Hin.
    destruct (_ =? ACPI_PPTT_TYPE_CACHE); [|contradiction].
    eapply chain_matches_sound. exact Hin.
  - eapply IH. exact Hin.
Qed.

Lemma last_in (l : list Z) d : l <> [] -> In (last l d) l.
Proof.
  induction l as [|x l IH]; [congruence|]. intros _.
  destruct l as [|y l]; [left; reflexivity|].
  right. apply IH. discriminate.
Qed.

Lemma find_cache_level_match_sound fuel t cpu_node s level type c s' log :
  acpi_find_cache_level fuel t cpu_node s level type = Ok (Some c, s') log ->
  in_table t (c + off_cache_flags) 4 = true /\
  Z.land (le32 t (c + off_cache_flags)) ACPI_PPTT_CACHE_TYPE_VALID <> 0 /\
  in_table t (c + off_attributes) 1 = true /\
  Z.land (byte_at t (c + off_attributes)) ACPI_PPTT_MASK_CACHE_TYPE = type.
Proof.
  intros H. unfold acpi_find_cache_level in H.
  apply bind_ok in H. destruct H as ([nl ret_] & l1 & l2 & Hloop & H & _).
  apply find_cache_level_loop_matches in Hloop.
  unfold ret in H. injection H as Hr _ _. subst ret_.
  pose proof (assign_matches_last
                (node_matches fuel fuel t cpu_node s level type 0) None) as E.
  rewrite <- Hloop in E. cbn [fst] in E.
  destruct (node_matches fuel fuel t cpu_node s level type 0) as [|x ms] eqn:Hms;
    [discriminate|].
  injection E as ->.
  assert (Hin : In (last (x :: ms) 0)
                  (node_matches fuel fuel t cpu_node s level type 0))
    by (rewrite Hms; apply last_in; discriminate).
  apply node_matches_sound in Hin. destruct Hin as (ll' & Hm).
  apply cache_matchesb_sound in Hm. tauto.
Qed.

(** X4: a cache that acpi_find_cache_level returns has its cache-type flag
    set and its type bits equal to the requested type, both read within
    the table; with no resource under the node nothing is returned and the
    level is unchanged. *)
Theorem acpi_find_cache_level_sound fuel t cpu_node s level type :
  (forall c s' log,
     acpi_find_cache_level fuel t cpu_node s level type = Ok (Some c, s') log ->
     in_table t (c + off_cache_flags) 4 = true /\
     Z.land (le32 t (c + off_cache_flags)) ACPI_PPTT_CACHE_TYPE_VALID <> 0 /\
     in_table t (c + off_attributes) 1 = true /\
     Z.land (byte_at t (c + off_attributes)) ACPI_PPTT_MASK_CACHE_TYPE = type) /\
  (acpi_get_pptt_resource t cpu_node 0 = Ok None [] ->
   acpi_find_cache_level fuel t cpu_node s level type = Ok (None, s) []).
Proof.
  split.
  - intros c s' log. apply find_cache_level_match_sound.
  - intros Hres. unfold acpi_find_cache_level.
    assert (E : acpi_find_cache_level_loop fuel fuel t cpu_node s level type 0 s
                  None = Ok (s, None) [])
      by (destruct fuel; cbn [acpi_find_cache_level_loop]; rewrite Hres;
          reflexivity).
    rewrite E, bind_Ok_nil.
    destruct (Z.gtb_spec s s); [lia | reflexivity].
Qed.

Lemma acpi_find_cache_level_sound_witness :
  (in_table two_level_table (104 + off_cache_flags) 4 = true /\
   Z.land (le32 two_level_table (104 + off_cache_flags))
     ACPI_PPTT_CACHE_TYPE_VALID <> 0 /\
   in_table two_level_table (104 + off_attributes) 1 = true /\
   Z.land (byte_at two_level_table (104 + off_attributes))
     ACPI_PPTT_MASK_CACHE_TYPE = 8) /\
  acpi_find_cache_level 10 two_level_table 36 2 2 8 = Ok (None, 2) [].
Proof.
  split.
  - destruct (acpi_find_cache_level_sound 10 two_level_table 56 0 2 8)
      as (H & _).
    apply (H 104 2 []). vm_compute. reflexivity.
  - destruct (acpi_find_cache_level_sound 10 two_level_table 36 2 2 8)
      as (_ & H).
    apply H. vm_compute. reflexivity.
Defined.

(** ** acpi_cache_type and acpi_find_cache_node *)






(** ** acpi_find_processor_node: which record it returns *)

Lemma is_leaf_processor_wf fuel t id e :
  0 <= e -> e + sizeof_acpi_subtable_header < table_length t ->
  table_length t <= Z.of_nat fuel ->
  wf_table t = true -> wf_record t e = true ->
  is_leaf_processor fuel t id e = Ok (is_leaf_record t id e) [].
Proof.
  intros Hpos Hlt Hfuel Hwf He. pose proof (table_length_range t) as Hlen.
  unfold wf_record in He.
  apply andb_true_iff in He. destruct He as [He Hproc].
  apply andb_true_iff in He. destruct He as [_ Hend]. apply Z.leb_le in Hend.
  unfold is_leaf_processor, is_leaf_record.
  unfold sizeof_acpi_subtable_header, off_type, off_acpi_processor_id,
    sizeof_acpi_pptt_processor in *.
  rewrite rd8_in by lia. rewrite bind_Ok_nil.
  destruct (Z.eqb_spec (byte_at t (e + 0)) ACPI_PPTT_TYPE_PROCESSOR);
    [|reflexivity].
  apply Z.leb_le in Hproc. rewrite rd32_in by lia. rewrite bind_Ok_nil.
  destruct (id =? le32 t (e + 12)); [|reflexivity].
  cbn [andb]. unfold acpi_pptt_leaf_node, u32. rewrite Z.mod_small by lia.
  unfold wf_table in Hwf. rewrite (records_fuel fuel t Hfuel) in *.
  rewrite leaf_node_loop_wf;
    [| unfold sizeof_acpi_table_pptt; lia
     | unfold sizeof_acpi_table_pptt; lia | assumption].
  rewrite bind_Ok_nil.
  destruct (existsb _ _); reflexivity.
Qed.

Lemma find_processor_node_loop_wf n : forall fuel t id e,
  0 <= e -> table_length t - e <= Z.of_nat n ->
  table_length t <= Z.of_nat fuel -> wf_table t = true ->
  forallb (wf_record t) (pptt_records n t e) = true ->
  acpi_find_processor_node_loop n fuel t id e
  = Ok (find (is_leaf_record t id) (pptt_records n t e)) [].
Proof.
  induction n as [|n IH]; intros fuel t id e Hpos Hn Hfuel Hwf Hall;
    cbn [acpi_find_processor_node_loop pptt_records] in *;
    unfold sizeof_acpi_subtable_header in *.
  { destruct (Z.ltb_spec (e + 2) (table_length t)); [lia | reflexivity]. }
  destruct (Z.ltb_spec (e + 2) (table_length t)); [|reflexivity].
  cbn [forallb find] in *. apply andb_true_iff in Hall.
  destruct Hall as [He Hall].
  assert (Hnz : byte_at t (e + off_length) <> 0).
  { unfold wf_record in He. apply andb_true_iff in He. destruct He as [He _].
    apply andb_true_iff in He. destruct He as [He _].
    apply negb_true_iff, Z.eqb_neq in He. exact He. }
  pose proof (byte_at_range t (e + off_length)).
  destruct (Z.eqb_spec (byte_at t (e + off_length)) 0); [contradiction|].
  unfold off_length in *. rewrite rd8_in by lia. rewrite bind_Ok_nil.
  destruct (Z.eqb_spec (byte_at t (e + 1)) 0); [contradiction|].
  rewrite (is_leaf_processor_wf fuel t id e)
    by (try assumption; unfold sizeof_acpi_subtable_header; lia).
  rewrite bind_Ok_nil.
  destruct (is_leaf_record t id e); [reflexivity|].
  apply IH; [lia | lia | assumption..].
Qed.

(** X6: on a table whose records all have a non-zero length, lie within the
    table and, for processor records, hold the fixed processor fields,
    acpi_find_processor_node returns, and returns the first record in table
    order that is a processor record with the requested id and that no
    record names as its parent; NULL when there is none.  It prints no
    diagnostic. *)
Theorem acpi_find_processor_node_first_leaf fuel t id :
  table_length t <= Z.of_nat fuel ->
  wf_table t = true ->
  acpi_find_processor_node fuel t id
  = Ok (find (is_leaf_record t id) (records t)) [].
Proof.
  intros Hfuel Hwf. pose proof Hwf as Hwf'. unfold wf_table in Hwf'.
  rewrite (records_fuel fuel t Hfuel) in *. unfold acpi_find_processor_node.
  apply find_processor_node_loop_wf;
    [unfold sizeof_acpi_table_pptt; lia
    | unfold sizeof_acpi_table_pptt; lia | assumption..].
Qed.

Lemma acpi_find_processor_node_first_leaf_witness :
  acpi_find_processor_node 180 topo_table 1
  = Ok (find (is_leaf_record topo_table 1) (records topo_table)) [].
Proof.
  apply acpi_find_processor_node_first_leaf;
    [vm_compute; discriminate | vm_compute; reflexivity].
Defined.

Lemma find_processor_node_loop_reaches n : forall fuel t id k e leaf log,
  scan_reaches fuel t id k e ->
  acpi_find_processor_node_loop n fuel t id e = Ok (Some leaf) log ->
  exists k', scan_reaches fuel t id k' leaf.
Proof.
  induction n as [|n IH]; intros fuel t id k e leaf log Hreach H;
    cbn [acpi_find_processor_node_loop] in H;
    destruct (Z.ltb_spec (e + sizeof_acpi_subtable_header) (table_length t));
    try discriminate.
  apply bind_ok in H. destruct H as (len & l1 & l2 & Hlen & H & _).
  apply rd8_ok in Hlen. destruct Hlen as (-> & _).
  destruct (Z.eqb_spec (byte_at t (e + off_length)) 0);
    [cbn in H; discriminate|].
  apply bind_ok in H. destruct H as (m & l3 & l4 & Hm & H & _).
  pose proof (is_leaf_processor_ok _ _ _ _ _ _ Hm) as (-> & _).
  destruct m.
  - inversion H; subst. eauto.
  - eapply (IH _ _ _ (S k)); [|exact H]. apply reach_next; assumption.
Qed.

(** X7: the node that acpi_find_processor_node returns is a processor
    record whose [acpi_processor_id] is the requested id and for which
    acpi_pptt_leaf_node returned true; the scan reached it from the first
    record over records that all failed this test (the first match wins),
    and no diagnostic was printed. *)
Theorem acpi_find_processor_node_sound fuel t id leaf log :
  acpi_find_processor_node fuel t id = Ok (Some leaf) log ->
  log = [] /\
  byte_at t (leaf + off_type) = ACPI_PPTT_TYPE_PROCESSOR /\
  in_table t (leaf + off_acpi_processor_id) 4 = true /\
  le32 t (leaf + off_acpi_processor_id) = id /\
  acpi_pptt_leaf_node fuel t leaf = Ok 1 [] /\
  exists k, scan_reaches fuel t id k leaf.
Proof.
  intros H. pose proof H as H'.
  apply find_processor_node_loop_some in H'. destruct H' as (-> & Hleaf).
  apply is_leaf_processor_ok in Hleaf. destruct Hleaf as (_ & Hleaf).
  destruct (Hleaf eq_refl) as (_ & Hty & Hin & Hid & Hl).
  repeat split; try assumption.
  eapply find_processor_node_loop_reaches; [apply reach_first | exact H].
Qed.

Lemma acpi_find_processor_node_sound_witness :
  [] = @nil diag /\
  byte_at topo_table (84 + off_type) = ACPI_PPTT_TYPE_PROCESSOR /\
  in_table topo_table (84 + off_acpi_processor_id) 4 = true /\
  le32 topo_table (84 + off_acpi_processor_id) = 1 /\
  acpi_pptt_leaf_node 180 topo_table 84 = Ok 1 [] /\
  exists k, scan_reaches 180 topo_table 1 k 84.
Proof.
  apply (acpi_find_processor_node_sound 180 topo_table 1 84 []).
  vm_compute. reflexivity.
Defined.

(** X8: when the scan of acpi_find_processor_node stands at a record of
    processor type and non-zero length that starts fewer than 16 bytes
    before the end of the table, it reads the [acpi_processor_id] field
    past the end of the table: the loop condition only keeps the record
    header within the table. *)
Theorem acpi_find_processor_node_reads_past_end fuel t id k e :
  scan_reaches fuel t id k e ->
  (k < fuel)%nat ->
  e + sizeof_acpi_subtable_header < table_length t ->
  byte_at t (e + off_length) <> 0 ->
  byte_at t (e + off_type) = ACPI_PPTT_TYPE_PROCESSOR ->
  table_length t < e + off_acpi_processor_id + 4 ->
  acpi_find_processor_node fuel t id = Crash OutOfBounds.
Proof.
  intros Hreach Hk Hlt Hnz Hty Hend.
  destruct (scan_reaches_unroll _ _ _ _ _ Hreach) as [Hge Hun].
  unfold acpi_find_processor_node.
  replace fuel with (k + S (fuel - k - 1))%nat at 1 by lia.
  rewrite Hun. cbn [acpi_find_processor_node_loop].
  unfold sizeof_acpi_table_pptt, sizeof_acpi_subtable_header, off_length,
    off_type, off_acpi_processor_id in *.
  destruct (Z.ltb_spec (e + 2) (table_length t)); [|lia].
  rewrite rd8_in by lia. rewrite bind_Ok_nil.
  destruct (Z.eqb_spec (byte_at t (e + 1)) 0); [contradiction|].
  unfold is_leaf_processor, off_type, off_acpi_processor_id.
  rewrite rd8_in by lia. rewrite bind_Ok_nil, Hty. cbn [Z.eqb].
  unfold ACPI_PPTT_TYPE_PROCESSOR. cbn [Z.eqb].
  unfold rd32, in_table.
  destruct (Z.leb_spec (e + 12 + 4) (table_length t)); [lia|].
  rewrite andb_false_r. reflexivity.
Qed.

Lemma acpi_find_processor_node_reads_past_end_witness :
  acpi_find_processor_node 44 truncated_table 0 = Crash OutOfBounds.
Proof.
  apply (acpi_find_processor_node_reads_past_end 44 truncated_table 0 0 36);
    [apply reach_first | lia | vm_compute; reflexivity
    | vm_compute; discriminate | vm_compute; reflexivity
    | vm_compute; reflexivity].
Defined.

(** ** acpi_pptt_leaf_node at a record of length zero *)

Lemma bind_assoc {A B C} (m : result A) (f : A -> result B) (g : B -> result C) :
  bind (bind m f) g = bind m (fun x => bind (f x) g).
Proof.
  destruct m as [a l| |]; cbn; try reflexivity.
  destruct (f a) as [b l1| |]; cbn; try reflexivity.
  destruct (g b) as [c l2| |]; cbn; try reflexivity.
  rewrite app_assoc. reflexivity.
Qed.

Lemma leaf_node_loop_step n t node_entry e :
  e + sizeof_acpi_subtable_header < table_length t ->
  acpi_pptt_leaf_node_loop (S n) t node_entry e
  = (hit <- leaf_test t node_entry e ;;
     if hit then ret 0
     else len <- rd8 t (e + off_length) ;;
          acpi_pptt_leaf_node_loop n t node_entry (e + len)).
Proof.
  intros Hlt. cbn [acpi_pptt_leaf_node_loop].
  destruct (Z.ltb_spec (e + sizeof_acpi_subtable_header) (table_length t));
    [|lia].
  unfold leaf_test. rewrite bind_assoc. reflexivity.
Qed.

Lemma leaf_reaches_unroll t node_entry k e :
  leaf_reaches t node_entry k e ->
  sizeof_acpi_table_pptt <= e /\
  forall m,
    acpi_pptt_leaf_node_loop (k + m) t node_entry sizeof_acpi_table_pptt
    = acpi_pptt_leaf_node_loop m t node_entry e.
Proof.
  induction 1 as [|k e Hreach [Hge IH] Hlt Htest].
  - split; [lia | reflexivity].
  - pose proof (byte_at_range t (e + off_length)).
    split; [lia|]. intros m.
    replace (S k + m)%nat with (k + S m)%nat by lia. rewrite IH.
    rewrite leaf_node_loop_step by assumption.
    rewrite Htest, bind_Ok_nil.
    unfold sizeof_acpi_table_pptt, sizeof_acpi_subtable_header, off_length in *.
    rewrite rd8_in by lia. rewrite bind_Ok_nil. reflexivity.
Qed.

Lemma leaf_reaches_prefix t node_entry k e :
  leaf_reaches t node_entry k e ->
  e + sizeof_acpi_subtable_header < table_length t ->
  forall j, (j <= k)%nat ->
    exists e', leaf_reaches t node_entry j e' /\
               e' + sizeof_acpi_subtable_header < table_length t.
Proof.
  induction 1 as [|k e Hreach IH Hlt Htest]; intros Hend j Hj.
  - assert (j = O) as -> by lia. exists sizeof_acpi_table_pptt.
    split; [apply lreach_first | assumption].
  - destruct (Nat.eq_dec j (S k)) as [->|Hne].
    + eexists. split; [apply lreach_next; eassumption | assumption].
    + apply IH; [assumption | lia].
Qed.

Lemma leaf_node_loop_stuck n : forall t node_entry e,
  0 <= e -> e + sizeof_acpi_subtable_header < table_length t ->
  leaf_test t node_entry e = Ok false [] ->
  byte_at t (e + off_length) = 0 ->
  acpi_pptt_leaf_node_loop n t node_entry e = OutOfFuel.
Proof.
  induction n as [|n IH]; intros t node_entry e Hpos Hlt Htest Hz.
  - cbn [acpi_pptt_leaf_node_loop].
    destruct (Z.ltb_spec (e + sizeof_acpi_subtable_header) (table_length t));
      [reflexivity | lia].
  - rewrite leaf_node_loop_step by assumption. rewrite Htest, bind_Ok_nil.
    unfold sizeof_acpi_subtable_header, off_length in *.
    rewrite rd8_in by lia. rewrite bind_Ok_nil, Hz, Z.add_0_r.
    apply IH; assumption.
Qed.

(** X9: acpi_pptt_leaf_node has no test for a record of length zero: when
    its scan reaches such a record, and the record does not name the node
    as its parent, the scan stays on it and the function never returns,
    whatever the fuel. *)
Theorem acpi_pptt_leaf_node_stuck t node k e :
  leaf_reaches t (u32 node) k e ->
  e + sizeof_acpi_subtable_header < table_length t ->
  leaf_test t (u32 node) e = Ok false [] ->
  byte_at t (e + off_length) = 0 ->
  forall fuel, acpi_pptt_leaf_node fuel t node = OutOfFuel.
Proof.
  intros Hreach Hlt Htest Hz fuel. unfold acpi_pptt_leaf_node.
  destruct (leaf_reaches_unroll _ _ _ _ Hreach) as [Hge Hun].
  unfold sizeof_acpi_table_pptt in Hge.
  destruct (le_lt_dec fuel k) as [Hle|Hgt].
  - destruct (leaf_reaches_prefix _ _ _ _ Hreach Hlt fuel Hle)
      as (e' & Hr' & Hlt').
    destruct (leaf_reaches_unroll _ _ _ _ Hr') as [_ Hun'].
    specialize (Hun' O). rewrite Nat.add_0_r in Hun'. rewrite Hun'.
    cbn [acpi_pptt_leaf_node_loop].
    destruct (Z.ltb_spec (e' + sizeof_acpi_subtable_header) (table_length t));
      [reflexivity | lia].
  - replace fuel with (k + (fuel - k))%nat by lia. rewrite Hun.
    apply leaf_node_loop_stuck; [lia | assumption..].
Qed.

Lemma zero_len_table_leaf_reaches : leaf_reaches zero_len_table (u32 36) 3 120.
Proof.
  change 120 with (96 + byte_at zero_len_table (96 + off_length)).
  apply lreach_next; [| vm_compute; reflexivity | vm_compute; reflexivity].
  change 96 with (72 + byte_at zero_len_table (72 + off_length)).
  apply lreach_next; [| vm_compute; reflexivity | vm_compute; reflexivity].
  change 72 with (36 + byte_at zero_len_table (36 + off_length)).
  apply lreach_next; [| vm_compute; reflexivity | vm_compute; reflexivity].
  apply lreach_first.
Defined.

Lemma acpi_pptt_leaf_node_stuck_witness :
  acpi_pptt_leaf_node 1000 zero_len_table 36 = OutOfFuel.
Proof.
  apply (acpi_pptt_leaf_node_stuck zero_len_table 36 3 120
           zero_len_table_leaf_reaches);
    vm_compute; reflexivity.
Defined.

(** ** acpi_find_cache_levels and acpi_find_last_cache_level *)

(** X10: the level count of acpi_find_last_cache_level is never negative;
    it is 0 when there is no table, and the diagnostic for it is printed by
    the first such call only; it is 0 when the table has no leaf processor
    record for the CPU. *)
Theorem acpi_find_last_cache_level_nonneg get_id table fuel once cpu :
  (forall r once' log,
     acpi_find_last_cache_level get_id table fuel once cpu = Ok (r, once') log ->
     0 <= r) /\
  (table = None ->
   acpi_find_last_cache_level get_id table fuel once cpu
   = Ok (0, set_levels_printed once true)
       (if levels_printed once then [] else [NoPPTTTable])) /\
  (forall t log,
     table = Some t ->
     acpi_find_processor_node fuel t (u32 (get_id cpu)) = Ok None log ->
     acpi_find_last_cache_level get_id table fuel once cpu = Ok (0, once) log).
Proof.
  split; [|split].
  - intros r once' log H. unfold acpi_find_last_cache_level in H.
    destruct table as [t|].
    + apply bind_ok in H. destruct H as (n & l1 & l2 & H & Hr & _).
      inversion Hr; subst. unfold acpi_find_cache_levels in H.
      apply bind_ok in H. destruct H as (cpu0 & l3 & l4 & _ & H & _).
      destruct cpu0 as [c|]; [|inversion H; lia].
      unfold acpi_process_node in H. apply process_node_loop_level in H.
      exact H.
    + unfold pr_err_once in H.
      destruct (levels_printed once); inversion H; lia.
  - intros ->. unfold acpi_find_last_cache_level, pr_err_once.
    destruct (levels_printed once); reflexivity.
  - intros t log -> Hfind. unfold acpi_find_last_cache_level,
      acpi_find_cache_levels. rewrite Hfind. cbn [bind ret].
    rewrite !app_nil_r. reflexivity.
Qed.

Lemma acpi_find_last_cache_level_nonneg_witness :
  0 <= 2 /\
  acpi_find_last_cache_level (fun cpu => cpu) None 180 fresh_once 0
  = Ok (0, set_levels_printed fresh_once true) [NoPPTTTable] /\
  acpi_find_last_cache_level (fun cpu => cpu) None 180
    (set_levels_printed fresh_once true) 0
  = Ok (0, set_levels_printed fresh_once true) [] /\
  acpi_find_last_cache_level (fun cpu => cpu) (Some topo_table) 180 fresh_once 7
  = Ok (0, fresh_once) [].
Proof.
  destruct (acpi_find_last_cache_level_nonneg (fun cpu => cpu)
              (Some topo_table) 180 fresh_once 0) as (Hn & _).
  destruct (acpi_find_last_cache_level_nonneg (fun cpu => cpu) None 180
              fresh_once 0) as (_ & Hnone & _).
  destruct (acpi_find_last_cache_level_nonneg (fun cpu => cpu) None 180
              (set_levels_printed fresh_once true) 0) as (_ & Hagain & _).
  destruct (acpi_find_last_cache_level_nonneg (fun cpu => cpu)
              (Some topo_table) 180 fresh_once 7) as (_ & _ & Hmiss).
  split; [|split; [|split]].
  - apply (Hn 2 fresh_once []). vm_compute. reflexivity.
  - apply Hnone. reflexivity.
  - apply Hagain. reflexivity.
  - apply (Hmiss topo_table []); [reflexivity | vm_compute; reflexivity].
Defined.

(** ** The ascent of acpi_find_processor_package_id *)

Lemma package_id_loop_level0 n t c flag :
  acpi_find_processor_package_id_loop n t (Some c) 0 flag = Ok (Some c) [].
Proof. destruct n; reflexivity. Qed.

Lemma package_id_loop_unroll t flag c k a :
  ascends t flag c k a ->
  forall n level, 0 <= level < 2 ^ 31 -> Z.of_nat k <= level ->
    acpi_find_processor_package_id_loop (k + n) t (Some c) level flag
    = acpi_find_processor_package_id_loop n t (Some a) (level - Z.of_nat k) flag.
Proof.
  induction 1 as [c|c p k a Hfl Hland Hpa Hfetch Hasc IH]; intros n level Hr Hk.
  - cbn [plus Z.of_nat]. rewrite Z.sub_0_r. reflexivity.
  - cbn [plus acpi_find_processor_package_id_loop].
    destruct (Z.eqb_spec level 0) as [E|_]; [lia|].
    unfold rd32. rewrite Hfl, bind_ret, Hland. cbn [Z.eqb negb].
    rewrite Hpa, bind_ret, Hfetch, bind_Ok_nil.
    rewrite s32_small by lia. rewrite IH by lia.
    f_equal. lia.
Qed.

Lemma package_id_loop_ends n t flag a level :
  ascent_ends t flag a ->
  acpi_find_processor_package_id_loop (S n) t (Some a) level flag
  = Ok (Some a) [].
Proof.
  intros (Hfl & Hend). cbn [acpi_find_processor_package_id_loop].
  destruct (level =? 0); [reflexivity|].
  unfold rd32. rewrite Hfl, bind_ret.
  destruct (negb _) eqn:E; [reflexivity|].
  destruct Hend as [Hne|(Hpa & Hnone)].
  - apply negb_false_iff, Z.eqb_eq in E. contradiction.
  - rewrite Hpa, bind_ret, Hnone. reflexivity.
Qed.

Lemma package_id_loop_complete t flag c k a level fuel :
  0 <= level < 2 ^ 31 ->
  ascends t flag c k a -> Z.of_nat k <= level ->
  (Z.of_nat k = level /\ (k <= fuel)%nat) \/
  (ascent_ends t flag a /\ (k < fuel)%nat) ->
  acpi_find_processor_package_id_loop fuel t (Some c) level flag
  = Ok (Some a) [].
Proof.
  intros Hr Hasc Hk [[E Hf]|[Hend Hf]].
  - replace fuel with (k + (fuel - k))%nat by lia.
    rewrite (package_id_loop_unroll _ _ _ _ _ Hasc) by assumption.
    rewrite E, Z.sub_diag. apply package_id_loop_level0.
  - replace fuel with (k + S (fuel - S k))%nat by lia.
    rewrite (package_id_loop_unroll _ _ _ _ _ Hasc) by assumption.
    apply package_id_loop_ends. assumption.
Qed.

Lemma package_id_loop_sound n : forall t c level flag a log,
  0 <= level < 2 ^ 31 ->
  acpi_find_processor_package_id_loop n t (Some c) level flag
  = Ok (Some a) log ->
  exists k,
    Z.of_nat k <= level /\ ascends t flag c k a /\
    (Z.of_nat k = level \/ ascent_ends t flag a).
Proof.
  induction n as [|n IH]; intros t c level flag a log Hr;
    cbn [acpi_find_processor_package_id_loop];
    destruct (Z.eqb_spec level 0) as [E|Hnz];
    try (intros H; inversion H; subst; exists O;
         split; [cbn; lia | split; [apply asc_here | left; reflexivity]]);
    try discriminate.
  intros H. apply bind_ok in H. destruct H as (fl & l1 & l2 & Hfl & H & _).
  apply rd32_ok in Hfl. destruct Hfl as (-> & _ & Hf1 & Hf2).
  pose proof (in_table_true t _ 4 Hf1 Hf2) as Hfin.
  destruct (Z.eqb_spec (Z.land (le32 t (c + off_proc_flags)) (u32 flag)) 0)
    as [Hland|Hland]; cbn [negb] in H.
  2:{ inversion H; subst. exists O. split; [cbn; lia|].
      split; [apply asc_here|]. right. split; [assumption | left; assumption]. }
  apply bind_ok in H. destruct H as (pa & l3 & l4 & Hpa & H & _).
  apply rd32_ok in Hpa. destruct Hpa as (-> & _ & Hp1 & Hp2).
  pose proof (in_table_true t _ 4 Hp1 Hp2) as Hpin.
  apply bind_ok in H. destruct H as (prev & l5 & l6 & Hprev & H & _).
  pose proof (fetch_log _ _ _ _ Hprev) as ->.
  destruct prev as [p|].
  - rewrite s32_small in H by lia. apply IH in H; [|lia].
    destruct H as (k & Hk & Hasc & Hstop). exists (S k).
    split; [lia|]. split; [eapply asc_up; eassumption|].
    destruct Hstop as [Hstop|Hstop]; [left; lia | right; assumption].
  - inversion H; subst. exists O. split; [cbn; lia|].
    split; [apply asc_here|]. right. split; [assumption|]. right. auto.
Qed.

Lemma ascends_trans t flag c k a :
  ascends t flag c k a ->
  forall m b, ascends t flag a m b -> ascends t flag c (k + m) b.
Proof.
  induction 1 as [c|c p k a Hfl Hland Hpa Hfetch Hasc IH]; intros m b Hab.
  - exact Hab.
  - cbn [plus]. eapply asc_up; try eassumption. apply IH. exact Hab.
Qed.

Lemma ascends_split t flag c k a :
  ascends t flag c k a ->
  forall m b, ascends t flag c (k + m) b -> ascends t flag a m b.
Proof.
  induction 1 as [c|c p k a Hfl Hland Hpa Hfetch Hasc IH]; intros m b Hcb.
  - exact Hcb.
  - cbn [plus] in Hcb. inversion Hcb as [|c' p' k' b' _ _ _ Hfetch' Hpb]; subst.
    rewrite Hfetch in Hfetch'. inversion Hfetch'; subst. apply IH. exact Hpb.
Qed.

Lemma ascends_loop t flag a : ascends t flag a 1 a ->
  forall m, ascends t flag a m a.
Proof.
  intros H1 m. induction m as [|m IH]; [apply asc_here|].
  change (S m) with (1 + m)%nat. eapply ascends_trans; eassumption.
Qed.

Lemma package_id_loop_within n : forall t c level flag a l,
  0 <= c < table_length t ->
  acpi_find_processor_package_id_loop n t (Some c) level flag = Ok (Some a) l ->
  0 <= a < table_length t.
Proof.
  induction n as [|n IH]; intros t c level flag a l Hc;
    cbn [acpi_find_processor_package_id_loop]; case_ltb;
    try (intros H; inversion H; subst; assumption); try discriminate.
  intros H. apply bind_ok in H. destruct H as (fl & l1 & l2 & _ & H & _).
  destruct (negb _); [inversion H; subst; assumption|].
  apply bind_ok in H. destruct H as (pa & l3 & l4 & _ & H & _).
  apply bind_ok in H. destruct H as (prev & l5 & l6 & Hprev & H & _).
  destruct prev as [p|]; [|inversion H; subst; assumption].
  apply fetch_some_range in Hprev. destruct Hprev as (_ & _ & Hp1 & Hp2).
  eapply IH; [|exact H]. lia.
Qed.

(** ** topology_get_acpi_cpu_tag *)

Lemma find_processor_node_found fuel t id leaf log :
  acpi_find_processor_node fuel t id = Ok (Some leaf) log ->
  log = [] /\ 0 <= leaf < table_length t /\
  in_table t (leaf + off_acpi_processor_id) 4 = true /\
  le32 t (leaf + off_acpi_processor_id) = id.
Proof.
  intros Hf. apply find_processor_node_loop_some in Hf.
  destruct Hf as (-> & Hf). apply is_leaf_processor_ok in Hf.
  destruct Hf as (_ & Hf). destruct (Hf eq_refl) as (Hpos & _ & Hin & Hid & _).
  pose proof (in_table_inv _ _ _ Hin) as Hb.
  unfold off_acpi_processor_id in Hb. repeat split; try assumption; lia.
Qed.

Lemma topology_tag_level0 get_id fuel t once cpu flag leaf log :
  acpi_find_processor_node fuel t (u32 (get_id cpu)) = Ok (Some leaf) log ->
  topology_get_acpi_cpu_tag get_id fuel t once cpu 0 flag
  = Ok (s32 (le32 t (leaf + off_acpi_processor_id)), once) [].
Proof.
  intros Hf. destruct (find_processor_node_found _ _ _ _ _ Hf)
    as (-> & _ & Hin & _).
  unfold topology_get_acpi_cpu_tag, acpi_find_processor_package_id.
  rewrite Hf, bind_Ok_nil, package_id_loop_level0, bind_Ok_nil.
  cbn [Z.eqb deref]. rewrite bind_ret. unfold rd32. rewrite Hin, bind_ret.
  reflexivity.
Qed.

Lemma topology_tag_of_node get_id fuel t once cpu level flag leaf log a l :
  level <> 0 ->
  acpi_find_processor_node fuel t (u32 (get_id cpu)) = Ok (Some leaf) log ->
  acpi_find_processor_package_id_loop fuel t (Some leaf) level flag
  = Ok (Some a) l ->
  topology_get_acpi_cpu_tag get_id fuel t once cpu level flag
  = Ok (s32 a, once) [].
Proof.
  intros Hnz Hf Hp. destruct (find_processor_node_found _ _ _ _ _ Hf)
    as (-> & _).
  destruct (package_id_loop_some _ _ _ _ _ _ _ Hp) as (_ & ->).
  unfold topology_get_acpi_cpu_tag, acpi_find_processor_package_id.
  rewrite Hf, bind_Ok_nil, Hp, bind_Ok_nil.
  destruct (Z.eqb_spec level 0); [contradiction|].
  cbn [deref]. rewrite bind_ret. reflexivity.
Qed.

Lemma topology_tag_found_inv get_id fuel t once cpu level flag leaf log r
    once' l :
  level <> 0 ->
  acpi_find_processor_node fuel t (u32 (get_id cpu)) = Ok (Some leaf) log ->
  topology_get_acpi_cpu_tag get_id fuel t once cpu level flag
  = Ok (r, once') l ->
  exists a,
    acpi_find_processor_package_id_loop fuel t (Some leaf) level flag
    = Ok (Some a) [] /\
    0 <= a < table_length t /\ r = s32 a /\ once' = once /\ l = [].
Proof.
  intros Hnz Hf H. destruct (find_processor_node_found _ _ _ _ _ Hf)
    as (-> & Hleaf & _).
  unfold topology_get_acpi_cpu_tag, acpi_find_processor_package_id in H.
  rewrite Hf, bind_Ok_nil in H.
  apply bind_ok in H. destruct H as (anc & l1 & l2 & Hp & H & ->).
  destruct (package_id_loop_some _ _ _ _ _ _ _ Hp) as ((a & ->) & ->).
  pose proof (package_id_loop_within _ _ _ _ _ _ _ Hleaf Hp) as Ha.
  destruct (Z.eqb_spec level 0); [contradiction|].
  cbn [deref] in H. rewrite bind_ret in H. inversion H; subst.
  exists a. auto.
Qed.

Lemma topology_tag_not_found get_id fuel t once cpu level flag l :
  acpi_find_processor_node fuel t (u32 (get_id cpu)) = Ok None l ->
  topology_get_acpi_cpu_tag get_id fuel t once cpu level flag
  = Ok (- ENOENT, set_core_printed once true)
      (l ++ (if core_printed once then [] else [UnableToLocateCore cpu])).
Proof.
  intros Hf. unfold topology_get_acpi_cpu_tag, pr_err_once. rewrite Hf.
  destruct (core_printed once); cbn [bind ret app]; reflexivity.
Qed.



Lemma topo_table_ascends : ascends topo_table 0 84 1 36.
Proof.
  eapply asc_up; [vm_compute; reflexivity.. | apply asc_here].
Defined.



(** X11: acpi_find_processor_package_id returns the node that is [k]
    resolving parent links above the start, none of the nodes passed
    meeting the stop flag, where [k] is [level] or the ascent cannot leave
    that node (its flags meet the stop flag, or its parent link does not
    resolve); and every such node is the one returned. *)
Theorem acpi_find_processor_package_id_ascent fuel t c level flag :
  0 <= level < 2 ^ 31 ->
  (forall a log,
     acpi_find_processor_package_id fuel t (Some c) level flag
     = Ok (Some a) log ->
     exists k,
       Z.of_nat k <= level /\ ascends t flag c k a /\
       (Z.of_nat k = level \/ ascent_ends t flag a)) /\
  (forall k a,
     ascends t flag c k a -> Z.of_nat k <= level -> (k < fuel)%nat ->
     Z.of_nat k = level \/ ascent_ends t flag a ->
     acpi_find_processor_package_id fuel t (Some c) level flag
     = Ok (Some a) []).
Proof.
  intros Hr. unfold acpi_find_processor_package_id. split.
  - intros a log. apply package_id_loop_sound. assumption.
  - intros k a Hasc Hk Hf Hstop.
    eapply package_id_loop_complete; try eassumption.
    destruct Hstop; [left | right]; split; try assumption; lia.
Qed.

Lemma acpi_find_processor_package_id_ascent_witness :
  (exists k,
     Z.of_nat k <= 3 /\ ascends topo_table 0 84 k 36 /\
     (Z.of_nat k = 3 \/ ascent_ends topo_table 0 36)) /\
  acpi_find_processor_package_id 10 topo_table (Some 84) 3 0 = Ok (Some 36) [].
Proof.
  destruct (acpi_find_processor_package_id_ascent 10 topo_table 84 3 0)
    as (Hs & Hc); [lia|].
  split.
  - apply (Hs 36 []). vm_compute. reflexivity.
  - apply (Hc 1%nat 36 topo_table_ascends); [cbn; lia | lia |].
    right. vm_compute. split; [reflexivity|]. right. split; reflexivity.
Defined.

Lemma package_id_loop_saturates fuel t c level flag a :
  0 <= level -> level + 1 < 2 ^ 31 ->
  acpi_find_processor_package_id_loop fuel t (Some c) level flag
  = Ok (Some a) [] ->
  acpi_find_processor_package_id_loop fuel t (Some c) (level + 1) flag
  = Ok (Some a) [] ->
  forall level' fuel',
    level <= level' < 2 ^ 31 -> level' < Z.of_nat fuel' ->
    acpi_find_processor_package_id_loop fuel' t (Some c) level' flag
    = Ok (Some a) [].
Proof.
  intros H0 H1 Hl Hl1 level' fuel' Hr' Hf'.
  apply package_id_loop_sound in Hl; [|lia].
  apply package_id_loop_sound in Hl1; [|lia].
  destruct Hl as (k & Hk & Hasc & Hstop).
  destruct Hl1 as (k1 & Hk1 & Hasc1 & Hstop1).
  assert (Hends : ascent_ends t flag a ->
                  acpi_find_processor_package_id_loop fuel' t (Some c) level' flag
                  = Ok (Some a) []).
  { intros Hend.
    apply (package_id_loop_complete t flag c k a level' fuel');
      [lia | exact Hasc | lia | right; split; [assumption | lia]]. }
  destruct Hstop as [Ek|Hend]; [|auto].
  destruct Hstop1 as [Ek1|Hend]; [|auto].
  assert (k1 = (k + 1)%nat) as -> by lia.
  pose proof (ascends_split _ _ _ _ _ Hasc _ _ Hasc1) as Hself.
  pose proof (ascends_loop _ _ _ Hself (Z.to_nat level' - k)%nat) as Hm.
  pose proof (ascends_trans _ _ _ _ _ Hasc _ _ Hm) as Hall.
  apply (package_id_loop_complete t flag c _ a level' fuel' ltac:(lia) Hall);
    [lia | left; split; lia].
Qed.

(** X12: levels beyond the termination point return the same node: when
    acpi_find_processor_package_id gives the same node for [level] and for
    [level + 1], it gives that node for every higher level. *)
Theorem acpi_find_processor_package_id_saturates fuel t c level flag a :
  0 <= level -> level + 1 < 2 ^ 31 ->
  acpi_find_processor_package_id fuel t (Some c) level flag = Ok (Some a) [] ->
  acpi_find_processor_package_id fuel t (Some c) (level + 1) flag
  = Ok (Some a) [] ->
  forall level' fuel',
    level <= level' < 2 ^ 31 -> level' < Z.of_nat fuel' ->
    acpi_find_processor_package_id fuel' t (Some c) level' flag
    = Ok (Some a) [].
Proof.
  unfold acpi_find_processor_package_id. apply package_id_loop_saturates.
Qed.

Lemma acpi_find_processor_package_id_saturates_witness :
  acpi_find_processor_package_id 10 topo_table (Some 84) 7 0 = Ok (Some 36) [].
Proof.
  apply (acpi_find_processor_package_id_saturates 10 topo_table 84 1 0 36);
    try lia; vm_compute; reflexivity.
Defined.

(** ** The tags of topology_get_acpi_cpu_tag *)

(** X13: for a level other than 0, on a table of at most 2^31 bytes, a
    tag is -ENOENT exactly when the CPU has no leaf processor record; the
    diagnostic for it is printed by the first such call only.  Any other
    tag is a non-negative offset within the table, so the two cannot be
    confused. *)
Theorem topology_get_acpi_cpu_tag_sign get_id fuel t once cpu level flag r
    once' log :
  level <> 0 -> table_length t <= 2 ^ 31 ->
  topology_get_acpi_cpu_tag get_id fuel t once cpu level flag
  = Ok (r, once') log ->
  (r = - ENOENT /\ once' = set_core_printed once true /\
   exists l,
     acpi_find_processor_node fuel t (u32 (get_id cpu)) = Ok None l /\
     log = l ++ (if core_printed once then [] else [UnableToLocateCore cpu])) \/
  (0 <= r < table_length t /\ once' = once /\ log = [] /\
   exists leaf,
     acpi_find_processor_node fuel t (u32 (get_id cpu)) = Ok (Some leaf) []).
Proof.
  intros Hnz Hlen H.
  destruct (acpi_find_processor_node fuel t (u32 (get_id cpu)))
    as [[leaf|] l| |] eqn:Hfind.
  - right.
    destruct (topology_tag_found_inv _ _ _ _ _ _ _ _ _ _ _ _ Hnz Hfind H)
      as (a & _ & Ha & -> & -> & ->).
    destruct (find_processor_node_found _ _ _ _ _ Hfind) as (-> & _).
    rewrite s32_small by lia.
    split; [assumption|]. split; [reflexivity|]. split; [reflexivity|].
    exists leaf. reflexivity.
  - left. rewrite (topology_tag_not_found _ _ _ _ _ _ _ _ Hfind) in H.
    inversion H; subst. split; [reflexivity|]. split; [reflexivity|].
    exists l. split; reflexivity.
  - unfold topology_get_acpi_cpu_tag in H. rewrite Hfind in H. discriminate.
  - unfold topology_get_acpi_cpu_tag in H. rewrite Hfind in H. discriminate.
Qed.

Lemma topology_get_acpi_cpu_tag_sign_witness :
  (- ENOENT = - ENOENT /\
   set_core_printed fresh_once true = set_core_printed fresh_once true /\
   exists l,
     acpi_find_processor_node 180 topo_table (u32 7) = Ok None l /\
     [UnableToLocateCore 7]
     = l ++ (if core_printed fresh_once then [] else [UnableToLocateCore 7])) \/
  (0 <= - ENOENT < table_length topo_table /\
   set_core_printed fresh_once true = fresh_once /\
   [UnableToLocateCore 7] = [] /\
   exists leaf,
     acpi_find_processor_node 180 topo_table (u32 7) = Ok (Some leaf) []).
Proof.
  apply (topology_get_acpi_cpu_tag_sign (fun x => x) 180 topo_table fresh_once
           7 1 0);
    [lia | vm_compute; discriminate | vm_compute; reflexivity].
Defined.

(** ** find_acpi_cpu_topology_package *)

(** X14: find_acpi_cpu_topology_package returns the offset of the nearest
    node, from the CPU's leaf record upwards, that carries the
    PHYSICAL_PACKAGE flag or has no resolving parent link, when that node
    is fewer than 255 links above the leaf; and the offset of the node 255
    links above the leaf when none of the nodes below it is such a node. *)
Theorem find_acpi_cpu_topology_package_nearest get_id t fuel once cpu leaf
    k a :
  (255 < fuel)%nat ->
  acpi_find_processor_node fuel t (u32 (get_id cpu)) = Ok (Some leaf) [] ->
  ascends t ACPI_PPTT_PHYSICAL_PACKAGE leaf k a ->
  (k < 255)%nat /\ ascent_ends t ACPI_PPTT_PHYSICAL_PACKAGE a \/ k = 255%nat ->
  find_acpi_cpu_topology_package get_id (Some t) fuel once cpu
  = Ok (s32 a, once) [].
Proof.
  intros Hfuel Hfind Hasc Hstop.
  unfold find_acpi_cpu_topology_package, find_acpi_cpu_topology_tag,
    topology_get_acpi_cpu_tag.
  rewrite Hfind, bind_Ok_nil. unfold acpi_find_processor_package_id.
  rewrite (package_id_loop_complete t ACPI_PPTT_PHYSICAL_PACKAGE leaf k a
             PPTT_ABORT_PACKAGE fuel).
  - rewrite bind_Ok_nil. cbn [PPTT_ABORT_PACKAGE Z.eqb deref].
    rewrite bind_ret. reflexivity.
  - unfold PPTT_ABORT_PACKAGE. lia.
  - assumption.
  - unfold PPTT_ABORT_PACKAGE. lia.
  - unfold PPTT_ABORT_PACKAGE.
    destruct Hstop as [[Hk Hend]| ->]; [right | left]; split;
      try assumption; lia.
Qed.

Lemma topo_table_package_ascends :
  ascends topo_table ACPI_PPTT_PHYSICAL_PACKAGE 84 1 36.
Proof.
  eapply asc_up; [vm_compute; reflexivity.. | apply asc_here].
Defined.

Lemma find_acpi_cpu_topology_package_nearest_witness :
  find_acpi_cpu_topology_package (fun x => x) (Some topo_table) 256
    fresh_once 1
  = Ok (s32 36, fresh_once) [].
Proof.
  apply (find_acpi_cpu_topology_package_nearest (fun x => x) topo_table 256
           fresh_once 1 84 1 36);
    [lia | vm_compute; reflexivity | exact topo_table_package_ascends |].
  left. split; [lia|]. vm_compute. split; [reflexivity|]. left. discriminate.
Defined.

(** ** update_cache_properties on a record of the table *)

Lemma update_cache_properties_at_spec t l c n :
  update_cache_properties_at t l c n
  = if cache_fields_readable t c
    then Ok (update_cache_properties l (pptt_cache_at t c) n) []
    else Crash OutOfBounds.
Proof.
  unfold update_cache_properties_at, cache_fields_readable,
    update_cache_properties, cache_flag, flag_set, pptt_cache_at, rd32, rd16,
    rd8, le16.
  cbn [flags size number_of_sets associativity attributes line_size].
  destruct (in_table t (c + off_cache_flags) 4); [|reflexivity].
  cbn [andb]. rewrite !bind_ret.
  destruct (Z.land (le32 t (c + off_cache_flags)) ACPI_PPTT_SIZE_PROPERTY_VALID
            =? 0); cbn [negb implb andb];
    [|destruct (in_table t (c + off_size) 4); [|reflexivity]];
    rewrite !bind_ret;
    (destruct (Z.land (le32 t (c + off_cache_flags)) ACPI_PPTT_LINE_SIZE_VALID
               =? 0); cbn [negb implb andb];
     [|destruct (in_table t (c + off_line_size) 2); [|reflexivity]]);
    rewrite !bind_ret;
    (destruct (Z.land (le32 t (c + off_cache_flags))
                 ACPI_PPTT_NUMBER_OF_SETS_VALID =? 0); cbn [negb implb andb];
     [|destruct (in_table t (c + off_number_of_sets) 4); [|reflexivity]]);
    rewrite !bind_ret;
    (destruct (Z.land (le32 t (c + off_cache_flags))
                 ACPI_PPTT_ASSOCIATIVITY_VALID =? 0); cbn [negb implb andb];
     [|destruct (in_table t (c + off_associativity) 1); [|reflexivity]]);
    rewrite !bind_ret;
    destruct (Z.land (le32 t (c + off_cache_flags))
                ACPI_PPTT_WRITE_POLICY_VALID =? 0);
    destruct (Z.land (le32 t (c + off_cache_flags))
                ACPI_PPTT_ALLOCATION_TYPE_VALID =? 0);
    cbn [negb implb andb orb];
    try (destruct (in_table t (c + off_attributes) 1); [|reflexivity]);
    rewrite ?bind_ret; reflexivity.
Qed.

Lemma lor_absorb a b : Z.lor (Z.lor a b) b = Z.lor a b.
Proof. rewrite <- Z.lor_assoc, Z.lor_diag. reflexivity. Qed.

Lemma update_cache_properties_again l c n n' :
  update_cache_properties (update_cache_properties l c n) c n'
  = update_cache_properties l c n'.
Proof.
  unfold update_cache_properties.
  destruct (flag_set c ACPI_PPTT_SIZE_PROPERTY_VALID),
    (flag_set c ACPI_PPTT_LINE_SIZE_VALID),
    (flag_set c ACPI_PPTT_NUMBER_OF_SETS_VALID),
    (flag_set c ACPI_PPTT_ASSOCIATIVITY_VALID),
    (flag_set c ACPI_PPTT_WRITE_POLICY_VALID),
    (flag_set c ACPI_PPTT_ALLOCATION_TYPE_VALID);
    cbv zeta;
    repeat match goal with
           | |- context [if ?b then _ else _] => destruct b
           end;
    cbn; rewrite ?lor_absorb; reflexivity.
Qed.

Lemma update_cache_properties_at_ok t l c n l' log :
  update_cache_properties_at t l c n = Ok l' log ->
  cache_fields_readable t c = true /\
  l' = update_cache_properties l (pptt_cache_at t c) n /\ log = [].
Proof.
  rewrite update_cache_properties_at_spec.
  destruct (cache_fields_readable t c); [|discriminate].
  intros H. inversion H. auto.
Qed.

(** X15: called on a cache record of the table, update_cache_properties
    reads the flags word and then only the fields whose valid flag is set:
    it faults exactly when one of these lies outside the table, and
    otherwise updates the leaf from the record's fields. *)
Theorem update_cache_properties_at_reads t l c n :
  (cache_fields_readable t c = true ->
   update_cache_properties_at t l c n
   = Ok (update_cache_properties l (pptt_cache_at t c) n) []) /\
  (cache_fields_readable t c = false ->
   update_cache_properties_at t l c n = Crash OutOfBounds) /\
  (in_table t c 24 = true -> cache_fields_readable t c = true) /\
  (in_table t (c + off_cache_flags) 4 = true ->
   Z.land (le32 t (c + off_cache_flags)) property_flags = 0 ->
   cache_fields_readable t c = true).
Proof.
  split; [|split; [|split]].
  - intros H. rewrite update_cache_properties_at_spec, H. reflexivity.
  - intros H. rewrite update_cache_properties_at_spec, H. reflexivity.
  - intros H. apply in_table_inv in H. unfold cache_fields_readable.
    unfold off_cache_flags, off_size, off_line_size, off_number_of_sets,
      off_associativity, off_attributes.
    rewrite !in_table_true by lia.
    repeat match goal with
           | |- context [implb ?b true] => destruct b; cbn [implb]
           end; reflexivity.
  - intros Hin Hz. unfold cache_fields_readable. rewrite Hin.
    rewrite (land_sub_mask _ _ ACPI_PPTT_SIZE_PROPERTY_VALID Hz eq_refl).
    rewrite (land_sub_mask _ _ ACPI_PPTT_LINE_SIZE_VALID Hz eq_refl).
    rewrite (land_sub_mask _ _ ACPI_PPTT_NUMBER_OF_SETS_VALID Hz eq_refl).
    rewrite (land_sub_mask _ _ ACPI_PPTT_ASSOCIATIVITY_VALID Hz eq_refl).
    rewrite (land_sub_mask _ _ ACPI_PPTT_WRITE_POLICY_VALID Hz eq_refl).
    rewrite (land_sub_mask _ _ ACPI_PPTT_ALLOCATION_TYPE_VALID Hz eq_refl).
    reflexivity.
Qed.

Lemma update_cache_properties_at_reads_witness :
  update_cache_properties_at topo_table sample_leaf 132 (Some 60)
  = Ok (update_cache_properties sample_leaf (pptt_cache_at topo_table 132)
          (Some 60)) [] /\
  update_cache_properties_at short_cache_table sample_leaf 36 None
  = Crash OutOfBounds.
Proof.
  destruct (update_cache_properties_at_reads topo_table sample_leaf 132
              (Some 60)) as (Hok & _).
  destruct (update_cache_properties_at_reads short_cache_table sample_leaf 36
              None) as (_ & Hcrash & _).
  split; [apply Hok | apply Hcrash]; vm_compute; reflexivity.
Defined.

(** X16: a second update_cache_properties from the same cache record
    leaves the leaf as the first one made it, up to the processor node
    stored: the update is idempotent. *)
Theorem update_cache_properties_idempotent l c n n' :
  update_cache_properties (update_cache_properties l c n) c n
  = update_cache_properties l c n /\
  update_cache_properties (update_cache_properties l c n) c n'
  = update_cache_properties l c n'.
Proof. split; apply update_cache_properties_again. Qed.

(** ** cache_setup_acpi_cpu and cache_setup_acpi *)

Lemma update_cache_properties_at_identity t l c n l' log :
  update_cache_properties_at t l c n = Ok l' log -> same_identity l l'.
Proof.
  intros H. apply update_cache_properties_at_ok in H.
  destruct H as (_ & -> & _).
  destruct (update_cache_properties_plain_fields l (pptt_cache_at t c) n)
    as (_ & _ & _ & _ & Ht & Hl & Hp & _).
  repeat split; assumption.
Qed.

Lemma cache_setup_acpi_cpu_loop_identity fuel t id : forall leaves node out log,
  cache_setup_acpi_cpu_loop fuel t id leaves node = Ok out log ->
  Forall2 same_identity leaves out.
Proof.
  induction leaves as [|x rest IH]; intros node out log H;
    cbn [cache_setup_acpi_cpu_loop] in H.
  - inversion H. constructor.
  - apply bind_ok in H. destruct H as ([found node'] & l1 & l2 & _ & H & _).
    apply bind_ok in H. destruct H as (x' & l3 & l4 & Hx & H & _).
    apply bind_ok in H. destruct H as (rest' & l5 & l6 & Hrest & H & _).
    inversion H; subst. constructor; [|eapply IH; eassumption].
    destruct found as [c|].
    + eapply update_cache_properties_at_identity. eassumption.
    + inversion Hx; subst. repeat split.
Qed.

Lemma cache_setup_acpi_cpu_loop_again fuel t id : forall leaves node out log,
  cache_setup_acpi_cpu_loop fuel t id leaves node = Ok out log ->
  cache_setup_acpi_cpu_loop fuel t id out node = Ok out log.
Proof.
  induction leaves as [|x rest IH]; intros node out log H;
    cbn [cache_setup_acpi_cpu_loop] in H.
  - inversion H. reflexivity.
  - apply bind_ok in H. destruct H as ([found node'] & l1 & l2 & Hfind & H & ->).
    apply bind_ok in H. destruct H as (x' & l3 & l4 & Hx & H & ->).
    apply bind_ok in H. destruct H as (rest' & l5 & l6 & Hrest & H & ->).
    inversion H; subst. apply IH in Hrest.
    cbn [cache_setup_acpi_cpu_loop].
    assert (Hid : same_identity x x' /\
                  match found with
                  | Some c => update_cache_properties_at t x' c node'
                  | None => ret x'
                  end = Ok x' l3).
    { destruct found as [c|].
      - split; [eapply update_cache_properties_at_identity; eassumption|].
        apply update_cache_properties_at_ok in Hx.
        destruct Hx as (Hrd & -> & ->).
        rewrite update_cache_properties_at_spec, Hrd.
        rewrite update_cache_properties_again. reflexivity.
      - inversion Hx; subst. split; [repeat split | reflexivity]. }
    destruct Hid as ((Hty & Hlv & _) & Hx').
    rewrite Hty, Hlv, Hfind. cbn [bind]. rewrite Hx', Hrest. reflexivity.
Qed.

Lemma find_cache_node_not_found fuel t id type level node l :
  acpi_find_processor_node fuel t id = Ok None l ->
  acpi_find_cache_node fuel t id type level node = Ok (None, node) l.
Proof.
  intros H. unfold acpi_find_cache_node. rewrite H. cbn [bind].
  destruct fuel; cbn [acpi_find_cache_node_loop ret]; rewrite app_nil_r;
    reflexivity.
Qed.

Lemma cache_setup_acpi_cpu_loop_not_found fuel t id l :
  acpi_find_processor_node fuel t id = Ok None l ->
  forall leaves node,
    cache_setup_acpi_cpu_loop fuel t id leaves node
    = Ok leaves (concat (map (fun _ => l) leaves)).
Proof.
  intros Hfind. induction leaves as [|x rest IH]; intros node;
    cbn [cache_setup_acpi_cpu_loop map concat]; [reflexivity|].
  rewrite (find_cache_node_not_found _ _ _ _ _ _ _ Hfind). cbn [bind ret].
  rewrite IH. cbn [bind ret app]. rewrite app_nil_r. reflexivity.
Qed.

(** X17: cache_setup_acpi_cpu keeps the number of leaves of the CPU and,
    in each leaf, its type, its level and its physical line partition;
    when the table has no leaf processor record for the CPU it changes no
    leaf at all. *)
Theorem cache_setup_acpi_cpu_keeps_identity get_id get_ci fuel t cpu :
  (forall out log,
     cache_setup_acpi_cpu get_id get_ci fuel t cpu = Ok out log ->
     length out = length (get_ci cpu) /\
     Forall2 same_identity (get_ci cpu) out) /\
  (forall l,
     acpi_find_processor_node fuel t (u32 (get_id cpu)) = Ok None l ->
     exists log, cache_setup_acpi_cpu get_id get_ci fuel t cpu
                 = Ok (get_ci cpu) log).
Proof.
  unfold cache_setup_acpi_cpu. split.
  - intros out log H. apply cache_setup_acpi_cpu_loop_identity in H.
    split; [symmetry; eapply Forall2_length; eassumption | assumption].
  - intros l H. eexists.
    apply (cache_setup_acpi_cpu_loop_not_found _ _ _ _ H).
Qed.

(** X18: running cache_setup_acpi again on the leaves it produced changes
    nothing: it returns the same status and the same leaves; with a table
    it prints the same diagnostics, and without a table it prints nothing,
    the diagnostic for it being printed once. *)
Theorem cache_setup_acpi_idempotent get_id get_ci table fuel once cpu st out
    once' log :
  cache_setup_acpi get_id get_ci table fuel once cpu = Ok (st, out, once') log ->
  cache_setup_acpi get_id (fun _ => out) table fuel once' cpu
  = Ok (st, out, once') (match table with Some _ => log | None => [] end).
Proof.
  unfold cache_setup_acpi, cache_setup_acpi_cpu.
  destruct table as [t|].
  - intros H. apply bind_ok in H. destruct H as (leaves & l1 & l2 & H & Hr & ->).
    inversion Hr; subst.
    apply cache_setup_acpi_cpu_loop_again in H. rewrite H. reflexivity.
  - intros H. unfold pr_err_once in *.
    destruct (setup_printed once); inversion H; subst; reflexivity.
Qed.

Lemma cache_setup_acpi_idempotent_witness :
  cache_setup_acpi (fun x => x)
    (fun _ => [update_cache_properties sample_leaf
                 (pptt_cache_at topo_table 132) (Some 60)])
    (Some topo_table) 180 fresh_once 0
  = Ok (0, [update_cache_properties sample_leaf
              (pptt_cache_at topo_table 132) (Some 60)], fresh_once) [] /\
  cache_setup_acpi (fun x => x) (fun _ => [sample_leaf]) None 180
    (set_setup_printed fresh_once true) 0
  = Ok (- ENOENT, [sample_leaf], set_setup_printed fresh_once true) [].
Proof.
  split.
  - apply (cache_setup_acpi_idempotent (fun x => x) (fun _ => [sample_leaf])
             (Some topo_table) 180 fresh_once 0 0 _ fresh_once []).
    vm_compute. reflexivity.
  - apply (cache_setup_acpi_idempotent (fun x => x) (fun _ => [sample_leaf])
             None 180 fresh_once 0 (- ENOENT) [sample_leaf]
             (set_setup_printed fresh_once true) [NoPPTTTable]).
    reflexivity.
Defined.

(** X19: cache_setup_acpi returns -ENOENT, with the leaves untouched, when
    there is no table, and the diagnostic for it is printed by the first
    such call only; with a table its status is 0 whenever it returns, also
    when the CPU is not in the table, in which case the leaves are
    untouched as well. *)
Theorem cache_setup_acpi_status get_id get_ci table fuel once cpu :
  (table = None ->
   cache_setup_acpi get_id get_ci table fuel once cpu
   = Ok (- ENOENT, get_ci cpu, set_setup_printed once true)
       (if setup_printed once then [] else [NoPPTTTable])) /\
  (forall t st out once' log,
     table = Some t ->
     cache_setup_acpi get_id get_ci table fuel once cpu
     = Ok (st, out, once') log ->
     st = 0 /\ once' = once) /\
  (forall t l,
     table = Some t ->
     acpi_find_processor_node fuel t (u32 (get_id cpu)) = Ok None l ->
     cache_setup_acpi get_id get_ci table fuel once cpu
     = Ok (0, get_ci cpu, once) (concat (map (fun _ => l) (get_ci cpu)))).
Proof.
  unfold cache_setup_acpi, cache_setup_acpi_cpu. split; [|split].
  - intros ->. unfold pr_err_once. destruct (setup_printed once); reflexivity.
  - intros t st out once' log -> H.
    apply bind_ok in H. destruct H as (leaves & l1 & l2 & _ & Hr & _).
    inversion Hr. split; reflexivity.
  - intros t l -> H.
    rewrite (cache_setup_acpi_cpu_loop_not_found _ _ _ _ H).
    cbn [bind ret]. rewrite app_nil_r. reflexivity.
Qed.

Lemma cache_setup_acpi_status_witness :
  cache_setup_acpi (fun x => x) (fun _ => [sample_leaf]) None 180 fresh_once 0
  = Ok (- ENOENT, [sample_leaf], set_setup_printed fresh_once true)
      [NoPPTTTable] /\
  cache_setup_acpi (fun x => x) (fun _ => [sample_leaf]) None 180
    (set_setup_printed fresh_once true) 0
  = Ok (- ENOENT, [sample_leaf], set_setup_printed fresh_once true) [] /\
  (0 = 0 /\ fresh_once = fresh_once) /\
  cache_setup_acpi (fun x => x) (fun _ => [sample_leaf]) (Some topo_table) 180
    fresh_once 7
  = Ok (0, [sample_leaf], fresh_once) [].
Proof.
  destruct (cache_setup_acpi_status (fun x => x) (fun _ => [sample_leaf]) None
              180 fresh_once 0) as (Hnone & _).
  destruct (cache_setup_acpi_status (fun x => x) (fun _ => [sample_leaf]) None
              180 (set_setup_printed fresh_once true) 0) as (Hagain & _).
  destruct (cache_setup_acpi_status (fun x => x) (fun _ => [sample_leaf])
              (Some topo_table) 180 fresh_once 0) as (_ & Hst & _).
  destruct (cache_setup_acpi_status (fun x => x) (fun _ => [sample_leaf])
              (Some topo_table) 180 fresh_once 7) as (_ & _ & Hmiss).
  split; [|split; [|split]].
  - apply Hnone. reflexivity.
  - apply Hagain. reflexivity.
  - eapply (Hst topo_table 0 _ fresh_once []); [reflexivity|].
    vm_compute. reflexivity.
  - apply (Hmiss topo_table []); [reflexivity | vm_compute; reflexivity].
Defined.

Lemma cache_setup_acpi_cpu_keeps_identity_witness :
  (length [update_cache_properties sample_leaf (pptt_cache_at topo_table 132)
             (Some 60)] = length [sample_leaf] /\
   Forall2 same_identity [sample_leaf]
     [update_cache_properties sample_leaf (pptt_cache_at topo_table 132)
        (Some 60)]) /\
  exists log,
    cache_setup_acpi_cpu (fun x => x) (fun _ => [sample_leaf]) 180 topo_table 7
    = Ok [sample_leaf] log.
Proof.
  destruct (cache_setup_acpi_cpu_keeps_identity (fun x => x)
              (fun _ => [sample_leaf]) 180 topo_table 0) as (Hkeep & _).
  destruct (cache_setup_acpi_cpu_keeps_identity (fun x => x)
              (fun _ => [sample_leaf]) 180 topo_table 7) as (_ & Hmiss).
  split.
  - apply (Hkeep _ []). vm_compute. reflexivity.
  - apply (Hmiss []). vm_compute. reflexivity.
Defined.

(** ** acpi_get_pptt_resource *)

(** X20: acpi_get_pptt_resource gives NULL for an index at or beyond the
    node's count of private resources, without reading a slot; a record it
    returns is the one that slot [resource] names, the index is below the
    count, the slot lies within the table and so does the header of the
    record. *)
Theorem acpi_get_pptt_resource_bounds t node resource :
  0 <= resource < 2 ^ 31 ->
  (in_table t (node + off_number_of_priv_resources) 4 = true ->
   le32 t (node + off_number_of_priv_resources) <= resource ->
   acpi_get_pptt_resource t node resource = Ok None []) /\
  (forall r log,
     acpi_get_pptt_resource t node resource = Ok (Some r) log ->
     log = [] /\
     resource < le32 t (node + off_number_of_priv_resources) /\
     in_table t (node + sizeof_acpi_pptt_processor + 4 * resource) 4 = true /\
     r = le32 t (node + sizeof_acpi_pptt_processor + 4 * resource) /\
     sizeof_acpi_subtable_header <= r /\
     r + sizeof_acpi_subtable_header <= table_length t).
Proof.
  intros Hr. unfold acpi_get_pptt_resource, u32.
  rewrite (Z.mod_small resource) by lia. split.
  - intros Hin Hle. unfold rd32. rewrite Hin, bind_ret.
    destruct (Z.geb_spec resource (le32 t (node + off_number_of_priv_resources)));
      [reflexivity | lia].
  - intros r log H.
    apply bind_ok in H. destruct H as (n & l1 & l2 & Hn & H & ->).
    apply rd32_ok in Hn. destruct Hn as (-> & -> & _).
    destruct (Z.geb_spec resource (le32 t (node + off_number_of_priv_resources)))
      as [|Hlt]; [discriminate|].
    apply bind_ok in H. destruct H as (ref & l3 & l4 & Href & H & ->).
    apply rd32_ok in Href. destruct Href as (-> & -> & Hs1 & Hs2).
    apply fetch_some_range in H. destruct H as (-> & -> & H1 & H2).
    unfold sizeof_acpi_subtable_header.
    repeat split; try assumption; try lia.
    apply in_table_true; assumption.
Qed.

Lemma acpi_get_pptt_resource_bounds_witness :
  acpi_get_pptt_resource topo_table 60 1 = Ok None [] /\
  132 = le32 topo_table (60 + sizeof_acpi_pptt_processor + 4 * 0).
Proof.
  destruct (acpi_get_pptt_resource_bounds topo_table 60 1) as (Hnone & _);
    [lia|].
  destruct (acpi_get_pptt_resource_bounds topo_table 60 0) as (_ & Hsome);
    [lia|].
  split.
  - apply Hnone; vm_compute; [reflexivity | discriminate].
  - destruct (Hsome 132 []) as (_ & _ & _ & Hr & _);
      [vm_compute; reflexivity | exact Hr].
Defined.

(** ** Tags tell nodes apart *)

Lemma s32_inj x y :
  0 <= x < 2 ^ 32 -> 0 <= y < 2 ^ 32 -> s32 x = s32 y -> x = y.
Proof.
  unfold s32. intros Hx Hy H.
  assert (E : forall z, 0 <= z < 2 ^ 32 ->
            (z + 2 ^ 31) mod 2 ^ 32
            = if z <? 2 ^ 31 then z + 2 ^ 31 else z - 2 ^ 31).
  { intros z Hz. destruct (Z.ltb_spec z (2 ^ 31)).
    - apply Z.mod_small. lia.
    - replace (z + 2 ^ 31) with (z - 2 ^ 31 + 1 * 2 ^ 32) by lia.
      rewrite Z_mod_plus_full. apply Z.mod_small. lia. }
  rewrite (E x Hx), (E y Hy) in H.
  destruct (Z.ltb_spec x (2 ^ 31)), (Z.ltb_spec y (2 ^ 31)); lia.
Qed.

(** X21: tags tell nodes apart.  When two CPUs found in the table get the
    same tag, then for level 0 they have the same ACPI id and the same
    leaf record, and for any other level their ascents ended at the same
    node. *)
Theorem topology_get_acpi_cpu_tag_injective get_id fuel t once1 once2 cpu1 cpu2
    level flag leaf1 leaf2 a1 a2 r once1' once2' l1 l2 :
  acpi_find_processor_node fuel t (u32 (get_id cpu1)) = Ok (Some leaf1) [] ->
  acpi_find_processor_node fuel t (u32 (get_id cpu2)) = Ok (Some leaf2) [] ->
  acpi_find_processor_package_id fuel t (Some leaf1) level flag
  = Ok (Some a1) [] ->
  acpi_find_processor_package_id fuel t (Some leaf2) level flag
  = Ok (Some a2) [] ->
  topology_get_acpi_cpu_tag get_id fuel t once1 cpu1 level flag
  = Ok (r, once1') l1 ->
  topology_get_acpi_cpu_tag get_id fuel t once2 cpu2 level flag
  = Ok (r, once2') l2 ->
  (level = 0 -> u32 (get_id cpu1) = u32 (get_id cpu2) /\ leaf1 = leaf2) /\
  (level <> 0 -> a1 = a2).
Proof.
  intros Hf1 Hf2 Hp1 Hp2 Ht1 Ht2.
  pose proof (table_length_range t) as Hlen.
  destruct (find_processor_node_found _ _ _ _ _ Hf1) as (_ & Hb1 & Hin1 & Hid1).
  destruct (find_processor_node_found _ _ _ _ _ Hf2) as (_ & Hb2 & Hin2 & Hid2).
  unfold acpi_find_processor_package_id in Hp1, Hp2.
  split.
  - intros ->.
    rewrite (topology_tag_level0 _ _ _ _ _ _ _ _ Hf1) in Ht1.
    rewrite (topology_tag_level0 _ _ _ _ _ _ _ _ Hf2) in Ht2.
    inversion Ht1 as [[E1 Eo1 El1]]. inversion Ht2 as [[E2 Eo2 El2]].
    rewrite Hid1 in E1. rewrite Hid2 in E2.
    assert (Eid : u32 (get_id cpu1) = u32 (get_id cpu2)).
    { apply s32_inj; [unfold u32; apply Z.mod_pos_bound; lia..|].
      congruence. }
    split; [assumption|]. rewrite Eid in Hf1. congruence.
  - intros Hnz.
    rewrite (topology_tag_of_node _ _ _ _ _ _ _ _ _ _ _ Hnz Hf1 Hp1) in Ht1.
    rewrite (topology_tag_of_node _ _ _ _ _ _ _ _ _ _ _ Hnz Hf2 Hp2) in Ht2.
    inversion Ht1 as [[E1 Eo1 El1]]. inversion Ht2 as [[E2 Eo2 El2]].
    apply package_id_loop_within in Hp1; [|assumption].
    apply package_id_loop_within in Hp2; [|assumption].
    apply s32_inj; [lia | lia | congruence].
Qed.

Lemma topology_get_acpi_cpu_tag_injective_witness :
  (1 = 0 -> u32 0 = u32 1 /\ 60 = 84) /\ (1 <> 0 -> 36 = 36).
Proof.
  apply (topology_get_acpi_cpu_tag_injective (fun x => x) 180 topo_table
           fresh_once fresh_once 0 1 1 0 60 84 36 36 36 fresh_once fresh_once
           [] []);
    vm_compute; reflexivity.
Defined.

(** ** The number of cache levels *)










(** ** find_acpi_cpu_topology beyond the root *)

(** X23: levels beyond the termination point return the same unique ID:
    when find_acpi_cpu_topology gives the same tag for [level] and for
    [level + 1], with [level] at least 1, it gives that tag for every
    higher level. *)
Theorem find_acpi_cpu_topology_saturates get_id t fuel once cpu level r once' :
  1 <= level -> level + 1 < 2 ^ 31 ->
  find_acpi_cpu_topology get_id (Some t) fuel once cpu level
  = Ok (r, once') [] ->
  find_acpi_cpu_topology get_id (Some t) fuel once cpu (level + 1)
  = Ok (r, once') [] ->
  forall level',
    level <= level' < 2 ^ 31 -> level' < Z.of_nat fuel ->
    find_acpi_cpu_topology get_id (Some t) fuel once cpu level'
    = Ok (r, once') [].
Proof.
  intros H1 H2 Hl Hl1 level' Hr' Hf'.
  unfold find_acpi_cpu_topology, find_acpi_cpu_topology_tag in *.
  destruct (acpi_find_processor_node fuel t (u32 (get_id cpu)))
    as [[leaf|] l0| |] eqn:Hfind.
  - assert (Hn : level <> 0) by lia. assert (Hn1 : level + 1 <> 0) by lia.
    assert (Hn' : level' <> 0) by lia.
    destruct (topology_tag_found_inv _ _ _ _ _ _ _ _ _ _ _ _ Hn Hfind Hl)
      as (a & Hp & Ha & -> & -> & _).
    destruct (topology_tag_found_inv _ _ _ _ _ _ _ _ _ _ _ _ Hn1 Hfind Hl1)
      as (a' & Hp' & Ha' & E & _).
    pose proof (table_length_range t) as Hlen.
    assert (a' = a) as ->
      by (symmetry; apply s32_inj; [lia | lia | assumption]).
    assert (H0 : 0 <= level) by lia.
    pose proof (package_id_loop_saturates fuel t leaf level 0 a H0 H2
                  Hp Hp' level' fuel Hr' Hf') as Hsat.
    apply (topology_tag_of_node _ _ _ _ _ _ _ _ _ _ _ Hn' Hfind Hsat).
  - rewrite (topology_tag_not_found _ _ _ _ _ _ _ _ Hfind) in Hl.
    rewrite (topology_tag_not_found _ _ _ _ _ _ _ _ Hfind). exact Hl.
  - unfold topology_get_acpi_cpu_tag in Hl. rewrite Hfind in Hl. discriminate.
  - unfold topology_get_acpi_cpu_tag in Hl. rewrite Hfind in Hl. discriminate.
Qed.

Lemma find_acpi_cpu_topology_saturates_witness :
  find_acpi_cpu_topology (fun x => x) (Some topo_table) 180 fresh_once 1 9
  = Ok (36, fresh_once) [].
Proof.
  apply (find_acpi_cpu_topology_saturates (fun x => x) topo_table 180
           fresh_once 1 1 36 fresh_once);
    try lia; vm_compute; reflexivity.
Defined.
